(** * Planning service: confidence scoring, window optimisation and merging,
      the collection-plan state machine and the optimisation orchestrator

    A shallow embedding of
      - [planning-service/src/utils/calculation_utils.py],
      - [planning-service/src/models/collection_plan.py],
      - [planning-service/src/services/optimization_service.py],
      - [planning-service/src/services/earthn_service.py],
    and of the parts of [planning-service/src/models/asset.py] and
    [planning-service/src/services/planning_service.py] they rely on.

    Conventions of the embedding.
      - A Python [float] is an exact rational ([Q]); results are compared
        with [==] ([Qeq]).  NaN and the infinities are not values of [Q],
        so the decorator [validate_numerical_inputs], which rejects
        exactly those and otherwise calls the function unchanged, is the
        identity wrapper here.
      - A [datetime] is its integer number of microseconds (the resolution
        of Python's [datetime]); [timedelta.total_seconds()] divides by
        10^6.
      - A raised exception is a value [Raise e]; code that mutates a plan
        and may raise is a function from the plan to the plan it leaves
        behind together with the outcome, so the mutations performed
        before a [raise] stay visible. *)

From Stdlib Require Import ZArith QArith Qabs Lqa.
From stdpp Require Import gmap strings list fin_maps sorting.

#[local] Set Warnings "-clear-no-such-hyp".

#[local] Open Scope Q_scope.
#[local] Open Scope string_scope.

(** ** Exceptions and results *)

Inductive exc_class :=
| ValueError
| RuntimeError
| KeyError
| ZeroDivisionError
| AttributeError
| IndexError
| ValidationError
| HTTPStatusError
| RequestError
| RetryError.

(** [exc_message] is the literal text of the message; the interpolated
    tail of an f-string that prints a set, a status or an id is left
    out. *)
Record exception := Exception { exc_type : exc_class; exc_message : string }.

Inductive result (A : Type) :=
| Ok (a : A)
| Raise (e : exception).
Arguments Ok {A} a.
Arguments Raise {A} e.

#[export] Instance result_ret : MRet result := fun A a => Ok a.
#[export] Instance result_bind : MBind result :=
  fun A B f m => match m with Ok a => f a | Raise e => Raise e end.

Definition is_Ok {A} (r : result A) : Prop := exists a, r = Ok a.
Definition is_Raise {A} (r : result A) : Prop := exists e, r = Raise e.

(** A computation over a mutable object of type [S]. *)
Definition stateful (S A : Type) : Type := S -> S * result A.

Definition sret {S A} (a : A) : stateful S A := fun s => (s, Ok a).
Definition sraise {S A} (e : exception) : stateful S A := fun s => (s, Raise e).
Definition sbind {S A B} (m : stateful S A) (k : A -> stateful S B) : stateful S B :=
  fun s => match m s with
           | (s', Ok a) => k a s'
           | (s', Raise e) => (s', Raise e)
           end.
Definition sget {S} : stateful S S := fun s => (s, Ok s).
Definition smodify {S} (f : S -> S) : stateful S unit := fun s => (f s, Ok tt).
Definition slift {S A} (r : result A) : stateful S A := fun s => (s, r).

#[export] Instance stateful_ret {S} : MRet (stateful S) := fun A a => sret a.
#[export] Instance stateful_bind {S} : MBind (stateful S) := fun A B k m => sbind m k.

(** ** Numeric helpers (Python builtins and numpy) *)

Definition Qltb (a b : Q) : bool := negb (Qle_bool b a).

(** [max(a, b)] and [min(a, b)]: the first argument wins a tie. *)
Definition py_max (a b : Q) : Q := if Qltb a b then b else a.
Definition py_min (a b : Q) : Q := if Qltb b a then b else a.

(** [np.clip(v, lo, hi)]. *)
Definition np_clip (v lo hi : Q) : Q :=
  if Qltb v lo then lo else if Qltb hi v then hi else v.

(** [np.isclose(a, b, rtol=rtol)], with numpy's default [atol = 1e-08]:
    [|a - b| <= atol + rtol * |b|]. *)
Definition NP_DEFAULT_ATOL : Q := 0.00000001.
Definition np_isclose (a b rtol : Q) : bool :=
  Qle_bool (Qabs (a - b)) (NP_DEFAULT_ATOL + rtol * Qabs b).

(** [sum(xs)]: left to right, from 0. *)
Definition py_sum (xs : list Q) : Q := foldl Qplus 0 xs.

(** ** calculation_utils.py: constants *)

Definition CONFIDENCE_WEIGHT_FACTORS : gmap string Q :=
  {[ "temporal" := 0.4; "spatial" := 0.3; "spectral" := 0.2; "radiometric" := 0.1 ]}.
Definition MIN_OVERLAP_THRESHOLD : Q := 0.6.
Definition MAX_GAP_DURATION : Q := 3600.
Definition NUMERICAL_TOLERANCE : Q := 0.0000000001.
Definition MIN_WINDOW_DURATION : Q := 300.

(** [handle_calculation_errors]: any exception of the wrapped function
    becomes [RuntimeError("Calculation error: " + str(e))]. *)
Definition handle_calculation_errors {A} (r : result A) : result A :=
  match r with
  | Ok a => Ok a
  | Raise e => Raise (Exception RuntimeError ("Calculation error: " ++ exc_message e))
  end.

(** [d[k]] on a dict of floats. *)
Definition getitem (d : gmap string Q) (k : string) : result Q :=
  match d !! k with
  | Some v => Ok v
  | None => Raise (Exception KeyError ("'" ++ k ++ "'"))
  end.

(** The keys of [required_params = set(CONFIDENCE_WEIGHT_FACTORS.keys())].
    Python iterates a set of strings in an order that is not fixed; the
    sum below visits the keys in the order the dict literal lists them,
    and the value of the sum does not depend on that order up to [==]. *)
Definition required_params : gset string := dom CONFIDENCE_WEIGHT_FACTORS.
Definition required_params_iter : list string :=
  ["temporal"; "spatial"; "spectral"; "radiometric"].

(** [sum(weights[k] * clipped_params[k] for k in required_params)]. *)
Fixpoint weighted_sum (weights clipped : gmap string Q) (keys : list string) (acc : Q)
  : result Q :=
  match keys with
  | [] => Ok acc
  | k :: ks =>
      w ← getitem weights k;
      v ← getitem clipped k;
      weighted_sum weights clipped ks (acc + w * v)
  end.

(** [sum(weights.values())]. *)
Definition sum_values (d : gmap string Q) : Q := py_sum (snd <$> map_to_list d).

(** The final bounds check and snapping of [calculate_confidence_score]. *)
Definition snap_score (score : Q) : Q :=
  let score := np_clip score 0 1 in
  if np_isclose score 0 NUMERICAL_TOLERANCE then 0
  else if np_isclose score 1 NUMERICAL_TOLERANCE then 1
  else score.

(** The undecorated body of [calculate_confidence_score]. *)
Definition calculate_confidence_score_body
  (parameters : gmap string Q) (custom_weights : option (gmap string Q)) : result Q :=
  if negb (bool_decide (required_params ⊆ dom parameters)) then
    Raise (Exception ValueError "Missing required parameters")
  else
    let weights :=
      match custom_weights with
      | Some w => if bool_decide (size w = 0%nat) then CONFIDENCE_WEIGHT_FACTORS else w
      | None => CONFIDENCE_WEIGHT_FACTORS
      end in
    if negb (np_isclose (sum_values weights) 1 NUMERICAL_TOLERANCE) then
      Raise (Exception ValueError "Weight factors must sum to 1.0")
    else
      let clipped_params := (fun v => np_clip v 0 1) <$> parameters in
      score ← weighted_sum weights clipped_params required_params_iter 0;
      Ok (snap_score score).

(** [@validate_numerical_inputs @handle_calculation_errors
     def calculate_confidence_score(parameters, custom_weights=None)]. *)
Definition calculate_confidence_score
  (parameters : gmap string Q) (custom_weights : option (gmap string Q)) : result Q :=
  handle_calculation_errors (calculate_confidence_score_body parameters custom_weights).

(** ** Time *)

(** A [datetime], in microseconds. *)
Definition datetime : Type := Z.

(** [(a - b).total_seconds()] for the difference [d = a - b]. *)
Definition total_seconds (d : Z) : Q := d # 1000000.

(** ** Sorting: Python's [sorted] and [list.sort] are stable *)

(** [insert_by le x l] puts [x] in front of the first element [y] with
    [le x y]; folding it from the right over a list is a stable sort when
    [le x y] holds for equal keys. *)
Fixpoint insert_by {A} (le : A -> A -> bool) (x : A) (l : list A) : list A :=
  match l with
  | [] => [x]
  | y :: l' => if le x y then x :: l else y :: insert_by le x l'
  end.

Definition stable_sort {A} (le : A -> A -> bool) (l : list A) : list A :=
  foldr (insert_by le) [] l.

(** ** Window dictionaries of calculation_utils.py *)

(** The four per-dimension scores an oracle window may carry. *)
Record dimension_scores := DimensionScores {
  temporal_score : option Q;
  spatial_score : option Q;
  spectral_score : option Q;
  radiometric_score : option Q
}.

Definition no_scores : dimension_scores := DimensionScores None None None None.

(** The dict [process_window] builds and [merge_overlapping_windows]
    updates: keys ['start_time'], ['end_time'], ['confidence_score'],
    and, when present, ['duration'], ['sample_count'] and the oracle's
    dimension scores. *)
Record window := Window {
  start_time : datetime;
  end_time : datetime;
  duration : option Q;
  sample_count : option nat;
  confidence_score : Q;
  scores : dimension_scores
}.

(** The [constraints] dict: [constraints.get('max_duration', float('inf'))]
    and [constraints.get('optimal_duration', ...)]. *)
Record constraints := Constraints {
  max_duration : option Q;
  optimal_duration : option Q
}.

(** ** optimize_time_windows *)

(** The [while] loop of [process_window]: [later] holds the samples from
    [end_idx] on; [end_idx] advances while the sample is no later than
    [max_duration] after [start]. *)
Fixpoint grow_end (start : datetime) (max_dur : option Q) (later : list datetime)
  (end_idx : nat) : nat :=
  match later with
  | [] => end_idx
  | t :: later' =>
      let within :=
        match max_dur with
        | Some m => Qle_bool (total_seconds (t - start)) m
        | None => true
        end in
      if within then grow_end start max_dur later' (S end_idx) else end_idx
  end.

(** [sorted_times[i]]. *)
Definition time_at (sorted_times : list datetime) (i : nat) : result datetime :=
  match sorted_times !! i with
  | Some t => Ok t
  | None => Raise (Exception IndexError "list index out of range")
  end.

(** [a / b] on floats. *)
Definition py_div (a b : Q) : result Q :=
  if Qeq_bool b 0 then Raise (Exception ZeroDivisionError "float division by zero")
  else Ok (a / b).

Definition process_window (sorted_times : list datetime) (c : constraints)
  (start_idx : nat) : result (option window) :=
  start ← time_at sorted_times start_idx;
  let end_idx := grow_end start (max_duration c) (drop (S start_idx) sorted_times)
                   (S start_idx) in
  if (end_idx - start_idx <? 2)%nat then Ok None
  else
    stop ← time_at sorted_times (end_idx - 1);
    let dur := total_seconds (stop - start) in
    ratio ← py_div dur (default dur (optimal_duration c));
    let params : gmap string Q :=
      {[ "temporal" := py_min ratio 1; "spatial" := 1;
         "spectral" := 1; "radiometric" := 1 ]} in
    score ← calculate_confidence_score params None;
    Ok (Some (Window start stop (Some dur) (Some (end_idx - start_idx)%nat) score
                no_scores)).

(** [executor.map(process_window, range(n))] yields the results in index
    order and re-raises the first exception met in that order. *)
Fixpoint map_results {A B} (f : A -> result B) (l : list A) : result (list B) :=
  match l with
  | [] => Ok []
  | x :: l' => y ← f x; ys ← map_results f l'; Ok (y :: ys)
  end.

(** [windows[:k]] for an integer [k]. *)
Definition slice_to {A} (k : Z) (l : list A) : list A :=
  if (0 <=? k)%Z then take (Z.to_nat k) l
  else take (length l - Z.to_nat (- k)) l.

(** The key comparison of [windows.sort(key=confidence_score, reverse=True)]. *)
Definition confidence_desc (x y : window) : bool :=
  Qle_bool (confidence_score y) (confidence_score x).

Definition optimize_time_windows (candidate_times : list datetime) (c : constraints)
  (max_windows : option Z) : result (list window) :=
  match candidate_times with
  | [] => Ok []
  | _ =>
      let sorted_times := stable_sort Z.leb candidate_times in
      if Qltb (total_seconds (List.last sorted_times 0%Z - hd 0%Z sorted_times))
              MIN_WINDOW_DURATION then
        Raise (Exception ValueError "Time span must be at least 300 seconds")
      else
        rs ← map_results (process_window sorted_times c) (seq 0 (length sorted_times));
        let windows := stable_sort confidence_desc (omap id rs) in
        match max_windows with
        | Some k => if (k =? 0)%Z then Ok windows else Ok (slice_to k windows)
        | None => Ok windows
        end
  end.

(** ** merge_overlapping_windows *)

(** The [for] loop: [current] is the accumulator, [rest] the windows still
    to visit; the returned list is [merged] with the last accumulator
    appended.  The dicts are handled by value: the source updates the
    accumulator in place, and since an accumulator is never touched again
    once it has been appended to [merged], only the caller's input list
    can observe the difference. *)
Fixpoint merge_pass (current : window) (rest : list window) : list window :=
  match rest with
  | [] => [current]
  | next_window :: rest' =>
      if Qle_bool (total_seconds (start_time next_window - end_time current))
                  MAX_GAP_DURATION
      then
        let new_end := Z.max (end_time current) (end_time next_window) in
        merge_pass
          (Window (start_time current) new_end
             (Some (total_seconds (new_end - start_time current)))
             (sample_count current)
             (py_max (confidence_score current) (confidence_score next_window))
             (scores current))
          rest'
      else current :: merge_pass next_window rest'
  end.

Definition start_le (x y : window) : bool := (start_time x <=? start_time y)%Z.

Definition merge_overlapping_windows (windows : list window) : list window :=
  match stable_sort start_le windows with
  | [] => []
  | current :: rest => merge_pass current rest
  end.

(** ** collection_plan.py *)

Definition PLAN_STATUS_TYPES : list string :=
  ["DRAFT"; "PROCESSING"; "OPTIMIZED"; "FAILED"].
Definition MIN_CONFIDENCE_SCORE : Q := 0.
Definition MAX_CONFIDENCE_SCORE : Q := 1.

Module CollectionWindow.

Record t := Make {
  start_time : datetime;
  end_time : datetime;
  confidence_score : Q;
  parameters : list (string * string)
}.

Definition validate (self : t) : result bool :=
  if (end_time self <=? start_time self)%Z then
    Raise (Exception ValidationError "Start time must be before end time")
  else if Qltb (total_seconds (end_time self - start_time self)) MIN_WINDOW_DURATION then
    Raise (Exception ValidationError
             "Collection window duration must be at least 300 seconds")
  else if negb (Qle_bool MIN_CONFIDENCE_SCORE (confidence_score self)
                && Qle_bool (confidence_score self) MAX_CONFIDENCE_SCORE) then
    Raise (Exception ValidationError "Confidence score must be between 0.0 and 1.0")
  else Ok true.

End CollectionWindow.

(** What a caller hands to [add_collection_window]: a [CollectionWindow]
    object, or one of the window dicts of calculation_utils.py. *)
Inductive py_window :=
| ObjectWindow (w : CollectionWindow.t)
| DictWindow (d : window).

Module CollectionPlan.

(** [asset] and [requirements] stand for the [Asset] and [Requirement]
    objects, which the operations below only pass along. *)
Record t := Make {
  search_id : string;
  asset : string;
  requirements : list string;
  start_time : datetime;
  end_time : datetime;
  optimization_parameters : constraints;
  id : string;
  status : string;
  confidence_score : Q;
  collection_windows : list CollectionWindow.t;
  created_at : datetime;
  updated_at : datetime
}.

Definition set_status (v : string) (p : t) : t :=
  Make (search_id p) (asset p) (requirements p) (start_time p) (end_time p)
    (optimization_parameters p) (id p) v (confidence_score p)
    (collection_windows p) (created_at p) (updated_at p).

Definition set_confidence_score (v : Q) (p : t) : t :=
  Make (search_id p) (asset p) (requirements p) (start_time p) (end_time p)
    (optimization_parameters p) (id p) (status p) v
    (collection_windows p) (created_at p) (updated_at p).

Definition set_collection_windows (v : list CollectionWindow.t) (p : t) : t :=
  Make (search_id p) (asset p) (requirements p) (start_time p) (end_time p)
    (optimization_parameters p) (id p) (status p) (confidence_score p)
    v (created_at p) (updated_at p).

Definition set_updated_at (v : datetime) (p : t) : t :=
  Make (search_id p) (asset p) (requirements p) (start_time p) (end_time p)
    (optimization_parameters p) (id p) (status p) (confidence_score p)
    (collection_windows p) (created_at p) v.

(** [window.start_time < existing.end_time and
     window.end_time > existing.start_time]. *)
Definition overlaps (w existing : CollectionWindow.t) : bool :=
  (CollectionWindow.start_time w <? CollectionWindow.end_time existing)%Z
  && (CollectionWindow.start_time existing <? CollectionWindow.end_time w)%Z.

(** [sum(w.confidence_score for w in ws) / len(ws)]. *)
Definition mean_confidence (ws : list CollectionWindow.t) : Q :=
  py_sum (CollectionWindow.confidence_score <$> ws) / inject_Z (Z.of_nat (length ws)).

(** [add_collection_window(self, window)]; [now] is the reading of
    [datetime.now(timezone.utc)]. *)
Definition add_collection_window (now : datetime) (window : py_window)
  : stateful t unit :=
  match window with
  | DictWindow _ =>
      (* [window.validate()] on a dict *)
      sraise (Exception AttributeError "'dict' object has no attribute 'validate'")
  | ObjectWindow w =>
      _ ← slift (CollectionWindow.validate w);
      self ← sget;
      if (CollectionWindow.start_time w <? start_time self)%Z
         || (end_time self <? CollectionWindow.end_time w)%Z then
        sraise (Exception ValidationError
                  "Collection window must be within plan time range")
      else if existsb (overlaps w) (collection_windows self) then
        sraise (Exception ValidationError "Collection windows cannot overlap")
      else
        _ ← smodify (fun p => set_collection_windows (collection_windows p ++ [w]) p);
        _ ← smodify (fun p =>
               match collection_windows p with
               | [] => p
               | ws => set_confidence_score (mean_confidence ws) p
               end);
        smodify (set_updated_at now)
  end.

Definition valid_transitions : gmap string (list string) :=
  {[ "DRAFT" := ["PROCESSING"];
     "PROCESSING" := ["OPTIMIZED"; "FAILED"];
     "OPTIMIZED" := [];
     "FAILED" := ["DRAFT"] ]}.

(** [update_status(self, new_status)]. *)
Definition update_status (now : datetime) (new_status : string) : stateful t unit :=
  if negb (bool_decide (new_status ∈ PLAN_STATUS_TYPES)) then
    sraise (Exception ValidationError "Invalid status")
  else
    self ← sget;
    match valid_transitions !! status self with
    | None => sraise (Exception KeyError ("'" ++ status self ++ "'"))
    | Some allowed =>
        if negb (bool_decide (new_status ∈ allowed)) then
          sraise (Exception ValidationError "Invalid status transition")
        else
          _ ← smodify (set_status new_status);
          smodify (set_updated_at now)
    end.

End CollectionPlan.

(** ** Oracle results (the JSON handled by both services) *)

(** A window of the oracle's result: ISO timestamps, the raw dimension
    scores and, once [_process_planning_results] has run, a
    ['confidence_score']. *)
Record oracle_window := OracleWindow {
  ow_start_time : datetime;
  ow_end_time : datetime;
  ow_scores : dimension_scores;
  ow_confidence_score : option Q
}.

(** The ['results'] dict: empty exactly when both keys are missing. *)
Record results := Results {
  collection_windows : option (list oracle_window);
  overall_confidence : option Q
}.

(** [window.get('temporal_score', 0.0)] and its three siblings, as the
    parameter dict handed to [calculate_confidence_score]. *)
Definition confidence_params (s : dimension_scores) : gmap string Q :=
  {[ "temporal" := default 0 (temporal_score s);
     "spatial" := default 0 (spatial_score s);
     "spectral" := default 0 (spectral_score s);
     "radiometric" := default 0 (radiometric_score s) ]}.

(** ** optimization_service.py *)

Definition OPTIMIZATION_TIMEOUT : Q := 300.
Definition MAX_OPTIMIZATION_ATTEMPTS : nat := 3.
Definition MIN_ACCEPTABLE_SCORE : Q := 0.6.
Definition MAX_CONCURRENT_OPTIMIZATIONS : nat := 10.

(** The first loop of [process_optimization_results]: every window gets
    its ['confidence_score']; the windows reaching [MIN_ACCEPTABLE_SCORE]
    are kept, in order. *)
Fixpoint validate_windows (windows : list oracle_window) : result (list window) :=
  match windows with
  | [] => Ok []
  | w :: ws =>
      score ← calculate_confidence_score (confidence_params (ow_scores w)) None;
      rest ← validate_windows ws;
      let scored := Window (ow_start_time w) (ow_end_time w) None None score (ow_scores w) in
      if Qle_bool MIN_ACCEPTABLE_SCORE score then Ok (scored :: rest) else Ok rest
  end.

(** [calculate_plan_confidence(windows, weights=None)]. *)
Definition calculate_plan_confidence (windows : list window)
  (weights : option (gmap string Q)) : result Q :=
  match windows with
  | [] => Ok 0
  | _ =>
      let default_weights : gmap string Q :=
        {[ "temporal" := 0.4; "spatial" := 0.3; "spectral" := 0.2; "radiometric" := 0.1 ]} in
      let weights :=
        match weights with
        | Some w => if bool_decide (size w = 0%nat) then default_weights else w
        | None => default_weights
        end in
      window_scores ← map_results
        (fun w => calculate_confidence_score (confidence_params (scores w)) (Some weights))
        windows;
      Ok (py_sum window_scores / inject_Z (Z.of_nat (length window_scores)))
  end.

(** The windows [process_optimization_results] goes on to add to the
    plan: scoring and filtering, then [optimize_time_windows] over the
    start times of the kept windows, then [merge_overlapping_windows]. *)
Definition final_windows (rs : results) (optimization_parameters : constraints)
  : result (list window) :=
  match collection_windows rs with
  | None | Some [] => Raise (Exception ValueError "No valid collection windows in results")
  | Some windows =>
      validated_windows ← validate_windows windows;
      optimized_windows ← optimize_time_windows (start_time <$> validated_windows)
                             optimization_parameters None;
      Ok (merge_overlapping_windows optimized_windows)
  end.

(** [for window in final_windows: plan.add_collection_window(window)]. *)
Fixpoint add_all (now : datetime) (ws : list window) : stateful CollectionPlan.t unit :=
  match ws with
  | [] => sret tt
  | w :: ws' =>
      _ ← CollectionPlan.add_collection_window now (DictWindow w);
      add_all now ws'
  end.

Definition process_optimization_results (now : datetime) (rs : results)
  : stateful CollectionPlan.t unit :=
  plan ← sget;
  final ← slift (final_windows rs (CollectionPlan.optimization_parameters plan));
  _ ← add_all now final;
  confidence ← slift (calculate_plan_confidence final None);
  _ ← smodify (CollectionPlan.set_confidence_score confidence);
  CollectionPlan.update_status now "OPTIMIZED".

(** *** The orchestrator *)

Record performance_metrics := PerformanceMetrics {
  total_optimizations : nat;
  cache_hits : nat;
  failed_attempts : nat;
  average_duration : Q
}.

(** The plan being optimised and the service's own state.  The cache maps
    [(plan.id, plan.asset.id, plan.start_time)], the three parts of the
    cache key, to the stored snapshot of a plan; the expiry of entries is
    left to the environment. *)
Record world := World {
  plan : CollectionPlan.t;
  optimization_cache : gmap (string * string * Z) CollectionPlan.t;
  metrics : performance_metrics;
  max_concurrent : nat
}.

Definition on_plan {A} (m : stateful CollectionPlan.t A) : stateful world A :=
  fun w =>
    let '(p, r) := m (plan w) in
    (World p (optimization_cache w) (metrics w) (max_concurrent w), r).

Definition set_metrics (f : performance_metrics -> performance_metrics) (w : world) : world :=
  World (plan w) (optimization_cache w) (f (metrics w)) (max_concurrent w).

Definition set_cache (f : gmap (string * string * Z) CollectionPlan.t ->
                          gmap (string * string * Z) CollectionPlan.t) (w : world) : world :=
  World (plan w) (f (optimization_cache w)) (metrics w) (max_concurrent w).

(** What [get_planning_status] answers to one poll: a status dict, or an
    exception. *)
Record status_dict := StatusDict {
  sd_status : string;
  sd_results : option results;
  sd_error : option string
}.

(** What the attempt meets outside itself.  [polls] lists, for each pass
    through the [while] test, the reading of the event-loop clock at the
    test and the answer a poll issued in that pass receives. *)
Record environment := Environment {
  wall_now : datetime;
  loop_start : Q;
  submit_reply : result string;
  polls : list (Q * result status_dict);
  loop_end : Q
}.

(** An attempt that may run past the end of the recorded [polls]: [None]
    means the recorded environment is too short to tell the outcome. *)
Definition task (S A : Type) : Type := S -> option (S * result A).

Definition tlift {S A} (m : stateful S A) : task S A := fun s => Some (m s).
Definition tbind {S A B} (m : task S A) (k : A -> task S B) : task S B :=
  fun s => match m s with
           | None => None
           | Some (s', Ok a) => k a s'
           | Some (s', Raise e) => Some (s', Raise e)
           end.
(** [try: body except Exception as e: handler(e)]. *)
Definition try_except {S A} (body : task S A) (handler : exception -> task S A) : task S A :=
  fun s => match body s with
           | None => None
           | Some (s', Ok a) => Some (s', Ok a)
           | Some (s', Raise e) => handler e s'
           end.

#[export] Instance task_ret {S} : MRet (task S) := fun A a => tlift (sret a).
#[export] Instance task_bind {S} : MBind (task S) := fun A B k m => tbind m k.

(** [not result] for the value the loop leaves in [result]: [None] or an
    empty dict. *)
Definition falsy_result (r : option results) : bool :=
  match r with
  | None => true
  | Some rs => negb (bool_decide (is_Some (collection_windows rs)))
               && negb (bool_decide (is_Some (overall_confidence rs)))
  end.

(** The poll loop.  It leaves [result]: [Ok None] when the [while] test
    fails with nothing stored. *)
Fixpoint poll_loop (timeout_time : Q) (trace : list (Q * result status_dict))
  : option (result (option results)) :=
  match trace with
  | [] => None
  | (clock, reply) :: trace' =>
      if Qltb clock timeout_time then
        match reply with
        | Raise e => Some (Raise e)
        | Ok status =>
            if bool_decide (sd_status status = "COMPLETED") then
              match sd_results status with
              | Some rs => Some (Ok (Some rs))
              | None => Some (Raise (Exception KeyError "'results'"))
              end
            else if bool_decide (sd_status status = "FAILED") then
              Some (Raise (Exception RuntimeError "Optimization failed"))
            else poll_loop timeout_time trace'
        end
      else Some (Ok None)
  end.

Definition cache_key (p : CollectionPlan.t) : string * string * Z :=
  (CollectionPlan.id p, CollectionPlan.asset p, CollectionPlan.start_time p).

(** One execution of the body of [optimize_collection_plan], that is, one
    attempt of the [@retry] placed around it.  The lock only serialises
    attempts and the one-second back-off under it changes no state, so
    neither appears. *)
Definition optimize_collection_plan (env : environment) : task world CollectionPlan.t :=
  try_except
    (w ← tlift sget;
     match optimization_cache w !! cache_key (plan w) with
     | Some cached_result =>
         _ ← tlift (smodify (set_metrics (fun m =>
                PerformanceMetrics (total_optimizations m) (S (cache_hits m))
                  (failed_attempts m) (average_duration m))));
         mret cached_result
     | None =>
         _ ← tlift (on_plan (CollectionPlan.update_status (wall_now env) "PROCESSING"));
         _ ← tlift (smodify (set_metrics (fun m =>
                PerformanceMetrics (S (total_optimizations m)) (cache_hits m)
                  (failed_attempts m) (average_duration m))));
         let start_time := loop_start env in
         _ ← tlift (slift (submit_reply env));
         let timeout_time := start_time + OPTIMIZATION_TIMEOUT in
         result ← (fun w => match poll_loop timeout_time (polls env) with
                            | None => None
                            | Some r => Some (w, r)
                            end);
         if falsy_result result then
           tlift (sraise (Exception RuntimeError "Optimization timed out"))
         else
           _ ← tlift (on_plan (process_optimization_results (wall_now env)
                                 (default (Results None None) result)));
           let duration := loop_end env - start_time in
           _ ← tlift (smodify (set_metrics (fun m =>
                  PerformanceMetrics (total_optimizations m) (cache_hits m)
                    (failed_attempts m)
                    ((average_duration m
                      * inject_Z (Z.of_nat (total_optimizations m - 1)) + duration)
                     / inject_Z (Z.of_nat (total_optimizations m))))));
           w' ← tlift sget;
           _ ← tlift (smodify (set_cache (insert (cache_key (plan w')) (plan w'))));
           mret (plan w')
     end)
    (fun e =>
       _ ← tlift (smodify (set_metrics (fun m =>
              PerformanceMetrics (total_optimizations m) (cache_hits m)
                (S (failed_attempts m)) (average_duration m))));
       _ ← tlift (on_plan (CollectionPlan.update_status (wall_now env) "FAILED"));
       tlift (sraise e)).

(** ** earthn_service.py *)

Definition MAX_RETRIES : nat := 3.

(** What the HTTP client gives back to one attempt: a response with its
    status code and JSON body, or no response at all
    ([httpx.RequestError]). *)
Inductive http_reply :=
| HttpResponse (status_code : Z) (body : status_dict)
| HttpRequestError.

(** [response.raise_for_status()] passes the 2xx codes only. *)
Definition is_success (status_code : Z) : bool :=
  (200 <=? status_code)%Z && (status_code <=? 299)%Z.

(** tenacity's [@retry(stop=stop_after_attempt(n), wait=...)] around an
    attempt: with no [retry=] argument every exception of the attempt
    leads to another attempt, and after [n] failed attempts the call
    raises [RetryError] (no [reraise=True]).  [replies] are the answers
    the successive attempts receive and [made] counts the attempts; [None]
    means that [replies] is too short to tell the outcome. *)
Fixpoint retrying {R A} (attempt : R -> result A) (max_attempts : nat)
  (replies : list R) (made : nat) : option (nat * result A) :=
  match max_attempts with
  | O => Some (made, Raise (Exception RetryError "RetryError"))
  | S n =>
      match replies with
      | [] => None
      | r :: replies' =>
          match attempt r with
          | Ok a => Some (S made, Ok a)
          | Raise _ => retrying attempt n replies' (S made)
          end
      end
  end.

(** The scoring loop of [_process_planning_results]. *)
Fixpoint score_windows (windows : list oracle_window) : result (list oracle_window) :=
  match windows with
  | [] => Ok []
  | w :: ws =>
      score ← calculate_confidence_score (confidence_params (ow_scores w)) None;
      rest ← score_windows ws;
      Ok (OracleWindow (ow_start_time w) (ow_end_time w) (ow_scores w) (Some score) :: rest)
  end.

Definition ow_confidence_desc (x y : oracle_window) : bool :=
  Qle_bool (default 0 (ow_confidence_score y)) (default 0 (ow_confidence_score x)).

Definition _process_planning_results (rs : results) : result results :=
  match collection_windows rs with
  | None => Ok (Results None (Some 0))
  | Some windows =>
      scored ← score_windows windows;
      let sorted_windows := stable_sort ow_confidence_desc scored in
      match sorted_windows with
      | [] => Ok (Results (Some []) (Some 0))
      | _ =>
          Ok (Results (Some sorted_windows)
                (Some (py_sum ((fun w => default 0 (ow_confidence_score w)) <$> sorted_windows)
                       / inject_Z (Z.of_nat (length sorted_windows)))))
      end
  end.

(** The body of [get_planning_status]: one attempt. *)
Definition get_planning_status_attempt (request_id : string) (reply : http_reply)
  : result status_dict :=
  if bool_decide (request_id = "") then
    Raise (Exception ValueError "Request ID is required")
  else
    match reply with
    | HttpRequestError => Raise (Exception RequestError "request failed")
    | HttpResponse status_code body =>
        if is_success status_code then
          if bool_decide (sd_status body = "COMPLETED") then
            match sd_results body with
            | None => Raise (Exception KeyError "'results'")
            | Some rs =>
                processed ← _process_planning_results rs;
                Ok (StatusDict (sd_status body) (Some processed) (sd_error body))
            end
          else Ok body
        else if (status_code =? 404)%Z then
          Raise (Exception ValueError "Planning request not found")
        else Raise (Exception HTTPStatusError "error response")
    end.

(** The body of [cancel_planning_request]: one attempt. *)
Definition cancel_planning_request_attempt (request_id : string) (reply : http_reply)
  : result bool :=
  if bool_decide (request_id = "") then
    Raise (Exception ValueError "Request ID is required")
  else
    match reply with
    | HttpRequestError => Raise (Exception RequestError "request failed")
    | HttpResponse status_code _ =>
        if is_success status_code then Ok (status_code =? 200)%Z
        else if (status_code =? 404)%Z then
          Raise (Exception ValueError "Planning request not found")
        else Raise (Exception HTTPStatusError "error response")
    end.

(** The decorated methods: the number of attempts made and the outcome. *)
Definition get_planning_status (request_id : string) (replies : list http_reply)
  : option (nat * result status_dict) :=
  retrying (get_planning_status_attempt request_id) MAX_RETRIES replies 0.

Definition cancel_planning_request (request_id : string) (replies : list http_reply)
  : option (nat * result bool) :=
  retrying (cancel_planning_request_attempt request_id) MAX_RETRIES replies 0.

(** ** asset.py: the constants calculation_utils.py imports *)

Definition VALID_ASSET_TYPES : list string :=
  ["ENVIRONMENTAL_MONITORING"; "INFRASTRUCTURE"; "AGRICULTURE"; "CUSTOM"].
Definition MIN_DETECTION_LIMIT : Q := 0.1.
Definition MAX_DETECTION_LIMIT : Q := 100.

(** ** asset.py: [Asset] *)

Definition MIN_SIZE : Q := 0.5.
Definition MAX_SIZE : Q := 1000.
Definition REQUIRED_PROPERTIES : gset string :=
  {[ "resolution"; "spectral_bands"; "revisit_time" ]}.
Definition CURRENT_SCHEMA_VERSION : string := "1.0".

(** The values of the [properties] dict, as far as the [isinstance] tests
    of [Asset.validate] tell them apart. *)
Inductive py_value :=
| PyNone
| PyBool (b : bool)
| PyInt (n : Z)
| PyFloat (x : Q)
| PyStr (s : string)
| PyList (items : list string)
| PyOther.

(** [isinstance(d.get(k), (int, float))]: [bool] is a subclass of [int],
    and a missing key gives [None]. *)
Definition isinstance_int_float (v : option py_value) : bool :=
  match v with
  | Some (PyBool _) | Some (PyInt _) | Some (PyFloat _) => true
  | _ => false
  end.

(** [isinstance(d.get(k), list)]. *)
Definition isinstance_list (v : option py_value) : bool :=
  match v with
  | Some (PyList _) => true
  | _ => false
  end.

(** [isinstance(d.get(k), int)]. *)
Definition isinstance_int (v : option py_value) : bool :=
  match v with
  | Some (PyBool _) | Some (PyInt _) => true
  | _ => false
  end.

Module Asset.

(** The fields hold values of their annotated types; the two timestamps
    are [datetime]s, so the [isinstance] test on them always passes.
    [ValidationError] is the class [asset.py] defines. *)
Record t := Make {
  name : string;
  type : string;
  min_size : Q;
  detection_limit : Q;
  properties : gmap string py_value;
  capabilities : list string;
  id : string;
  created_at : datetime;
  updated_at : datetime;
  schema_version : string
}.

(** [validate(self)]. *)
Definition validate (self : t) : result bool :=
  if negb (bool_decide (type self ∈ VALID_ASSET_TYPES)) then
    Raise (Exception ValidationError "Invalid asset type")
  else if negb (Qle_bool MIN_SIZE (min_size self) && Qle_bool (min_size self) MAX_SIZE) then
    Raise (Exception ValidationError "Invalid minimum size")
  else if negb (Qle_bool MIN_DETECTION_LIMIT (detection_limit self)
                && Qle_bool (detection_limit self) MAX_DETECTION_LIMIT) then
    Raise (Exception ValidationError "Invalid detection limit")
  else if negb (bool_decide (REQUIRED_PROPERTIES ⊆ dom (properties self))) then
    Raise (Exception ValidationError "Missing required properties")
  else if negb (isinstance_int_float (properties self !! "resolution")) then
    Raise (Exception ValidationError "Resolution must be a numeric value")
  else if negb (isinstance_list (properties self !! "spectral_bands")) then
    Raise (Exception ValidationError "Spectral bands must be a list")
  else if negb (isinstance_int (properties self !! "revisit_time")) then
    Raise (Exception ValidationError "Revisit time must be an integer")
  else if negb (bool_decide (schema_version self = CURRENT_SCHEMA_VERSION)) then
    Raise (Exception ValidationError "Invalid schema version")
  else Ok true.

(** The [updates] dict of [update]: the value it gives, if any, to each
    of the six fields that may be updated, of the field's type, and its
    other keys. *)
Record updates := Updates {
  u_name : option string;
  u_type : option string;
  u_min_size : option Q;
  u_detection_limit : option Q;
  u_properties : option (gmap string py_value);
  u_capabilities : option (list string);
  u_other : list string
}.

(** [for field, value in updates.items(): setattr(self, field, value)]. *)
Definition apply_updates (u : updates) (self : t) : t :=
  Make (default (name self) (u_name u)) (default (type self) (u_type u))
    (default (min_size self) (u_min_size u))
    (default (detection_limit self) (u_detection_limit u))
    (default (properties self) (u_properties u))
    (default (capabilities self) (u_capabilities u))
    (id self) (created_at self) (updated_at self) (schema_version self).

Definition set_updated_at (v : datetime) (self : t) : t :=
  Make (name self) (type self) (min_size self) (detection_limit self) (properties self)
    (capabilities self) (id self) (created_at self) v (schema_version self).

(** [update(self, updates)]; [now] is the reading of
    [datetime.now(timezone.utc)]. *)
Definition update (now : datetime) (u : updates) : stateful t unit :=
  if negb (bool_decide (u_other u = [])) then
    sraise (Exception ValidationError "Invalid update fields")
  else
    _ ← smodify (apply_updates u);
    _ ← smodify (set_updated_at now);
    self ← sget;
    _ ← slift (validate self);
    sret tt.

End Asset.

(** ** calculation_utils.py: the remaining functions *)

Definition MAX_MATRIX_SIZE : Z := 10000.

(** The [type_factors] dict of [interpolate_detection_limits]. *)
Definition type_factors : gmap string Q :=
  {[ "ENVIRONMENTAL_MONITORING" := 1.2; "INFRASTRUCTURE" := 1;
     "AGRICULTURE" := 1.1; "CUSTOM" := 1.3 ]}.

(** [interpolate_detection_limits(base_limit, distance, asset_type)]; the
    [lru_cache] around it stores results only and changes none. *)
Definition interpolate_detection_limits (base_limit distance : Q) (asset_type : string)
  : result Q :=
  if negb (bool_decide (asset_type ∈ VALID_ASSET_TYPES)) then
    Raise (Exception ValueError "Invalid asset type")
  else if negb (Qle_bool MIN_DETECTION_LIMIT base_limit
                && Qle_bool base_limit MAX_DETECTION_LIMIT) then
    Raise (Exception ValueError "Base limit must be between 0.1 and 100.0")
  else
    factor ← getitem type_factors asset_type;
    let interpolated := base_limit * (1 + (distance / 1000) * factor) in
    Ok (np_clip interpolated MIN_DETECTION_LIMIT MAX_DETECTION_LIMIT).

(** One cell of the capability matrix: [min(req[cap_name] / cap_value, 1.0)]
    when the requirement names the capability, and the 0 that [np.zeros]
    put there otherwise. *)
Definition capability_cell (req : gmap string Q) (capability : string * Q) : result Q :=
  match req !! capability.1 with
  | Some v => ratio ← py_div v capability.2; Ok (py_min ratio 1)
  | None => Ok 0
  end.

(** [calculate_capability_matrix(requirements, asset_capabilities)]: the
    capabilities dict is the list of its items in insertion order, the
    matrix the list of its rows; [np.mean] of a non-empty matrix is the sum
    of its entries over their number. *)
Definition calculate_capability_matrix (requirements : list (gmap string Q))
  (asset_capabilities : list (string * Q)) : result (list (list Q) * Q) :=
  if (MAX_MATRIX_SIZE <? Z.of_nat (length requirements * length asset_capabilities))%Z then
    Raise (Exception ValueError "Matrix size exceeds maximum of 10000")
  else
    matrix ← map_results (fun req => map_results (capability_cell req) asset_capabilities)
                requirements;
    let size := (length requirements * length asset_capabilities)%nat in
    if (0 <? size)%nat then
      Ok (matrix, py_sum (concat matrix) / inject_Z (Z.of_nat size))
    else Ok (matrix, 0).

(** ** collection_plan.py: [CollectionPlan.validate] *)

(** The loop over [self.collection_windows]. *)
Fixpoint validate_plan_windows (start stop : datetime) (ws : list CollectionWindow.t)
  : result unit :=
  match ws with
  | [] => Ok tt
  | w :: ws' =>
      _ ← CollectionWindow.validate w;
      if (CollectionWindow.start_time w <? start)%Z
         || (stop <? CollectionWindow.end_time w)%Z then
        Raise (Exception ValidationError
                 "Collection window must be within plan time range")
      else validate_plan_windows start stop ws'
  end.

(** [CollectionPlan.validate(self)].  The plan record keeps stand-ins for
    the asset and the requirements, so the outcomes of [self.asset.validate()]
    and of each [requirement.validate()] are handed in. *)
Definition CollectionPlan_validate (asset_validation : result bool)
  (requirement_validations : list (result bool)) (self : CollectionPlan.t) : result bool :=
  _ ← asset_validation;
  _ ← map_results id requirement_validations;
  if (CollectionPlan.end_time self <=? CollectionPlan.start_time self)%Z then
    Raise (Exception ValidationError "Start time must be before end time")
  else if negb (bool_decide (CollectionPlan.status self ∈ PLAN_STATUS_TYPES)) then
    Raise (Exception ValidationError "Invalid status")
  else if negb (Qle_bool MIN_CONFIDENCE_SCORE (CollectionPlan.confidence_score self)
                && Qle_bool (CollectionPlan.confidence_score self) MAX_CONFIDENCE_SCORE) then
    Raise (Exception ValidationError "Confidence score must be between 0.0 and 1.0")
  else
    _ ← validate_plan_windows (CollectionPlan.start_time self) (CollectionPlan.end_time self)
          (CollectionPlan.collection_windows self);
    Ok true.

(** ** planning_service.py: the plan cache *)

Definition PLAN_CACHE_TTL : Q := 3600.

(** [_cleanup_cache]: the keys whose entry is older than the TTL are
    collected first and deleted one by one.  An entry is the cached plan
    with the event-loop time of its last write; [current_time] is the
    reading of the event-loop clock. *)
Definition _cleanup_cache (current_time : Q)
  (plan_cache : gmap (string * string * Z) (CollectionPlan.t * Q))
  : gmap (string * string * Z) (CollectionPlan.t * Q) :=
  let expired_keys :=
    (fun kv : (string * string * Z) * (CollectionPlan.t * Q) => kv.1)
      <$> filter (fun kv => Qltb PLAN_CACHE_TTL (current_time - kv.2.2) = true)
            (map_to_list plan_cache) in
  foldr delete plan_cache expired_keys.

(** ** Vocabulary of the statements *)

(** The edges of the plan state machine. *)
Definition legal_transition (from to : string) : bool :=
  bool_decide ((from, to) ∈ [("DRAFT", "PROCESSING"); ("PROCESSING", "OPTIMIZED");
                             ("PROCESSING", "FAILED"); ("FAILED", "DRAFT")]).

(** Seconds as a [datetime] offset. *)
Definition seconds (n : Z) : datetime := (n * 1000000)%Z.

(** A draft plan covering one day, used in the examples. *)
Definition example_plan : CollectionPlan.t :=
  CollectionPlan.Make "search-1" "asset-1" ["requirement-1"] 0%Z (seconds 86400)
    (Constraints None None) "plan-1" "DRAFT" 0 [] 0%Z 0%Z.

(** [ranked le before x y]: [x] may stand in front of [y] in the output
    of a stable sort by [le] of a list ordered by [before]: the keys are
    in order, and on a tie [x] was already in front of [y]. *)
Definition ranked {A} (le : A -> A -> bool) (before : A -> A -> Prop) (x y : A) : Prop :=
  le x y = true /\ (le y x = true -> before x y).

(** The gap test of [merge_overlapping_windows] between an accumulator
    and the next window. *)
Definition mergeable (current next_window : window) : bool :=
  Qle_bool (total_seconds (start_time next_window - end_time current)) MAX_GAP_DURATION.

(** The accumulator after [next_window] has been merged into it. *)
Definition merged_with (current next_window : window) : window :=
  let new_end := Z.max (end_time current) (end_time next_window) in
  Window (start_time current) new_end
    (Some (total_seconds (new_end - start_time current)))
    (sample_count current)
    (py_max (confidence_score current) (confidence_score next_window))
    (scores current).

(** Two windows overlap (the test [add_collection_window] applies). *)
Definition windows_overlap (a b : window) : Prop :=
  (start_time a < end_time b)%Z /\ (start_time b < end_time a)%Z.

(** [b] starts more than [MAX_GAP_DURATION] after [a] ends. *)
Definition gap_exceeded (a b : window) : Prop :=
  (end_time a + seconds 3600 < start_time b)%Z.


(** A poll answer that keeps the loop going: a status dict whose status is
    neither COMPLETED nor FAILED. *)
Definition pending (reply : result status_dict) : Prop :=
  exists sd, reply = Ok sd /\ sd_status sd <> "COMPLETED" /\ sd_status sd <> "FAILED".

(** The dimension scores (0.9, 0.8, 0.7, 0.9) of the one-window scenario. *)
Definition scenario_scores : dimension_scores :=
  DimensionScores (Some 0.9) (Some 0.8) (Some 0.7) (Some 0.9).

(** The oracle result of the one-window scenario: a single one-hour
    window. *)
Definition one_window_results : results :=
  Results (Some [OracleWindow 0%Z (seconds 3600) scenario_scores None]) None.

(** An oracle result with two one-hour windows, one hour apart. *)
Definition two_window_results : results :=
  Results (Some [OracleWindow 0%Z (seconds 3600) scenario_scores None;
                 OracleWindow (seconds 7200) (seconds 10800) scenario_scores None])
    None.

(** A service that has done nothing yet, holding the example plan. *)
Definition example_world : world :=
  World example_plan ∅ (PerformanceMetrics 0 0 0 0) MAX_CONCURRENT_OPTIMIZATIONS.

(** An environment whose first poll already reports COMPLETED with the
    given results. *)
Definition completed_at_once (rs : results) : environment :=
  Environment 5%Z 0 (Ok "request-1") [(1, Ok (StatusDict "COMPLETED" (Some rs) None))] 2.

(** An environment whose polls report PROCESSING until the clock has
    passed the deadline. *)
Definition never_completed : environment :=
  Environment 5%Z 0 (Ok "request-1")
    [(0, Ok (StatusDict "PROCESSING" None None));
     (150, Ok (StatusDict "PROCESSING" None None));
     (299, Ok (StatusDict "PROCESSING" None None));
     (301, Ok (StatusDict "PROCESSING" None None))] 301.

(** Status bodies of the oracle used in the examples. *)
Definition body_processing : status_dict := StatusDict "PROCESSING" None None.
Definition body_not_found : status_dict := StatusDict "" None (Some "not found").

(** A valid asset, used in the examples. *)
Definition example_asset : Asset.t :=
  Asset.Make "asset-1" "AGRICULTURE" 10 5
    {[ "resolution" := PyFloat 0.5; "spectral_bands" := PyList ["red"; "nir"];
       "revisit_time" := PyInt 3 ]}
    ["optical"] "asset-1" 0%Z 0%Z "1.0".

(** [covers o w]: the window [o] spans [w] and is at least as confident. *)
Definition covers (o w : window) : Prop :=
  (start_time o <= start_time w)%Z /\ (end_time w <= end_time o)%Z
  /\ confidence_score w <= confidence_score o.

(** No two windows of the list overlap. *)
Fixpoint pairwise_disjoint (ws : list CollectionWindow.t) : Prop :=
  match ws with
  | [] => True
  | w :: ws' => Forall (fun e => CollectionPlan.overlaps w e = false) ws'
                /\ pairwise_disjoint ws'
  end.

(** A caller issuing [update_status] calls one after the other and
    catching whatever they raise: the plan after the calls. *)
Definition run_updates (calls : list (datetime * string)) (p : CollectionPlan.t)
  : CollectionPlan.t :=
  foldl (fun p call => (CollectionPlan.update_status call.1 call.2 p).1) p calls.

(** * Properties *)

(** ** Comparisons on [Q] *)

Lemma Qltb_lt a b : Qltb a b = true <-> a < b.
Proof.
  unfold Qltb. rewrite negb_true_iff. split.
  - intros H. apply Qnot_le_lt. intros Hle. apply Qle_bool_iff in Hle. congruence.
  - intros H. destruct (Qle_bool b a) eqn:E; [|done].
    apply Qle_bool_iff in E. lra.
Qed.

Lemma Qltb_ge a b : Qltb a b = false <-> b <= a.
Proof.
  unfold Qltb. rewrite negb_false_iff. apply Qle_bool_iff.
Qed.

Lemma Qle_bool_false a b : Qle_bool a b = false <-> b < a.
Proof.
  rewrite <- (Qltb_lt b a). unfold Qltb. destruct (Qle_bool a b); simpl; split; congruence.
Qed.

Lemma np_clip_range v : 0 <= np_clip v 0 1 <= 1.
Proof.
  unfold np_clip.
  destruct (Qltb v 0) eqn:E0; [lra|].
  destruct (Qltb 1 v) eqn:E1; [lra|].
  apply Qltb_ge in E0, E1. lra.
Qed.

Lemma np_clip_id v : 0 <= v <= 1 -> np_clip v 0 1 = v.
Proof.
  intros [H0 H1]. unfold np_clip.
  destruct (Qltb v 0) eqn:E0; [apply Qltb_lt in E0; lra|].
  destruct (Qltb 1 v) eqn:E1; [apply Qltb_lt in E1; lra|done].
Qed.

Lemma np_clip_proper v v' : v == v' -> np_clip v 0 1 == np_clip v' 0 1.
Proof.
  intros H. unfold np_clip.
  destruct (Qltb v 0) eqn:E0, (Qltb v' 0) eqn:E0';
    try apply Qltb_lt in E0; try apply Qltb_lt in E0';
    try apply Qltb_ge in E0; try apply Qltb_ge in E0'; try lra.
  destruct (Qltb 1 v) eqn:E1, (Qltb 1 v') eqn:E1';
    try apply Qltb_lt in E1; try apply Qltb_lt in E1';
    try apply Qltb_ge in E1; try apply Qltb_ge in E1'; lra.
Qed.

Lemma np_isclose_spec a b rtol :
  np_isclose a b rtol = true <->
  - (NP_DEFAULT_ATOL + rtol * Qabs b) <= a - b <= NP_DEFAULT_ATOL + rtol * Qabs b.
Proof.
  unfold np_isclose. rewrite Qle_bool_iff. apply Qabs_Qle_condition.
Qed.

Lemma isclose_zero s :
  np_isclose s 0 NUMERICAL_TOLERANCE = true <-> - (0.00000001) <= s <= 0.00000001.
Proof.
  rewrite np_isclose_spec. unfold NP_DEFAULT_ATOL, NUMERICAL_TOLERANCE.
  change (Qabs 0) with 0. split; intros; lra.
Qed.

Lemma isclose_one s :
  np_isclose s 1 NUMERICAL_TOLERANCE = true <-> - (0.0000000101) <= s - 1 <= 0.0000000101.
Proof.
  rewrite np_isclose_spec. unfold NP_DEFAULT_ATOL, NUMERICAL_TOLERANCE.
  change (Qabs 1) with 1. split; intros; lra.
Qed.

(** The snapped score always lies in [0, 1]. *)
Lemma snap_score_range s : 0 <= snap_score s <= 1.
Proof.
  unfold snap_score.
  destruct (np_isclose _ 0 _); [lra|].
  destruct (np_isclose _ 1 _); [lra|].
  apply np_clip_range.
Qed.

(** Away from the two snapping zones a score in [0, 1] is returned as it is. *)
Lemma snap_score_id s :
  0.00000001 < s -> s < 1 - 0.0000000101 -> snap_score s = s.
Proof.
  intros Hlo Hhi. unfold snap_score.
  rewrite np_clip_id by lra.
  destruct (np_isclose s 0 _) eqn:E0; [apply isclose_zero in E0; lra|].
  destruct (np_isclose s 1 _) eqn:E1; [apply isclose_one in E1; lra|done].
Qed.

Lemma snap_score_one s : 1 - 0.0000000101 <= s -> snap_score s = 1.
Proof.
  intros H. unfold snap_score.
  pose proof (np_clip_range s) as Hr.
  assert (1 - 0.0000000101 <= np_clip s 0 1) as Hc.
  { unfold np_clip. destruct (Qltb s 0) eqn:E0; [apply Qltb_lt in E0; lra|].
    destruct (Qltb 1 s); lra. }
  destruct (np_isclose _ 0 _) eqn:E0; [apply isclose_zero in E0; lra|].
  destruct (np_isclose _ 1 _) eqn:E1; [done|].
  assert (np_isclose (np_clip s 0 1) 1 NUMERICAL_TOLERANCE = true) as E;
    [apply isclose_one; lra | congruence].
Qed.

Lemma snap_score_zero s : s <= 0.00000001 -> snap_score s = 0.
Proof.
  intros H. unfold snap_score.
  pose proof (np_clip_range s) as Hr.
  assert (np_clip s 0 1 <= 0.00000001) as Hc.
  { unfold np_clip. destruct (Qltb s 0) eqn:E0; [lra|].
    destruct (Qltb 1 s) eqn:E1; [apply Qltb_lt in E1; lra | lra]. }
  destruct (np_isclose _ 0 _) eqn:E0; [done|].
  assert (np_isclose (np_clip s 0 1) 0 NUMERICAL_TOLERANCE = true) as E;
    [apply isclose_zero; lra | congruence].
Qed.

Lemma snap_score_proper s s' : s == s' -> snap_score s == snap_score s'.
Proof.
  intros H. unfold snap_score.
  pose proof (np_clip_proper s s' H) as Hc.
  destruct (np_isclose (np_clip s 0 1) 0 _) eqn:E0,
           (np_isclose (np_clip s' 0 1) 0 _) eqn:E0'; try reflexivity.
  - apply isclose_zero in E0.
    assert (np_isclose (np_clip s' 0 1) 0 NUMERICAL_TOLERANCE = true) as E;
      [apply isclose_zero; lra | congruence].
  - apply isclose_zero in E0'.
    assert (np_isclose (np_clip s 0 1) 0 NUMERICAL_TOLERANCE = true) as E;
      [apply isclose_zero; lra | congruence].
  - destruct (np_isclose (np_clip s 0 1) 1 _) eqn:E1,
             (np_isclose (np_clip s' 0 1) 1 _) eqn:E1'; try reflexivity; try done.
    + apply isclose_one in E1.
      assert (np_isclose (np_clip s' 0 1) 1 NUMERICAL_TOLERANCE = true) as E;
        [apply isclose_one; lra | congruence].
    + apply isclose_one in E1'.
      assert (np_isclose (np_clip s 0 1) 1 NUMERICAL_TOLERANCE = true) as E;
        [apply isclose_one; lra | congruence].
Qed.

(** ** Sums *)

Lemma foldl_Qplus_proper (l : list Q) a b : a == b -> foldl Qplus a l == foldl Qplus b l.
Proof.
  revert a b. induction l as [|x l IH]; intros a b Hab; simpl; [done|].
  apply IH. lra.
Qed.

Lemma foldl_Qplus_perm (l l' : list Q) :
  l ≡ₚ l' -> forall a, foldl Qplus a l == foldl Qplus a l'.
Proof.
  induction 1 as [|x l l' _ IH|x y l|l l' l'' _ IH1 _ IH2]; intros a; simpl.
  - reflexivity.
  - apply IH.
  - apply foldl_Qplus_proper. lra.
  - rewrite IH1. apply IH2.
Qed.

Lemma py_sum_perm (l l' : list Q) : l ≡ₚ l' -> py_sum l == py_sum l'.
Proof. intros H. apply foldl_Qplus_perm, H. Qed.

(** A dict with exactly the four required keys. *)
Lemma four_key_map (d : gmap string Q) (t s c r : Q) :
  d !! "temporal" = Some t -> d !! "spatial" = Some s ->
  d !! "spectral" = Some c -> d !! "radiometric" = Some r ->
  dom d = required_params ->
  d = {[ "temporal" := t; "spatial" := s; "spectral" := c; "radiometric" := r ]}.
Proof.
  intros Ht Hs Hc Hr Hdom. apply map_eq. intros k.
  destruct (decide (k = "temporal")) as [->|Nt]; [by rewrite Ht|].
  destruct (decide (k = "spatial")) as [->|Ns]; [by rewrite Hs|].
  destruct (decide (k = "spectral")) as [->|Nc]; [by rewrite Hc|].
  destruct (decide (k = "radiometric")) as [->|Nr]; [by rewrite Hr|].
  rewrite !lookup_insert_ne, lookup_singleton_ne by done.
  apply not_elem_of_dom. rewrite Hdom. unfold required_params, CONFIDENCE_WEIGHT_FACTORS.
  rewrite !dom_insert_L, dom_singleton_L. set_solver.
Qed.

Lemma sum_values_four (t s c r : Q) :
  sum_values {[ "temporal" := t; "spatial" := s; "spectral" := c; "radiometric" := r ]}
  == t + s + c + r.
Proof.
  unfold sum_values.
  assert (map_to_list ({[ "temporal" := t; "spatial" := s; "spectral" := c;
                          "radiometric" := r ]} : gmap string Q)
          ≡ₚ [("temporal", t); ("spatial", s); ("spectral", c); ("radiometric", r)]) as Hp.
  { rewrite map_to_list_insert by (by rewrite !lookup_insert_ne, lookup_singleton_ne).
    rewrite map_to_list_insert by (by rewrite lookup_insert_ne, lookup_singleton_ne).
    rewrite map_to_list_insert by (by rewrite lookup_singleton_ne).
    by rewrite map_to_list_singleton. }
  rewrite (py_sum_perm _ _ (fmap_Permutation snd _ _ Hp)).
  unfold py_sum. simpl. lra.
Qed.

Lemma weighted_sum_four (weights clipped : gmap string Q) wt ws wc wr t s c r :
  weights !! "temporal" = Some wt -> weights !! "spatial" = Some ws ->
  weights !! "spectral" = Some wc -> weights !! "radiometric" = Some wr ->
  clipped !! "temporal" = Some t -> clipped !! "spatial" = Some s ->
  clipped !! "spectral" = Some c -> clipped !! "radiometric" = Some r ->
  weighted_sum weights clipped required_params_iter 0
  = Ok (0 + wt * t + ws * s + wc * c + wr * r).
Proof.
  intros Hwt Hws Hwc Hwr Ht Hs Hc Hr.
  unfold required_params_iter, weighted_sum, getitem.
  rewrite Hwt, Hws, Hwc, Hwr, Ht, Hs, Hc, Hr. reflexivity.
Qed.

Lemma required_params_elems k :
  k ∈ required_params <-> k ∈ required_params_iter.
Proof.
  unfold required_params, CONFIDENCE_WEIGHT_FACTORS, required_params_iter.
  rewrite !dom_insert_L, dom_singleton_L. set_solver.
Qed.

Lemma required_subseteq (d : gmap string Q) :
  required_params ⊆ dom d <-> Forall (fun k => is_Some (d !! k)) required_params_iter.
Proof.
  rewrite Forall_forall. split.
  - intros H k Hk. apply elem_of_dom, H, required_params_elems, Hk.
  - intros H k Hk. apply elem_of_dom, H, required_params_elems, Hk.
Qed.

(** ** calculate_confidence_score *)

Lemma effective_weights_nonempty (w : gmap string Q) k v :
  w !! k = Some v -> bool_decide (size w = 0%nat) = false.
Proof.
  intros Hk. apply bool_decide_eq_false. intros Hsz.
  apply map_size_empty_inv in Hsz. subst w. by rewrite lookup_empty in Hk.
Qed.

(** What the body computes when all four parameters are present and the
    weights in force are a four-key dict passing the sum check. *)
Lemma calculate_confidence_score_value
  (parameters weights : gmap string Q) (custom_weights : option (gmap string Q))
  (t s c r wt ws wc wr : Q) :
  parameters !! "temporal" = Some t -> parameters !! "spatial" = Some s ->
  parameters !! "spectral" = Some c -> parameters !! "radiometric" = Some r ->
  custom_weights = Some weights
    \/ (custom_weights = None /\ weights = CONFIDENCE_WEIGHT_FACTORS) ->
  weights !! "temporal" = Some wt -> weights !! "spatial" = Some ws ->
  weights !! "spectral" = Some wc -> weights !! "radiometric" = Some wr ->
  dom weights = required_params ->
  Qabs (wt + ws + wc + wr - 1) <= 0.0000000101 ->
  calculate_confidence_score parameters custom_weights
  = Ok (snap_score (0 + wt * np_clip t 0 1 + ws * np_clip s 0 1
                      + wc * np_clip c 0 1 + wr * np_clip r 0 1)).
Proof.
  intros Ht Hs Hc Hr Hcw Hwt Hws Hwc Hwr Hdom Hsum.
  unfold calculate_confidence_score, calculate_confidence_score_body.
  rewrite bool_decide_eq_true_2; cbn [negb].
  2:{ apply required_subseteq. unfold required_params_iter.
      repeat (apply Forall_cons; split); eauto. }
  set (eff := match custom_weights with
              | Some w => if bool_decide (size w = 0%nat) then CONFIDENCE_WEIGHT_FACTORS else w
              | None => CONFIDENCE_WEIGHT_FACTORS
              end).
  assert (eff = weights) as ->.
  { subst eff. destruct Hcw as [-> | [-> ->]]; [|done].
    by rewrite (effective_weights_nonempty _ _ _ Hwt). }
  assert (np_isclose (sum_values weights) 1 NUMERICAL_TOLERANCE = true) as ->.
  { apply isclose_one.
    rewrite (four_key_map _ _ _ _ _ Hwt Hws Hwc Hwr Hdom), sum_values_four.
    apply Qabs_Qle_condition in Hsum. lra. }
  cbn [negb].
  erewrite weighted_sum_four; eauto; rewrite lookup_fmap.
  - by rewrite Ht.
  - by rewrite Hs.
  - by rewrite Hc.
  - by rewrite Hr.
Qed.

(** C1, as amended.  With the four parameters present and in [0, 1] and
    a weight dict over exactly the four keys whose values sum to 1 within
    1e-10 (or no custom weights, hence the defaults), the call returns the
    weighted sum after the final snapping: 0.0 when the sum is within 1e-8
    of 0, 1.0 when it is within 1.01e-8 of 1 (or above), and the weighted
    sum itself strictly between the two zones.  The result lies in
    [0, 1]; it is exactly 1 when all four parameters are 1 and exactly 0
    when all four are 0. *)
Theorem calculate_confidence_score_snapped_weighted_sum
  (parameters weights : gmap string Q) (custom_weights : option (gmap string Q))
  (t s c r wt ws wc wr : Q) :
  parameters !! "temporal" = Some t -> parameters !! "spatial" = Some s ->
  parameters !! "spectral" = Some c -> parameters !! "radiometric" = Some r ->
  0 <= t <= 1 -> 0 <= s <= 1 -> 0 <= c <= 1 -> 0 <= r <= 1 ->
  custom_weights = Some weights
    \/ (custom_weights = None /\ weights = CONFIDENCE_WEIGHT_FACTORS) ->
  weights !! "temporal" = Some wt -> weights !! "spatial" = Some ws ->
  weights !! "spectral" = Some wc -> weights !! "radiometric" = Some wr ->
  dom weights = required_params ->
  Qabs (wt + ws + wc + wr - 1) <= 0.0000000001 ->
  exists score,
    calculate_confidence_score parameters custom_weights = Ok score
    /\ score == snap_score (wt * t + ws * s + wc * c + wr * r)
    /\ 0 <= score <= 1
    /\ (0.00000001 < wt * t + ws * s + wc * c + wr * r < 1 - 0.0000000101 ->
        score == wt * t + ws * s + wc * c + wr * r)
    /\ (t == 1 -> s == 1 -> c == 1 -> r == 1 -> score = 1)
    /\ (t == 0 -> s == 0 -> c == 0 -> r == 0 -> score = 0).
Proof.
  intros Ht Hs Hc Hr Bt Bs Bc Br Hcw Hwt Hws Hwc Hwr Hdom Hsum.
  eexists. split.
  { eapply calculate_confidence_score_value; eauto.
    apply Qabs_Qle_condition in Hsum. apply Qabs_Qle_condition. lra. }
  rewrite !np_clip_id by done.
  set (wsum := wt * t + ws * s + wc * c + wr * r).
  assert (0 + wt * t + ws * s + wc * c + wr * r == wsum) as Heq by (subst wsum; lra).
  apply Qabs_Qle_condition in Hsum.
  repeat split.
  - apply snap_score_proper, Heq.
  - apply snap_score_range.
  - apply snap_score_range.
  - intros [Hlo Hhi]. rewrite (snap_score_proper _ _ Heq).
    rewrite snap_score_id; [reflexivity | lra | lra].
  - intros E1 E2 E3 E4. apply snap_score_one. subst wsum.
    rewrite Heq, E1, E2, E3, E4. lra.
  - intros E1 E2 E3 E4. apply snap_score_zero. subst wsum.
    rewrite Heq, E1, E2, E3, E4. lra.
Qed.

Lemma calculate_confidence_score_snapped_weighted_sum_witness :
  exists score,
    calculate_confidence_score (confidence_params scenario_scores) None = Ok score
    /\ 0 <= score <= 1.
Proof.
  destruct (calculate_confidence_score_snapped_weighted_sum
              (confidence_params scenario_scores) CONFIDENCE_WEIGHT_FACTORS None
              0.9 0.8 0.7 0.9 0.4 0.3 0.2 0.1)
    as (score & Hscore & _ & Hrange & _);
    try reflexivity; try (split; discriminate).
  - by right.
  - apply Qle_bool_iff. reflexivity.
  - exists score. by split.
Defined.

(** C1 as stated fails: with [temporal = 1 - 1e-11] and the other three
    parameters at 1 the weighted sum is [1 - 4e-12], yet the call returns
    exactly 1. *)
Lemma calculate_confidence_score_snaps_near_one :
  calculate_confidence_score
    {[ "temporal" := 0.99999999999; "spatial" := 1; "spectral" := 1; "radiometric" := 1 ]}
    None = Ok 1
  /\ ~ (1 == 0.4 * 0.99999999999 + 0.3 * 1 + 0.2 * 1 + 0.1 * 1).
Proof.
  split; [reflexivity|]. intros H. lra.
Qed.

(** C9.  When one of the four required keys is missing from the
    parameter dict, the body raises [ValueError("Missing required
    parameters: ...")] before anything else, and the call fails with that
    error as wrapped by [handle_calculation_errors]. *)
Theorem calculate_confidence_score_missing_parameter
  (parameters : gmap string Q) (custom_weights : option (gmap string Q)) (k : string) :
  k ∈ required_params_iter ->
  parameters !! k = None ->
  calculate_confidence_score_body parameters custom_weights
    = Raise (Exception ValueError "Missing required parameters")
  /\ calculate_confidence_score parameters custom_weights
    = Raise (Exception RuntimeError "Calculation error: Missing required parameters").
Proof.
  intros Hk Hnone.
  assert (calculate_confidence_score_body parameters custom_weights
          = Raise (Exception ValueError "Missing required parameters")) as Hbody.
  { unfold calculate_confidence_score_body.
    rewrite bool_decide_eq_false_2; [done|].
    intros Hsub. apply required_params_elems in Hk.
    apply Hsub, elem_of_dom in Hk. rewrite Hnone in Hk. by destruct Hk. }
  split; [done|].
  unfold calculate_confidence_score. by rewrite Hbody.
Qed.

Lemma calculate_confidence_score_missing_parameter_witness :
  calculate_confidence_score {[ "temporal" := 1; "spectral" := 1; "radiometric" := 1 ]} None
  = Raise (Exception RuntimeError "Calculation error: Missing required parameters").
Proof.
  apply (calculate_confidence_score_missing_parameter
           {[ "temporal" := 1; "spectral" := 1; "radiometric" := 1 ]} None "spatial").
  - unfold required_params_iter. set_solver.
  - reflexivity.
Defined.

(** ** The plan state machine *)

Lemma legal_transition_spec from to :
  legal_transition from to = true <->
  (from = "DRAFT" /\ to = "PROCESSING") \/ (from = "PROCESSING" /\ to = "OPTIMIZED")
  \/ (from = "PROCESSING" /\ to = "FAILED") \/ (from = "FAILED" /\ to = "DRAFT").
Proof.
  unfold legal_transition. rewrite bool_decide_eq_true.
  rewrite !elem_of_cons, elem_of_nil. split.
  - intros [H|[H|[H|[H|[]]]]]; inversion H; tauto.
  - intros [[-> ->]|[[-> ->]|[[-> ->]|[-> ->]]]]; tauto.
Qed.

Lemma valid_transitions_lookup (s : string) :
  CollectionPlan.valid_transitions !! s =
  if decide (s = "DRAFT") then Some ["PROCESSING"]
  else if decide (s = "PROCESSING") then Some ["OPTIMIZED"; "FAILED"]
  else if decide (s = "OPTIMIZED") then Some []
  else if decide (s = "FAILED") then Some ["DRAFT"]
  else None.
Proof.
  unfold CollectionPlan.valid_transitions.
  repeat (case_decide; [subst s; reflexivity|]).
  by rewrite !lookup_insert_ne, lookup_singleton_ne.
Qed.

(** [update_status] either performs the transition or leaves the plan as
    it was. *)
Lemma update_status_cases (now : datetime) (new_status : string) (p : CollectionPlan.t) :
  CollectionPlan.update_status now new_status p =
  if legal_transition (CollectionPlan.status p) new_status then
    (CollectionPlan.set_updated_at now (CollectionPlan.set_status new_status p), Ok tt)
  else if bool_decide (new_status ∈ PLAN_STATUS_TYPES) then
    match CollectionPlan.valid_transitions !! CollectionPlan.status p with
    | Some _ => (p, Raise (Exception ValidationError "Invalid status transition"))
    | None => (p, Raise (Exception KeyError ("'" ++ CollectionPlan.status p ++ "'")))
    end
  else (p, Raise (Exception ValidationError "Invalid status")).
Proof.
  unfold CollectionPlan.update_status, mbind, stateful_bind, sbind, sget.
  destruct (bool_decide (new_status ∈ PLAN_STATUS_TYPES)) eqn:Hin; cbn [negb].
  - apply bool_decide_eq_true in Hin. unfold PLAN_STATUS_TYPES in Hin.
    rewrite !elem_of_cons, elem_of_nil in Hin.
    rewrite valid_transitions_lookup.
    destruct (legal_transition (CollectionPlan.status p) new_status) eqn:Hl.
    + apply legal_transition_spec in Hl.
      destruct Hl as [[-> ->]|[[-> ->]|[[-> ->]|[-> ->]]]]; reflexivity.
    + destruct Hin as [->|[->|[->|[->|[]]]]];
        repeat (match goal with
                | |- context [decide (CollectionPlan.status p = ?s)] =>
                    let E := fresh "E" in
                    destruct (decide (CollectionPlan.status p = s)) as [E|E];
                    [ first [ rewrite E in Hl; by vm_compute in Hl | reflexivity ] | ]
                end); reflexivity.
  - destruct (legal_transition (CollectionPlan.status p) new_status) eqn:Hl; [|done].
    apply legal_transition_spec in Hl. apply bool_decide_eq_false in Hin.
    exfalso. apply Hin. unfold PLAN_STATUS_TYPES.
    destruct Hl as [[_ ->]|[[_ ->]|[[_ ->]|[_ ->]]]]; set_solver.
Qed.

(** C5.  [update_status] accepts a transition exactly when it is one of
    DRAFT→PROCESSING, PROCESSING→OPTIMIZED, PROCESSING→FAILED and
    FAILED→DRAFT; an accepted transition sets the status and stamps
    [updated_at] with the current time and touches nothing else; every
    other edge, from whatever status, raises and leaves the plan
    untouched; a target outside [PLAN_STATUS_TYPES] raises the
    invalid-status error. *)
Theorem update_status_state_machine
  (now : datetime) (new_status : string) (p : CollectionPlan.t) :
  (is_Ok (CollectionPlan.update_status now new_status p).2
     <-> legal_transition (CollectionPlan.status p) new_status = true)
  /\ (legal_transition (CollectionPlan.status p) new_status = true ->
      CollectionPlan.update_status now new_status p
        = (CollectionPlan.set_updated_at now (CollectionPlan.set_status new_status p), Ok tt)
      /\ CollectionPlan.status (CollectionPlan.update_status now new_status p).1 = new_status
      /\ CollectionPlan.updated_at (CollectionPlan.update_status now new_status p).1 = now)
  /\ (legal_transition (CollectionPlan.status p) new_status = false ->
      exists e, CollectionPlan.update_status now new_status p = (p, Raise e))
  /\ (new_status ∉ PLAN_STATUS_TYPES ->
      CollectionPlan.update_status now new_status p
        = (p, Raise (Exception ValidationError "Invalid status")))
  /\ legal_transition "DRAFT" "OPTIMIZED" = false
  /\ legal_transition "PROCESSING" "DRAFT" = false
  /\ legal_transition "FAILED" "PROCESSING" = false
  /\ legal_transition "OPTIMIZED" new_status = false.
Proof.
  rewrite update_status_cases.
  assert (legal_transition "OPTIMIZED" new_status = false) as Hopt.
  { destruct (legal_transition "OPTIMIZED" new_status) eqn:E; [|done].
    apply legal_transition_spec in E.
    destruct E as [[? _]|[[? _]|[[? _]|[? _]]]]; discriminate. }
  destruct (legal_transition (CollectionPlan.status p) new_status) eqn:Hl.
  - repeat split; try done.
    + by exists tt.
    + intros Hnot. apply legal_transition_spec in Hl. exfalso. apply Hnot.
      unfold PLAN_STATUS_TYPES.
      destruct Hl as [[_ ->]|[[_ ->]|[[_ ->]|[_ ->]]]]; set_solver.
  - repeat split; try done.
    + intros [a Ha].
      destruct (bool_decide _); [destruct (_ !! _)|]; simpl in Ha; discriminate.
    + destruct (bool_decide _); [destruct (_ !! _)|]; eauto.
    + intros Hnot. by rewrite bool_decide_eq_false_2.
Qed.

(** ** add_collection_window *)

(** The three checks of [add_collection_window] on a [CollectionWindow]:
    it is rejected exactly when one of them fails, and accepted with the
    window appended, the plan's confidence recomputed and [updated_at]
    stamped otherwise. *)
Lemma add_collection_window_cases (now : datetime) (w : CollectionWindow.t)
  (p : CollectionPlan.t) :
  CollectionPlan.add_collection_window now (ObjectWindow w) p =
  match CollectionWindow.validate w with
  | Raise e => (p, Raise e)
  | Ok _ =>
      if (CollectionWindow.start_time w <? CollectionPlan.start_time p)%Z
         || (CollectionPlan.end_time p <? CollectionWindow.end_time w)%Z then
        (p, Raise (Exception ValidationError
                     "Collection window must be within plan time range"))
      else if existsb (CollectionPlan.overlaps w) (CollectionPlan.collection_windows p) then
        (p, Raise (Exception ValidationError "Collection windows cannot overlap"))
      else
        let ws := (CollectionPlan.collection_windows p ++ [w])%list in
        (CollectionPlan.set_updated_at now
           (CollectionPlan.set_confidence_score (CollectionPlan.mean_confidence ws)
              (CollectionPlan.set_collection_windows ws p)), Ok tt)
  end.
Proof.
  unfold CollectionPlan.add_collection_window, mbind, stateful_bind, sbind, slift, sget.
  destruct (CollectionWindow.validate w) as [b|e]; [|done].
  destruct (_ || _); [done|].
  destruct (existsb _ _); [done|].
  unfold smodify. cbn.
  destruct (CollectionPlan.collection_windows p ++ [w])%list eqn:E; [|done].
  by apply app_eq_nil in E as [_ ?].
Qed.

(** C10.  When [add_collection_window] raises, whatever it was handed,
    the plan is left exactly as it was: the list of windows, the
    confidence score, the status and [updated_at] are unchanged. *)
Theorem add_collection_window_rejection_leaves_plan
  (now : datetime) (window : py_window) (p p' : CollectionPlan.t) (e : exception) :
  CollectionPlan.add_collection_window now window p = (p', Raise e) ->
  p' = p
  /\ CollectionPlan.collection_windows p' = CollectionPlan.collection_windows p
  /\ CollectionPlan.confidence_score p' = CollectionPlan.confidence_score p
  /\ CollectionPlan.status p' = CollectionPlan.status p
  /\ CollectionPlan.updated_at p' = CollectionPlan.updated_at p.
Proof.
  intros H.
  assert (p' = p) as ->; [|done].
  destruct window as [w|d].
  - rewrite add_collection_window_cases in H.
    destruct (CollectionWindow.validate w); [|congruence].
    destruct (_ || _); [congruence|].
    destruct (existsb _ _); [congruence|].
    discriminate.
  - cbn in H. unfold sraise in H. congruence.
Qed.

(** The three causes of rejection named by the claim do raise. *)
Lemma add_collection_window_rejects (now : datetime) (w : CollectionWindow.t)
  (p : CollectionPlan.t) :
  is_Raise (CollectionWindow.validate w)
  \/ (CollectionWindow.start_time w < CollectionPlan.start_time p)%Z
  \/ (CollectionPlan.end_time p < CollectionWindow.end_time w)%Z
  \/ Exists (fun existing => CollectionPlan.overlaps w existing = true)
       (CollectionPlan.collection_windows p) ->
  exists e, CollectionPlan.add_collection_window now (ObjectWindow w) p = (p, Raise e).
Proof.
  intros H. rewrite add_collection_window_cases.
  destruct (CollectionWindow.validate w) as [b|e] eqn:Hv; [|eauto].
  destruct (_ || _) eqn:Hr; [eauto|].
  apply orb_false_elim in Hr as [Hr1 Hr2].
  apply Z.ltb_ge in Hr1, Hr2.
  destruct (existsb _ _) eqn:Ho; [eauto|].
  exfalso. destruct H as [[e He]|[H|[H|H]]]; [congruence|lia|lia|].
  apply Exists_exists in H as (x & Hx & Hxo).
  assert (existsb (CollectionPlan.overlaps w) (CollectionPlan.collection_windows p) = true).
  { apply existsb_exists. exists x. split; [by apply list_elem_of_In|done]. }
  congruence.
Qed.

Lemma add_collection_window_rejection_leaves_plan_witness :
  let w := CollectionWindow.Make (seconds 600) (seconds 0) 0.9 [] in
  (CollectionPlan.add_collection_window 7%Z (ObjectWindow w) example_plan).1 = example_plan.
Proof.
  apply (add_collection_window_rejection_leaves_plan 7%Z
           (ObjectWindow (CollectionWindow.Make (seconds 600) (seconds 0) 0.9 []))
           example_plan _
           (Exception ValidationError "Start time must be before end time")).
  reflexivity.
Defined.

(** ** Stable sorting *)

Section stable_sorting.
Context {A : Type} (le : A -> A -> bool).
Hypothesis le_total : forall x y, le x y = false -> le y x = true.
Hypothesis le_trans : forall x y z, le x y = true -> le y z = true -> le x z = true.

Lemma insert_by_perm x l : insert_by le x l ≡ₚ x :: l.
Proof.
  induction l as [|y l IH]; simpl; [done|].
  destruct (le x y); [done|].
  rewrite IH. apply perm_swap.
Qed.

Lemma stable_sort_perm l : stable_sort le l ≡ₚ l.
Proof.
  induction l as [|x l IH]; simpl; [done|].
  rewrite insert_by_perm. by rewrite IH.
Qed.

Lemma stable_sort_length l : length (stable_sort le l) = length l.
Proof. by rewrite stable_sort_perm. Qed.

Variable before : A -> A -> Prop.

Lemma insert_by_ranked x l :
  StronglySorted (ranked le before) l -> Forall (before x) l ->
  StronglySorted (ranked le before) (insert_by le x l).
Proof.
  induction 1 as [|y l Hl IH Hy]; intros Hx; simpl.
  - repeat constructor.
  - apply Forall_cons in Hx as [Hxy Hxl].
    destruct (le x y) eqn:E.
    + constructor; [by constructor|].
      constructor; [by split|].
      rewrite Forall_forall in Hy, Hxl. apply Forall_forall. intros z Hz.
      destruct (Hy z Hz) as [Hyz _]. split; [eauto|auto].
    + constructor; [by apply IH|].
      rewrite insert_by_perm. constructor; [|done].
      split; [by apply le_total | congruence].
Qed.

Lemma stable_sort_ranked l :
  StronglySorted before l -> StronglySorted (ranked le before) (stable_sort le l).
Proof.
  induction 1 as [|x l Hl IH Hx]; simpl; [constructor|].
  apply insert_by_ranked; [done|]. by rewrite stable_sort_perm.
Qed.

(** A list already in order is left as it is. *)
Lemma stable_sort_sorted_id l :
  StronglySorted (fun x y => le x y = true) l -> stable_sort le l = l.
Proof.
  induction 1 as [|x l Hl IH Hx]; simpl; [done|].
  rewrite IH. destruct Hx as [|y l' Hxy _]; simpl; [done|]. by rewrite Hxy.
Qed.
End stable_sorting.

Lemma StronglySorted_weaken {A} (R R' : A -> A -> Prop) (l : list A) :
  (forall x y, R x y -> R' x y) -> StronglySorted R l -> StronglySorted R' l.
Proof.
  intros HR. induction 1 as [|x l Hl IH Hx]; constructor; [done|].
  eapply Forall_impl; eauto.
Qed.


Lemma stable_sort_keys_sorted {A} (le : A -> A -> bool) (l : list A) :
  (forall x y, le x y = false -> le y x = true) ->
  (forall x y z, le x y = true -> le y z = true -> le x z = true) ->
  StronglySorted (fun x y => le x y = true) (stable_sort le l).
Proof.
  intros Htot Htrans.
  assert (StronglySorted (fun _ _ : A => True) l) as Hl.
  { induction l; constructor; [done|]. by apply Forall_true. }
  eapply StronglySorted_weaken; [|eapply (stable_sort_ranked le Htot Htrans _ _ Hl)].
  by intros x y [? _].
Qed.


(** ** merge_overlapping_windows *)

Lemma mergeable_spec (a b : window) :
  mergeable a b = true <-> (start_time b - end_time a <= seconds 3600)%Z.
Proof.
  unfold mergeable, total_seconds, MAX_GAP_DURATION, seconds.
  rewrite Qle_bool_iff. unfold Qle. simpl. lia.
Qed.

Lemma mergeable_false (a b : window) : mergeable a b = false <-> gap_exceeded a b.
Proof.
  unfold gap_exceeded. destruct (mergeable a b) eqn:E.
  - apply mergeable_spec in E. split; [done|lia].
  - split; [|done]. intros _.
    destruct (decide (start_time b - end_time a <= seconds 3600)%Z) as [H|H]; [|lia].
    apply mergeable_spec in H. congruence.
Qed.

Lemma merge_pass_step (current next_window : window) (rest : list window) :
  merge_pass current (next_window :: rest) =
  if mergeable current next_window
  then merge_pass (merged_with current next_window) rest
  else current :: merge_pass next_window rest.
Proof. reflexivity. Qed.

Lemma py_max_is_max (a b : Q) :
  a <= py_max a b /\ b <= py_max a b /\ (py_max a b = a \/ py_max a b = b).
Proof.
  unfold py_max. destruct (Qltb a b) eqn:E.
  - apply Qltb_lt in E. repeat split; [lra|lra|by right].
  - apply Qltb_ge in E. repeat split; [lra|lra|by left].
Qed.

Lemma start_le_total (x y : window) : start_le x y = false -> start_le y x = true.
Proof. unfold start_le. rewrite Z.leb_gt, Z.leb_le. lia. Qed.

Lemma start_le_trans (x y z : window) :
  start_le x y = true -> start_le y z = true -> start_le x z = true.
Proof. unfold start_le. rewrite !Z.leb_le. lia. Qed.

(** Every window the pass returns starts no earlier than the accumulator. *)
Lemma merge_pass_starts (current : window) (rest : list window) :
  Forall (fun r => start_le current r = true) rest ->
  StronglySorted (fun x y => start_le x y = true) rest ->
  Forall (fun o => start_le current o = true) (merge_pass current rest).
Proof.
  revert current. induction rest as [|next_window rest IH]; intros current Hc Hs.
  - repeat constructor. unfold start_le. apply Z.leb_le. lia.
  - rewrite merge_pass_step.
    apply Forall_cons in Hc as [Hcn Hcr]. apply StronglySorted_inv in Hs as [Hs Hn].
    destruct (mergeable current next_window).
    + apply (Forall_impl _ _ _ (IH (merged_with current next_window) Hcr Hs)).
      done.
    + constructor; [unfold start_le; apply Z.leb_le; lia|].
      apply (Forall_impl _ _ _ (IH next_window Hn Hs)).
      intros o Ho. by eapply start_le_trans.
Qed.

Lemma merge_pass_start_sorted (current : window) (rest : list window) :
  Forall (fun r => start_le current r = true) rest ->
  StronglySorted (fun x y => start_le x y = true) rest ->
  StronglySorted (fun x y => start_le x y = true) (merge_pass current rest).
Proof.
  revert current. induction rest as [|next_window rest IH]; intros current Hc Hs.
  - repeat constructor.
  - rewrite merge_pass_step.
    apply Forall_cons in Hc as [Hcn Hcr]. apply StronglySorted_inv in Hs as [Hs Hn].
    destruct (mergeable current next_window).
    + by apply IH.
    + constructor; [by apply IH|].
      apply (Forall_impl _ _ _ (merge_pass_starts next_window rest Hn Hs)).
      intros o Ho. by eapply start_le_trans.
Qed.

(** Consecutive, and hence any two, returned windows are more than the
    maximum gap apart. *)
Lemma merge_pass_gaps (current : window) (rest : list window) :
  Forall (fun r => start_le current r = true) rest ->
  StronglySorted (fun x y => start_le x y = true) rest ->
  StronglySorted gap_exceeded (merge_pass current rest).
Proof.
  revert current. induction rest as [|next_window rest IH]; intros current Hc Hs.
  - repeat constructor.
  - rewrite merge_pass_step.
    apply Forall_cons in Hc as [Hcn Hcr]. apply StronglySorted_inv in Hs as [Hs Hn].
    destruct (mergeable current next_window) eqn:E.
    + by apply IH.
    + constructor; [by apply IH|].
      apply mergeable_false in E.
      apply (Forall_impl _ _ _ (merge_pass_starts next_window rest Hn Hs)).
      intros o Ho. unfold gap_exceeded, start_le in *. apply Z.leb_le in Ho. lia.
Qed.

(** The pass changes nothing on windows that are already far enough
    apart. *)
Lemma merge_pass_fixed (current : window) (rest : list window) :
  StronglySorted gap_exceeded (current :: rest) ->
  merge_pass current rest = current :: rest.
Proof.
  revert current. induction rest as [|next_window rest IH]; intros current Hs; [done|].
  apply StronglySorted_inv in Hs as [Hs Hc].
  apply Forall_cons in Hc as [Hcn _].
  rewrite merge_pass_step.
  apply mergeable_false in Hcn. rewrite Hcn. by rewrite IH.
Qed.

Lemma stable_sort_start_sorted (windows : list window) :
  StronglySorted (fun x y => start_le x y = true) (stable_sort start_le windows).
Proof. apply stable_sort_keys_sorted; [apply start_le_total | apply start_le_trans]. Qed.

(** The scenario of two windows 1800 seconds apart: they merge into one
    window spanning both, with the larger of the two confidences. *)
Example merge_two_windows_within_gap :
  merge_overlapping_windows
    [Window (seconds 0) (seconds 600) None None 0.7 no_scores;
     Window (seconds 2400) (seconds 3000) None None 0.9 no_scores]
  = [Window (seconds 0) (seconds 3000) (Some (total_seconds (seconds 3000))) None 0.9
       no_scores].
Proof. reflexivity. Qed.

Lemma start_sorted_le (l : list window) :
  StronglySorted (fun a b => (start_time a <= start_time b)%Z) l
  <-> StronglySorted (fun x y => start_le x y = true) l.
Proof.
  split; apply StronglySorted_weaken; intros x y; unfold start_le; by rewrite Z.leb_le.
Qed.

(** On a list in order of start time, the call is the pass from the
    first window over the others. *)
Lemma merge_overlapping_windows_sorted (current : window) (rest : list window) :
  StronglySorted (fun x y => start_le x y = true) (current :: rest) ->
  merge_overlapping_windows (current :: rest) = merge_pass current rest.
Proof.
  intros Hs. unfold merge_overlapping_windows.
  by rewrite (stable_sort_sorted_id start_le (current :: rest) Hs).
Qed.

(** C6.  Whatever the input list, the list [merge_overlapping_windows]
    returns is in ascending order of start time; any two of its windows
    are more than the maximum gap apart, so they do not overlap; and
    merging it again returns it unchanged.  The returned list is tied to
    the input as follows.  The call works on the input sorted by start
    time, a permutation of the input; an empty list and a one-window list
    are returned as they are; and on two or more windows in order of start
    time the second window is merged into the first exactly when it
    starts at most 3600 seconds after the first ends, the call going on
    with the merged window in front of the others, and otherwise the
    first window is put out and the call goes on from the second.  For
    two windows this gives the one merged window in the first case and
    the two windows themselves in the other.  The merged window keeps the
    accumulator's start and takes the later of the two ends and the larger
    of the two confidence scores. *)
Theorem merge_overlapping_windows_properties (windows : list window) :
  StronglySorted (fun a b => (start_time a <= start_time b)%Z)
    (merge_overlapping_windows windows)
  /\ StronglySorted (fun a b => gap_exceeded a b
                                /\ ~ windows_overlap a b /\ ~ windows_overlap b a)
       (merge_overlapping_windows windows)
  /\ merge_overlapping_windows (merge_overlapping_windows windows)
     = merge_overlapping_windows windows
  /\ (stable_sort start_le windows ≡ₚ windows
      /\ StronglySorted (fun a b => (start_time a <= start_time b)%Z)
           (stable_sort start_le windows)
      /\ merge_overlapping_windows windows
         = merge_overlapping_windows (stable_sort start_le windows))
  /\ merge_overlapping_windows [] = []
  /\ (forall w, merge_overlapping_windows [w] = [w])
  /\ (forall current next_window rest,
        StronglySorted (fun a b => (start_time a <= start_time b)%Z)
          (current :: next_window :: rest) ->
        merge_overlapping_windows (current :: next_window :: rest) =
        if bool_decide (start_time next_window - end_time current <= seconds 3600)%Z
        then merge_overlapping_windows (merged_with current next_window :: rest)
        else current :: merge_overlapping_windows (next_window :: rest))
  /\ (forall a b,
        (start_time a <= start_time b)%Z ->
        merge_overlapping_windows [a; b] =
        if bool_decide (start_time b - end_time a <= seconds 3600)%Z
        then [merged_with a b] else [a; b])
  /\ (forall current next_window rest,
        merge_pass current (next_window :: rest) =
        if bool_decide (start_time next_window - end_time current <= seconds 3600)%Z
        then merge_pass (merged_with current next_window) rest
        else current :: merge_pass next_window rest)
  /\ (forall current next_window,
        start_time (merged_with current next_window) = start_time current
        /\ end_time (merged_with current next_window)
           = Z.max (end_time current) (end_time next_window)
        /\ confidence_score current <= confidence_score (merged_with current next_window)
        /\ confidence_score next_window <= confidence_score (merged_with current next_window)
        /\ (confidence_score (merged_with current next_window) = confidence_score current
            \/ confidence_score (merged_with current next_window)
               = confidence_score next_window)).
Proof.
  assert (StronglySorted (fun x y => start_le x y = true)
            (merge_overlapping_windows windows)
          /\ StronglySorted gap_exceeded (merge_overlapping_windows windows))
    as [Hstart Hgap].
  { unfold merge_overlapping_windows.
    pose proof (stable_sort_start_sorted windows) as Hs.
    destruct (stable_sort start_le windows) as [|current rest]; [split; constructor|].
    apply StronglySorted_inv in Hs as [Hs Hc].
    split; [by apply merge_pass_start_sorted | by apply merge_pass_gaps]. }
  assert (forall current next_window rest,
            merge_pass current (next_window :: rest) =
            if bool_decide (start_time next_window - end_time current <= seconds 3600)%Z
            then merge_pass (merged_with current next_window) rest
            else current :: merge_pass next_window rest) as Hstep.
  { intros current next_window rest. rewrite merge_pass_step.
    destruct (mergeable current next_window) eqn:E.
    - apply mergeable_spec in E. by rewrite bool_decide_eq_true_2.
    - apply mergeable_false in E. rewrite bool_decide_eq_false_2; [done|].
      unfold gap_exceeded in E. lia. }
  assert (forall current next_window rest,
            StronglySorted (fun a b => (start_time a <= start_time b)%Z)
              (current :: next_window :: rest) ->
            merge_overlapping_windows (current :: next_window :: rest) =
            if bool_decide (start_time next_window - end_time current <= seconds 3600)%Z
            then merge_overlapping_windows (merged_with current next_window :: rest)
            else current :: merge_overlapping_windows (next_window :: rest)) as Hrec.
  { intros current next_window rest Hs. apply start_sorted_le in Hs.
    rewrite (merge_overlapping_windows_sorted _ _ Hs), Hstep.
    apply StronglySorted_inv in Hs as [Hs Hc].
    apply Forall_cons in Hc as [_ Hc].
    rewrite (merge_overlapping_windows_sorted _ _ Hs).
    rewrite (merge_overlapping_windows_sorted (merged_with current next_window) rest);
      [reflexivity|].
    apply StronglySorted_inv in Hs as [Hs _].
    constructor; [exact Hs|exact Hc]. }
  split; [|split; [|split; [|split; [|split; [|split; [|split; [|split; [|split]]]]]]]].
  - eapply StronglySorted_weaken; [|exact Hstart].
    intros x y. unfold start_le. by rewrite Z.leb_le.
  - eapply StronglySorted_weaken; [|exact Hgap].
    intros x y Hxy. unfold gap_exceeded, windows_overlap, seconds in *. lia.
  - destruct (merge_overlapping_windows windows) as [|current rest] eqn:E; [done|].
    unfold merge_overlapping_windows at 1.
    rewrite stable_sort_sorted_id by done.
    by apply merge_pass_fixed.
  - split; [apply stable_sort_perm|]. split.
    + apply start_sorted_le, stable_sort_start_sorted.
    + unfold merge_overlapping_windows.
      by rewrite (stable_sort_sorted_id start_le (stable_sort start_le windows)
                    (stable_sort_start_sorted windows)).
  - reflexivity.
  - reflexivity.
  - exact Hrec.
  - intros a b Hab. rewrite Hrec.
    + destruct (bool_decide _); reflexivity.
    + constructor; [repeat constructor|]. by repeat constructor.
  - exact Hstep.
  - intros current next_window.
    pose proof (py_max_is_max (confidence_score current) (confidence_score next_window))
      as (H1 & H2 & H3).
    split; [reflexivity|]. split; [reflexivity|]. split; [exact H1|]. split; [exact H2|].
    exact H3.
Qed.

(** ** optimize_time_windows *)



Lemma map_results_Forall2 {A B} (f : A -> result B) (l : list A) (rs : list B) :
  map_results f l = Ok rs -> Forall2 (fun x y => f x = Ok y) l rs.
Proof.
  revert rs. induction l as [|x l IH]; intros rs H; simpl in H.
  - injection H as <-. constructor.
  - destruct (f x) as [y|e] eqn:Hy; [|discriminate]. simpl in H.
    destruct (map_results f l) as [ys|e] eqn:Hys; [|discriminate]. simpl in H.
    injection H as <-. constructor; auto.
Qed.


Lemma slice_to_take {A} (k : Z) (l : list A) : exists n, slice_to k l = take n l.
Proof. unfold slice_to. destruct (0 <=? k)%Z; eauto. Qed.

(** What [optimize_time_windows] returns is a prefix of the accepted
    windows sorted by [confidence_desc]. *)
Lemma optimize_time_windows_returns_prefix
  (candidate_times : list datetime) (c : constraints) (max_windows : option Z)
  (ws : list window) :
  optimize_time_windows candidate_times c max_windows = Ok ws ->
  ws = []
  \/ exists rs n,
       map_results (process_window (stable_sort Z.leb candidate_times) c)
         (seq 0 (length (stable_sort Z.leb candidate_times))) = Ok rs
       /\ ws = take n (stable_sort confidence_desc (omap id rs)).
Proof.
  unfold optimize_time_windows. intros H.
  destruct candidate_times as [|t0 ts]; [left; congruence|].
  set (sorted_times := stable_sort Z.leb (t0 :: ts)) in *.
  destruct (Qltb _ _); [discriminate|].
  destruct (map_results _ _) as [rs|e] eqn:Hrs; [|discriminate]. simpl in H.
  right. exists rs.
  destruct max_windows as [k|].
  - destruct (k =? 0)%Z.
    + exists (length (stable_sort confidence_desc (omap id rs))).
      split; [done|]. rewrite firstn_all. congruence.
    + destruct (slice_to_take k (stable_sort confidence_desc (omap id rs))) as [n Hn].
      exists n. split; [done|]. congruence.
  - exists (length (stable_sort confidence_desc (omap id rs))).
    split; [done|]. rewrite firstn_all. congruence.
Qed.

Lemma grow_end_bounds (start : datetime) (max_dur : option Q) (later : list datetime)
  (end_idx : nat) :
  (end_idx <= grow_end start max_dur later end_idx <= end_idx + length later)%nat.
Proof.
  revert end_idx. induction later as [|t later IH]; intros end_idx; simpl; [lia|].
  destruct (match max_dur with Some m => _ | None => true end); [|lia].
  specialize (IH (S end_idx)). lia.
Qed.

Lemma map_results_is_Ok {A B} (f : A -> result B) (l : list A) :
  Forall (fun x => is_Ok (f x)) l -> is_Ok (map_results f l).
Proof.
  induction 1 as [|x l [y Hy] _ [ys Hys]]; simpl.
  - by eexists.
  - rewrite Hy. simpl. rewrite Hys. simpl. by eexists.
Qed.

(** With the default weights, a parameter dict holding the four keys
    always gets a score. *)
Lemma calculate_confidence_score_default_is_Ok (t s c r : Q) :
  is_Ok (calculate_confidence_score
           {[ "temporal" := t; "spatial" := s; "spectral" := c; "radiometric" := r ]} None).
Proof.
  eexists.
  eapply (calculate_confidence_score_value _ CONFIDENCE_WEIGHT_FACTORS None t s c r);
    try reflexivity.
  - by right.
  - apply Qle_bool_iff. reflexivity.
Qed.

Lemma process_window_is_Ok (sorted_times : list datetime) (c : constraints)
  (d : Q) (start_idx : nat) :
  optimal_duration c = Some d -> ~ d == 0 ->
  (start_idx < length sorted_times)%nat ->
  is_Ok (process_window sorted_times c start_idx).
Proof.
  intros Hopt Hd Hidx. unfold process_window, time_at.
  destruct (lookup_lt_is_Some_2 sorted_times start_idx Hidx) as [start ->]. simpl.
  pose proof (grow_end_bounds start (max_duration c) (drop (S start_idx) sorted_times)
                (S start_idx)) as Hb.
  rewrite length_drop in Hb.
  set (end_idx := grow_end _ _ _ _) in *.
  destruct (end_idx - start_idx <? 2)%nat; [by eexists|].
  destruct (lookup_lt_is_Some_2 sorted_times (end_idx - 1)) as [stop ->]; [lia|]. simpl.
  rewrite Hopt. simpl. unfold py_div.
  destruct (Qeq_bool d 0) eqn:E; [by apply Qeq_bool_iff in E|]. simpl.
  destruct (calculate_confidence_score_default_is_Ok
              (py_min (total_seconds (stop - start) / d) 1) 1 1 1) as [score ->].
  simpl. by eexists.
Qed.

(** The call returns whenever the candidate times span at least the
    minimum window duration and a non-zero [optimal_duration] is given. *)
Lemma optimize_time_windows_returns
  (candidate_times : list datetime) (c : constraints) (max_windows : option Z) (d : Q) :
  optimal_duration c = Some d -> ~ d == 0 ->
  MIN_WINDOW_DURATION
    <= total_seconds (List.last (stable_sort Z.leb candidate_times) 0%Z
                      - hd 0%Z (stable_sort Z.leb candidate_times)) ->
  is_Ok (optimize_time_windows candidate_times c max_windows).
Proof.
  intros Hopt Hd Hspan. unfold optimize_time_windows.
  destruct candidate_times as [|t0 ts]; [by eexists|].
  apply Qltb_ge in Hspan. rewrite Hspan.
  destruct (map_results_is_Ok (process_window (stable_sort Z.leb (t0 :: ts)) c)
              (seq 0 (length (stable_sort Z.leb (t0 :: ts))))) as [rs ->].
  { apply Forall_forall. intros i Hi%elem_of_seq.
    apply (process_window_is_Ok _ c d i Hopt Hd). exact (proj2 Hi). }
  simpl. destruct max_windows as [k|]; [destruct (k =? 0)%Z|]; by eexists.
Qed.



(** C8: the code under a limit of 0.  The cut is guarded by
    [if max_windows:], which is false for 0 as it is for [None], so a
    limit of 0 windows is answered like no limit at all.  Two candidate
    times 600 seconds apart give one window, returned under the limit 0.
    Four candidate times giving three windows, of confidence 2/3, 1 and 1
    in the order of their start index, return all three under the limit 0,
    the two of confidence 1 first, and those two alone under the limit
    2. *)
Theorem optimize_time_windows_zero_limit :
  (forall candidate_times c,
     optimize_time_windows candidate_times c (Some 0%Z)
     = optimize_time_windows candidate_times c None)
  /\ (exists ws,
        optimize_time_windows [seconds 0; seconds 600] (Constraints None None) (Some 0%Z)
          = Ok ws
        /\ ~ (Z.of_nat (length ws) <= 0)%Z)
  /\ (exists w0 w1 w2,
        optimize_time_windows [seconds 0; seconds 100; seconds 700; seconds 1300]
          (Constraints (Some 600) (Some 600)) (Some 0%Z) = Ok [w1; w2; w0]
        /\ optimize_time_windows [seconds 0; seconds 100; seconds 700; seconds 1300]
             (Constraints (Some 600) (Some 600)) (Some 2%Z) = Ok [w1; w2]
        /\ start_time <$> [w1; w2; w0] = [seconds 100; seconds 700; seconds 0]
        /\ end_time <$> [w1; w2; w0] = [seconds 700; seconds 1300; seconds 100]
        /\ confidence_score w1 == 1 /\ confidence_score w2 == 1
        /\ confidence_score w0 == 2 # 3).
Proof.
  split; [|split].
  - intros candidate_times c. reflexivity.
  - eexists. split; [reflexivity|]. simpl. lia.
  - do 3 eexists. split; [vm_compute; reflexivity|].
    split; [vm_compute; reflexivity|].
    split; [reflexivity|]. split; [reflexivity|].
    split; [reflexivity|]. split; reflexivity.
Qed.

(** ** The optimisation cycle *)

(** Polls that all come back pending while the clock is short of the
    deadline, followed by a clock reading at or past the deadline, make the
    loop end with nothing stored. *)
Lemma poll_loop_never_completed (timeout_time : Q)
  (pre : list (Q * result status_dict)) (t : Q) (reply : result status_dict)
  (rest : list (Q * result status_dict)) :
  Forall (fun cr => cr.1 < timeout_time /\ pending cr.2) pre ->
  timeout_time <= t ->
  poll_loop timeout_time (pre ++ (t, reply) :: rest) = Some (Ok None).
Proof.
  intros Hpre Ht. induction Hpre as [|[clock r] pre [Hclock Hpend] _ IH]; simpl.
  - apply Qltb_ge in Ht. by rewrite Ht.
  - simpl in Hclock, Hpend. apply Qltb_lt in Hclock. rewrite Hclock.
    destruct Hpend as (sd & -> & Hc & Hf).
    by rewrite !bool_decide_eq_false_2.
Qed.

(** An attempt on a draft plan, not cached, whose submission succeeds and
    whose poll loop ends with nothing stored. *)
Lemma optimize_collection_plan_loop_exit (env : environment) (w : world)
  (request_id : string) :
  optimization_cache w !! cache_key (plan w) = None ->
  CollectionPlan.status (plan w) = "DRAFT" ->
  submit_reply env = Ok request_id ->
  poll_loop (loop_start env + OPTIMIZATION_TIMEOUT) (polls env) = Some (Ok None) ->
  optimize_collection_plan env w =
  Some (World
          (CollectionPlan.set_updated_at (wall_now env)
             (CollectionPlan.set_status "FAILED"
                (CollectionPlan.set_updated_at (wall_now env)
                   (CollectionPlan.set_status "PROCESSING" (plan w)))))
          (optimization_cache w)
          (PerformanceMetrics (S (total_optimizations (metrics w))) (cache_hits (metrics w))
             (S (failed_attempts (metrics w))) (average_duration (metrics w)))
          (max_concurrent w),
        Raise (Exception RuntimeError "Optimization timed out")).
Proof.
  intros Hcache Hstatus Hsubmit Hloop.
  unfold optimize_collection_plan, try_except, mbind, task_bind, tbind, tlift, sget.
  rewrite Hcache. unfold on_plan.
  rewrite update_status_cases, Hstatus.
  change (legal_transition "DRAFT" "PROCESSING") with true. cbn iota beta.
  unfold smodify, slift. rewrite Hsubmit, Hloop.
  cbn [falsy_result]. unfold sraise. cbn [plan metrics optimization_cache max_concurrent set_metrics].
  rewrite update_status_cases.
  reflexivity.
Qed.

(** The other way out of the loop: a poll that reports FAILED, or raises,
    ends the attempt with that error; the plan is left FAILED as well. *)
Lemma optimize_collection_plan_poll_raises (env : environment) (w : world)
  (request_id : string) (e : exception) :
  optimization_cache w !! cache_key (plan w) = None ->
  CollectionPlan.status (plan w) = "DRAFT" ->
  submit_reply env = Ok request_id ->
  poll_loop (loop_start env + OPTIMIZATION_TIMEOUT) (polls env) = Some (Raise e) ->
  exists w',
    optimize_collection_plan env w = Some (w', Raise e)
    /\ CollectionPlan.status (plan w') = "FAILED".
Proof.
  intros Hcache Hstatus Hsubmit Hloop.
  unfold optimize_collection_plan, try_except, mbind, task_bind, tbind, tlift, sget.
  rewrite Hcache. unfold on_plan.
  rewrite update_status_cases, Hstatus.
  change (legal_transition "DRAFT" "PROCESSING") with true. cbn iota beta.
  unfold smodify, slift. rewrite Hsubmit, Hloop.
  cbn [plan metrics optimization_cache max_concurrent set_metrics].
  rewrite update_status_cases.
  eexists. split; reflexivity.
Qed.

(** C4.  Take one attempt of [optimize_collection_plan] on a draft plan
    that is not in the cache and whose submission succeeds.  If every poll
    issued before the deadline (300 seconds after the start) reports a
    pending status, and the clock then reaches the deadline, or more
    generally whenever the poll loop ends with no result stored, the
    attempt ends there: it raises the error "Optimization timed out",
    counts one failed attempt and leaves the plan in status FAILED with the
    windows it had. *)
Theorem optimize_collection_plan_times_out (env : environment) (w : world)
  (request_id : string) :
  optimization_cache w !! cache_key (plan w) = None ->
  CollectionPlan.status (plan w) = "DRAFT" ->
  submit_reply env = Ok request_id ->
  poll_loop (loop_start env + OPTIMIZATION_TIMEOUT) (polls env) = Some (Ok None)
  \/ (exists pre t reply rest,
        polls env = (pre ++ (t, reply) :: rest)%list
        /\ Forall (fun cr => cr.1 < loop_start env + 300 /\ pending cr.2) pre
        /\ loop_start env + 300 <= t) ->
  exists w',
    optimize_collection_plan env w
      = Some (w', Raise (Exception RuntimeError "Optimization timed out"))
    /\ CollectionPlan.status (plan w') = "FAILED"
    /\ failed_attempts (metrics w') = S (failed_attempts (metrics w))
    /\ CollectionPlan.collection_windows (plan w')
       = CollectionPlan.collection_windows (plan w).
Proof.
  intros Hcache Hstatus Hsubmit Hloop.
  assert (poll_loop (loop_start env + OPTIMIZATION_TIMEOUT) (polls env) = Some (Ok None))
    as Hexit.
  { destruct Hloop as [H|(pre & t & reply & rest & -> & Hpre & Ht)]; [done|].
    by apply poll_loop_never_completed. }
  eexists. split; [by eapply optimize_collection_plan_loop_exit|]. done.
Qed.

Lemma optimize_collection_plan_times_out_witness :
  exists w',
    optimize_collection_plan never_completed example_world
      = Some (w', Raise (Exception RuntimeError "Optimization timed out"))
    /\ CollectionPlan.status (plan w') = "FAILED".
Proof.
  destruct (optimize_collection_plan_times_out never_completed example_world "request-1")
    as (w' & Hrun & Hstatus & _); try reflexivity.
  - right.
    exists [(0, Ok body_processing); (150, Ok body_processing); (299, Ok body_processing)],
      301, (Ok body_processing), [].
    split; [reflexivity|]. split; [|discriminate].
    repeat constructor; simpl; try reflexivity;
      exists body_processing; repeat split; discriminate.
  - exists w'. by split.
Defined.

(** ** Processing the oracle's result *)

(** C3, as amended.  For an oracle window with dimension scores
    (0.9, 0.8, 0.7, 0.9) and the default weights, the confidence computed
    by [calculate_confidence_score], and stored on the window by the
    scoring loop of [process_optimization_results], is
    0.4·0.9 + 0.3·0.8 + 0.2·0.7 + 0.1·0.9 = 0.83; the window passes the
    0.6 filter. *)
Theorem scenario_window_confidence (start stop : datetime) (stored : option Q) :
  exists score,
    calculate_confidence_score (confidence_params scenario_scores) None = Ok score
    /\ validate_windows [OracleWindow start stop scenario_scores stored]
       = Ok [Window start stop None None score scenario_scores]
    /\ score == 0.83
    /\ score == 0.4 * 0.9 + 0.3 * 0.8 + 0.2 * 0.7 + 0.1 * 0.9.
Proof.
  assert (exists score,
             calculate_confidence_score (confidence_params scenario_scores) None = Ok score
             /\ score == 0.83) as (score & Hscore & Hval).
  { eexists. split; [vm_compute; reflexivity|]. reflexivity. }
  exists score. repeat split; [done| |done|rewrite Hval; reflexivity].
  cbn [validate_windows ow_scores ow_start_time ow_end_time].
  rewrite Hscore. cbn [mbind result_bind].
  assert (Qle_bool MIN_ACCEPTABLE_SCORE score = true) as ->; [|done].
  apply Qle_bool_iff. rewrite Hval. discriminate.
Qed.

(** C3 as stated fails on the scenario: the confidence computed for the
    window is not 0.85, [process_optimization_results] raises instead of
    marking the plan OPTIMIZED, and the cycle ends with a FAILED plan that
    holds no window. *)
Lemma one_window_scenario_outcome :
  (exists score,
     calculate_confidence_score (confidence_params scenario_scores) None = Ok score
     /\ ~ score == 0.85)
  /\ process_optimization_results 5%Z one_window_results
       (CollectionPlan.set_status "PROCESSING" example_plan)
     = (CollectionPlan.set_status "PROCESSING" example_plan,
        Raise (Exception ValueError "Time span must be at least 300 seconds"))
  /\ exists w',
       optimize_collection_plan (completed_at_once one_window_results) example_world
         = Some (w', Raise (Exception ValueError "Time span must be at least 300 seconds"))
       /\ CollectionPlan.status (plan w') = "FAILED"
       /\ CollectionPlan.collection_windows (plan w') = [].
Proof.
  split; [|split].
  - eexists. split; [vm_compute; reflexivity|]. discriminate.
  - vm_compute. reflexivity.
  - eexists. split; [vm_compute; reflexivity|]. split; reflexivity.
Qed.

(** The checks of step 6 that the code does perform: a result without
    windows is refused, and only windows scoring at least 0.6 are kept. *)
Lemma final_windows_no_windows (rs : results) (c : constraints) :
  collection_windows rs = None \/ collection_windows rs = Some [] ->
  final_windows rs c
  = Raise (Exception ValueError "No valid collection windows in results").
Proof. intros [H|H]; unfold final_windows; by rewrite H. Qed.

(** The scenario of a COMPLETED poll with an empty window list: the
    attempt fails with the no-windows error and the plan ends FAILED. *)
Example empty_result_cycle_fails :
  exists w',
    optimize_collection_plan (completed_at_once (Results (Some []) (Some 0))) example_world
      = Some (w', Raise (Exception ValueError "No valid collection windows in results"))
    /\ CollectionPlan.status (plan w') = "FAILED".
Proof. eexists. split; [vm_compute; reflexivity|reflexivity]. Qed.

Lemma validate_windows_filters (windows : list oracle_window) (kept : list window) :
  validate_windows windows = Ok kept ->
  Forall (fun w => MIN_ACCEPTABLE_SCORE <= confidence_score w) kept.
Proof.
  revert kept. induction windows as [|w ws IH]; intros kept H; simpl in H.
  - injection H as <-. constructor.
  - destruct (calculate_confidence_score _ _) as [score|e]; [|discriminate]. simpl in H.
    destruct (validate_windows ws) as [rest|e]; [|discriminate]. simpl in H.
    destruct (Qle_bool MIN_ACCEPTABLE_SCORE score) eqn:E; injection H as <-; [|auto].
    constructor; [|auto]. by apply Qle_bool_iff.
Qed.

(** C2: the code at the two-window input.  Both windows score 0.83 and
    are kept; merging the kept windows would give one window from 0 s to
    10800 s with confidence 0.83, but the code first runs
    [optimize_time_windows] over the two start times and merges its output,
    a single window from 0 s to 7200 s with confidence 1; handing that dict
    to [add_collection_window] then raises. *)
Theorem process_optimization_results_reapplies_optimizer :
  exists kept merged_kept final,
    validate_windows (default [] (collection_windows two_window_results)) = Ok kept
    /\ merge_overlapping_windows kept = [merged_kept]
    /\ final_windows two_window_results (Constraints None None) = Ok [final]
    /\ (start_time merged_kept, end_time merged_kept) = (0%Z, seconds 10800)
    /\ confidence_score merged_kept == 0.83
    /\ (start_time final, end_time final) = (0%Z, seconds 7200)
    /\ confidence_score final == 1
    /\ process_optimization_results 5%Z two_window_results
         (CollectionPlan.set_status "PROCESSING" example_plan)
       = (CollectionPlan.set_status "PROCESSING" example_plan,
          Raise (Exception AttributeError "'dict' object has no attribute 'validate'")).
Proof.
  do 3 eexists.
  split; [vm_compute; reflexivity|].
  split; [vm_compute; reflexivity|].
  split; [vm_compute; reflexivity|].
  repeat split; vm_compute; reflexivity.
Qed.

(** ** The oracle client *)

(** C7: the code on a 404.  The attempt turns the 404 into the not-found
    [ValueError], and the wrapper answers any raised attempt with another
    attempt: after a 404 on the first attempt the call goes on with the
    two attempts it has left.  A poll or a cancel answered 404 and then
    200 makes two attempts and returns the second answer; answered 404
    three times it makes three attempts and raises [RetryError]. *)
Theorem not_found_is_retried :
  (forall request_id body replies,
     get_planning_status request_id (HttpResponse 404 body :: replies)
       = retrying (get_planning_status_attempt request_id) 2 replies 1
     /\ cancel_planning_request request_id (HttpResponse 404 body :: replies)
       = retrying (cancel_planning_request_attempt request_id) 2 replies 1)
  /\ get_planning_status_attempt "request-1" (HttpResponse 404 body_not_found)
    = Raise (Exception ValueError "Planning request not found")
  /\ get_planning_status "request-1"
       [HttpResponse 404 body_not_found; HttpResponse 200 body_processing]
     = Some (2%nat, Ok body_processing)
  /\ get_planning_status "request-1"
       [HttpResponse 404 body_not_found; HttpResponse 404 body_not_found;
        HttpResponse 404 body_not_found]
     = Some (3%nat, Raise (Exception RetryError "RetryError"))
  /\ cancel_planning_request "request-1"
       [HttpResponse 404 body_not_found; HttpResponse 200 body_processing]
     = Some (2%nat, Ok true)
  /\ cancel_planning_request "request-1"
       [HttpResponse 404 body_not_found; HttpResponse 404 body_not_found;
        HttpResponse 404 body_not_found]
     = Some (3%nat, Raise (Exception RetryError "RetryError")).
Proof.
  split; [|repeat split; reflexivity].
  intros request_id body replies.
  unfold get_planning_status, cancel_planning_request, MAX_RETRIES.
  cbn [retrying].
  unfold get_planning_status_attempt at 1, cancel_planning_request_attempt at 1.
  destruct (bool_decide (request_id = "")); split; reflexivity.
Qed.

(** * Further properties of the code *)

(** ** Clipping and means *)

Lemma np_clip_bounds (v lo hi : Q) : lo <= hi -> lo <= np_clip v lo hi <= hi.
Proof.
  intros Hlh. unfold np_clip.
  destruct (Qltb v lo) eqn:E0; [lra|].
  destruct (Qltb hi v) eqn:E1; [lra|].
  apply Qltb_ge in E0, E1. lra.
Qed.

Lemma np_clip_mono (v v' lo hi : Q) :
  lo <= hi -> v <= v' -> np_clip v lo hi <= np_clip v' lo hi.
Proof.
  intros Hlh Hv. unfold np_clip.
  destruct (Qltb v lo) eqn:E0, (Qltb v' lo) eqn:E0';
    try apply Qltb_lt in E0; try apply Qltb_lt in E0';
    try apply Qltb_ge in E0; try apply Qltb_ge in E0';
    destruct (Qltb hi v) eqn:E1, (Qltb hi v') eqn:E1';
    try apply Qltb_lt in E1; try apply Qltb_lt in E1';
    try apply Qltb_ge in E1; try apply Qltb_ge in E1'; lra.
Qed.

Lemma np_clip_inside (v lo hi : Q) : lo <= v <= hi -> np_clip v lo hi = v.
Proof.
  intros [H0 H1]. unfold np_clip.
  destruct (Qltb v lo) eqn:E0; [apply Qltb_lt in E0; lra|].
  destruct (Qltb hi v) eqn:E1; [apply Qltb_lt in E1; lra|done].
Qed.

Lemma foldl_Qplus_acc (l : list Q) (a : Q) : foldl Qplus a l == a + foldl Qplus 0 l.
Proof.
  revert a. induction l as [|x l IH]; intros a; simpl; [lra|].
  rewrite (IH (a + x)), (IH (0 + x)). lra.
Qed.

Lemma py_sum_cons (x : Q) (l : list Q) : py_sum (x :: l) == x + py_sum l.
Proof. unfold py_sum. simpl. rewrite foldl_Qplus_acc. lra. Qed.

Lemma py_sum_app (l l' : list Q) : py_sum (l ++ l') == py_sum l + py_sum l'.
Proof.
  induction l as [|x l IH]; simpl.
  - unfold py_sum at 2. simpl. lra.
  - rewrite !py_sum_cons, IH. lra.
Qed.

Lemma py_sum_upper (l : list Q) (hi : Q) :
  Forall (fun x => x <= hi) l -> py_sum l <= inject_Z (Z.of_nat (length l)) * hi.
Proof.
  induction 1 as [|x l Hx _ IH].
  - unfold py_sum. cbn. change (inject_Z (Z.of_nat 0)) with 0. lra.
  - rewrite py_sum_cons. cbn [length]. rewrite Nat2Z.inj_succ, <- Z.add_1_r, inject_Z_plus.
    change (inject_Z 1) with 1. lra.
Qed.

Lemma py_sum_lower (l : list Q) (lo : Q) :
  Forall (fun x => lo <= x) l -> inject_Z (Z.of_nat (length l)) * lo <= py_sum l.
Proof.
  induction 1 as [|x l Hx _ IH].
  - unfold py_sum. cbn. change (inject_Z (Z.of_nat 0)) with 0. lra.
  - rewrite py_sum_cons. cbn [length]. rewrite Nat2Z.inj_succ, <- Z.add_1_r, inject_Z_plus.
    change (inject_Z 1) with 1. lra.
Qed.

Lemma inject_nat_pos (n : nat) : (0 < n)%nat -> 0 < inject_Z (Z.of_nat n).
Proof.
  intros H. change 0 with (inject_Z 0). rewrite <- Zlt_Qlt. lia.
Qed.

(** The mean of a non-empty list lies between any bounds on its items. *)
Lemma mean_upper (l : list Q) (hi : Q) :
  l <> [] -> Forall (fun x => x <= hi) l ->
  py_sum l / inject_Z (Z.of_nat (length l)) <= hi.
Proof.
  intros Hne Hall.
  assert (0 < inject_Z (Z.of_nat (length l))) as Hn.
  { apply inject_nat_pos. destruct l; [done|simpl; lia]. }
  apply Qle_shift_div_r; [done|].
  rewrite Qmult_comm. by apply py_sum_upper.
Qed.

Lemma mean_lower (l : list Q) (lo : Q) :
  l <> [] -> Forall (fun x => lo <= x) l ->
  lo <= py_sum l / inject_Z (Z.of_nat (length l)).
Proof.
  intros Hne Hall.
  assert (0 < inject_Z (Z.of_nat (length l))) as Hn.
  { apply inject_nat_pos. destruct l; [done|simpl; lia]. }
  apply Qle_shift_div_l; [done|].
  rewrite Qmult_comm. by apply py_sum_lower.
Qed.

(** ** interpolate_detection_limits *)

Lemma type_factors_lookup (asset_type : string) :
  asset_type ∈ VALID_ASSET_TYPES ->
  exists factor, type_factors !! asset_type = Some factor /\ 1 <= factor <= 1.3.
Proof.
  unfold VALID_ASSET_TYPES. rewrite !elem_of_cons, elem_of_nil.
  intros [->|[->|[->|[->|[]]]]]; eexists; (split; [reflexivity|split; discriminate]).
Qed.

Lemma interpolate_detection_limits_value (base_limit distance : Q) (asset_type : string) :
  asset_type ∈ VALID_ASSET_TYPES ->
  MIN_DETECTION_LIMIT <= base_limit <= MAX_DETECTION_LIMIT ->
  exists factor,
    type_factors !! asset_type = Some factor /\ 1 <= factor <= 1.3
    /\ interpolate_detection_limits base_limit distance asset_type
       = Ok (np_clip (base_limit * (1 + (distance / 1000) * factor))
               MIN_DETECTION_LIMIT MAX_DETECTION_LIMIT).
Proof.
  intros Htype [Hlo Hhi].
  destruct (type_factors_lookup _ Htype) as (factor & Hf & Hrange).
  exists factor. split; [done|]. split; [done|].
  unfold interpolate_detection_limits.
  rewrite bool_decide_eq_true_2 by done. cbn [negb].
  apply Qle_bool_iff in Hlo, Hhi. rewrite Hlo, Hhi. cbn [negb andb].
  unfold getitem. rewrite Hf. reflexivity.
Qed.

(** The call returns exactly for a recognised asset type and a base limit
    within the detection-limit range, and what it returns lies within that
    range again, whatever the distance. *)
Theorem interpolate_detection_limits_range (base_limit distance : Q) (asset_type : string) :
  (is_Ok (interpolate_detection_limits base_limit distance asset_type)
   <-> asset_type ∈ VALID_ASSET_TYPES
       /\ MIN_DETECTION_LIMIT <= base_limit <= MAX_DETECTION_LIMIT)
  /\ (forall v, interpolate_detection_limits base_limit distance asset_type = Ok v ->
        MIN_DETECTION_LIMIT <= v <= MAX_DETECTION_LIMIT)
  /\ (asset_type ∉ VALID_ASSET_TYPES ->
      interpolate_detection_limits base_limit distance asset_type
        = Raise (Exception ValueError "Invalid asset type")).
Proof.
  assert (is_Ok (interpolate_detection_limits base_limit distance asset_type)
          -> asset_type ∈ VALID_ASSET_TYPES
             /\ MIN_DETECTION_LIMIT <= base_limit <= MAX_DETECTION_LIMIT) as Hinv.
  { intros [v Hv]. unfold interpolate_detection_limits in Hv.
    destruct (bool_decide (asset_type ∈ VALID_ASSET_TYPES)) eqn:Ht; [|discriminate].
    apply bool_decide_eq_true in Ht. cbn [negb] in Hv.
    destruct (Qle_bool MIN_DETECTION_LIMIT base_limit) eqn:E1; [|discriminate].
    destruct (Qle_bool base_limit MAX_DETECTION_LIMIT) eqn:E2; [|discriminate].
    apply Qle_bool_iff in E1, E2. done. }
  split; [|split].
  - split; [done|]. intros [Ht Hb].
    destruct (interpolate_detection_limits_value base_limit distance _ Ht Hb)
      as (factor & _ & _ & ->). by eexists.
  - intros v Hv. destruct Hinv as [Ht Hb]; [by eexists|].
    destruct (interpolate_detection_limits_value base_limit distance _ Ht Hb)
      as (factor & _ & _ & Heq). rewrite Heq in Hv. injection Hv as <-.
    apply np_clip_bounds. discriminate.
  - intros Hnot. unfold interpolate_detection_limits.
    by rewrite bool_decide_eq_false_2.
Qed.

(** For a valid call the result grows with the distance, is the base limit
    itself at distance 0, and is never below the base limit at a
    non-negative distance. *)
Theorem interpolate_detection_limits_monotone
  (base_limit d1 d2 : Q) (asset_type : string) :
  asset_type ∈ VALID_ASSET_TYPES ->
  MIN_DETECTION_LIMIT <= base_limit <= MAX_DETECTION_LIMIT ->
  d1 <= d2 ->
  exists v1 v2,
    interpolate_detection_limits base_limit d1 asset_type = Ok v1
    /\ interpolate_detection_limits base_limit d2 asset_type = Ok v2
    /\ v1 <= v2
    /\ (d1 == 0 -> v1 == base_limit)
    /\ (0 <= d1 -> base_limit <= v1).
Proof.
  intros Ht Hb Hd.
  destruct (interpolate_detection_limits_value base_limit d1 _ Ht Hb)
    as (factor & Hf & Hfr & ->).
  destruct (interpolate_detection_limits_value base_limit d2 _ Ht Hb)
    as (factor' & Hf' & _ & ->).
  assert (factor' = factor) as -> by congruence.
  unfold MIN_DETECTION_LIMIT, MAX_DETECTION_LIMIT in *.
  do 2 eexists. split; [done|]. split; [done|].
  assert (forall d, base_limit * (1 + d / 1000 * factor)
                    == base_limit + base_limit * factor * (1 # 1000) * d) as Hlin.
  { intros d. field. }
  split; [|split].
  - apply np_clip_mono; [discriminate|]. rewrite !Hlin.
    assert (0 <= base_limit * factor * (1 # 1000)) as Hc by nra. nra.
  - intros Hz. rewrite <- (np_clip_inside base_limit 0.1 100) at 2 by done.
    apply Qle_antisym; (apply np_clip_mono; [discriminate|]); rewrite Hlin, Hz; lra.
  - intros Hd1.
    rewrite <- (np_clip_inside base_limit 0.1 100) at 1 by done.
    apply np_clip_mono; [discriminate|]. rewrite Hlin.
    assert (0 <= base_limit * factor * (1 # 1000)) as Hc by nra. nra.
Qed.

Lemma interpolate_detection_limits_monotone_witness :
  exists v1 v2,
    interpolate_detection_limits 0.5 0 "CUSTOM" = Ok v1
    /\ interpolate_detection_limits 0.5 1000 "CUSTOM" = Ok v2
    /\ v1 <= v2.
Proof.
  destruct (interpolate_detection_limits_monotone 0.5 0 1000 "CUSTOM")
    as (v1 & v2 & H1 & H2 & Hle & _).
  - unfold VALID_ASSET_TYPES. set_solver.
  - split; discriminate.
  - discriminate.
  - exists v1, v2. done.
Defined.

(** ** calculate_capability_matrix *)

Lemma py_min_le_r (a b : Q) : py_min a b <= b.
Proof.
  unfold py_min. destruct (Qltb b a) eqn:E; [lra|]. by apply Qltb_ge in E.
Qed.

Lemma py_min_ge (a b lo : Q) : lo <= a -> lo <= b -> lo <= py_min a b.
Proof. intros Ha Hb. unfold py_min. by destruct (Qltb b a). Qed.

Lemma capability_cell_le_1 (req : gmap string Q) (capability : string * Q) (x : Q) :
  capability_cell req capability = Ok x -> x <= 1.
Proof.
  unfold capability_cell, py_div. destruct (req !! capability.1) as [v|].
  - destruct (Qeq_bool capability.2 0); [discriminate|]. simpl.
    intros [= <-]. apply py_min_le_r.
  - intros [= <-]. discriminate.
Qed.

Lemma capability_cell_nonneg (req : gmap string Q) (capability : string * Q) (x : Q) :
  map_Forall (fun _ v => 0 <= v) req -> 0 < capability.2 ->
  capability_cell req capability = Ok x -> 0 <= x.
Proof.
  intros Hreq Hcap. unfold capability_cell, py_div.
  destruct (req !! capability.1) as [v|] eqn:Hv.
  - destruct (Qeq_bool capability.2 0); [discriminate|]. simpl.
    intros [= <-]. apply py_min_ge; [|discriminate].
    apply Qle_shift_div_l; [done|]. specialize (Hreq _ _ Hv). simpl in Hreq. lra.
  - intros [= <-]. discriminate.
Qed.

Lemma concat_length_rows {A} (matrix : list (list A)) (m : nat) :
  Forall (fun row => length row = m) matrix ->
  length (concat matrix) = (length matrix * m)%nat.
Proof.
  induction 1 as [|row matrix Hrow _ IH]; [done|].
  simpl. rewrite length_app, IH, Hrow. lia.
Qed.

(** The rows the matrix is built from: one per requirement, one cell per
    capability. *)
Lemma capability_rows (requirements : list (gmap string Q))
  (asset_capabilities : list (string * Q)) (matrix : list (list Q)) :
  map_results (fun req => map_results (capability_cell req) asset_capabilities) requirements
    = Ok matrix ->
  Forall2 (fun req row => Forall2 (fun cap x => capability_cell req cap = Ok x)
                            asset_capabilities row)
    requirements matrix.
Proof.
  intros H%map_results_Forall2.
  eapply Forall2_impl; [exact H|]. intros req row Hrow. by apply map_results_Forall2.
Qed.

(** Whenever [calculate_capability_matrix] returns, the matrix has one row
    per requirement and one column per capability, the size is within
    [MAX_MATRIX_SIZE], and no entry nor the overall score exceeds 1; with
    non-negative requirement values and positive capability values the
    entries and the overall score lie in [0, 1]. *)
Theorem calculate_capability_matrix_bounds (requirements : list (gmap string Q))
  (asset_capabilities : list (string * Q)) (matrix : list (list Q)) (overall_score : Q) :
  calculate_capability_matrix requirements asset_capabilities = Ok (matrix, overall_score) ->
  length matrix = length requirements
  /\ Forall (fun row => length row = length asset_capabilities
                        /\ Forall (fun x => x <= 1) row) matrix
  /\ overall_score <= 1
  /\ (Z.of_nat (length requirements * length asset_capabilities) <= MAX_MATRIX_SIZE)%Z
  /\ (Forall (map_Forall (fun _ v => 0 <= v)) requirements ->
      Forall (fun cap => 0 < cap.2) asset_capabilities ->
      Forall (Forall (fun x => 0 <= x)) matrix /\ 0 <= overall_score).
Proof.
  unfold calculate_capability_matrix. intros H.
  destruct (MAX_MATRIX_SIZE <? _)%Z eqn:Hsize; [discriminate|].
  apply Z.ltb_ge in Hsize.
  destruct (map_results _ requirements) as [mx|e] eqn:Hmx; [|discriminate].
  cbn [mbind result_bind] in H.
  pose proof (capability_rows _ _ _ Hmx) as Hrows.
  assert (length mx = length requirements) as Hlen.
  { symmetry. by eapply Forall2_length. }
  assert (Forall (fun row => length row = length asset_capabilities
                             /\ Forall (fun x => x <= 1) row) mx) as Hshape.
  { apply Forall_forall. intros row Hrow.
    apply list_elem_of_lookup in Hrow as [i Hi].
    destruct (Forall2_lookup_r _ _ _ _ _ Hrows Hi) as (req & _ & Hcells).
    split; [symmetry; by eapply Forall2_length|].
    apply Forall_forall. intros x Hx. apply list_elem_of_lookup in Hx as [j Hj].
    destruct (Forall2_lookup_r _ _ _ _ _ Hcells Hj) as (cap & _ & Hcell).
    by eapply capability_cell_le_1. }
  assert (length (concat mx) = (length requirements * length asset_capabilities)%nat)
    as Hconcat.
  { rewrite <- Hlen. apply concat_length_rows.
    eapply Forall_impl; [exact Hshape|]. by intros row [? _]. }
  assert (Forall (fun x => x <= 1) (concat mx)) as Hle.
  { apply Forall_concat. eapply Forall_impl; [exact Hshape|]. by intros row [_ ?]. }
  assert (forall lo, Forall (fun x => lo <= x) (concat mx) -> lo <= 0 ->
                     lo <= overall_score) as Hlower.
  { intros lo Hlo Hlo0.
    destruct (0 <? _)%nat eqn:Hpos; injection H as <- <-; [|done].
    apply Nat.ltb_lt in Hpos. rewrite <- Hconcat.
    apply mean_lower; [|done]. intros Hnil. rewrite Hnil in Hconcat. simpl in Hconcat. lia. }
  assert (overall_score <= 1) as Hupper.
  { destruct (0 <? _)%nat eqn:Hpos; injection H as <- <-; [|discriminate].
    apply Nat.ltb_lt in Hpos. rewrite <- Hconcat.
    apply mean_upper; [|done]. intros Hnil. rewrite Hnil in Hconcat. simpl in Hconcat. lia. }
  assert (matrix = mx) as ->.
  { by destruct (0 <? _)%nat; injection H as <- <-. }
  repeat split; try done.
  - apply Forall_forall. intros row Hrow.
    apply list_elem_of_lookup in Hrow as [i Hi].
    destruct (Forall2_lookup_r _ _ _ _ _ Hrows Hi) as (req & Hreq & Hcells).
    apply Forall_forall. intros x Hx. apply list_elem_of_lookup in Hx as [j Hj].
    destruct (Forall2_lookup_r _ _ _ _ _ Hcells Hj) as (cap & Hcap & Hcell).
    eapply capability_cell_nonneg; [| |exact Hcell].
    + eapply Forall_lookup_1; eauto.
    + eapply (Forall_lookup_1 (fun cap => 0 < cap.2)); eauto.
  - apply Hlower; [|lra]. apply Forall_concat.
    apply Forall_forall. intros row Hrow.
    apply list_elem_of_lookup in Hrow as [i Hi].
    destruct (Forall2_lookup_r _ _ _ _ _ Hrows Hi) as (req & Hreq & Hcells).
    apply Forall_forall. intros x Hx. apply list_elem_of_lookup in Hx as [j Hj].
    destruct (Forall2_lookup_r _ _ _ _ _ Hcells Hj) as (cap & Hcap & Hcell).
    eapply capability_cell_nonneg; [| |exact Hcell].
    + eapply Forall_lookup_1; eauto.
    + eapply (Forall_lookup_1 (fun cap => 0 < cap.2)); eauto.
Qed.

Lemma calculate_capability_matrix_bounds_witness :
  calculate_capability_matrix [{[ "resolution" := 0.5 ]}] [("resolution", 1); ("bands", 4)]
    = Ok ([[0.5; 0]], (0 + 0.5 + 0) / 2)
  /\ (0 + 0.5 + 0) / 2 <= 1.
Proof.
  assert (calculate_capability_matrix [{[ "resolution" := 0.5 ]}]
            [("resolution", 1); ("bands", 4)] = Ok ([[0.5; 0]], (0 + 0.5 + 0) / 2)) as H
    by reflexivity.
  split; [exact H|].
  exact (proj1 (proj2 (proj2 (calculate_capability_matrix_bounds _ _ _ _ H)))).
Defined.

(** ** calculate_confidence_score: range, clamping, monotonicity *)

Lemma calculate_confidence_score_in_unit_interval_aux
  (parameters : gmap string Q) (custom_weights : option (gmap string Q)) (score : Q) :
  calculate_confidence_score parameters custom_weights = Ok score ->
  0 <= score <= 1.
Proof.
  unfold calculate_confidence_score, calculate_confidence_score_body, handle_calculation_errors.
  destruct (negb (bool_decide _)); [discriminate|].
  destruct (negb (np_isclose _ _ _)); [discriminate|].
  destruct (weighted_sum _ _ _ _) as [s|e]; [|discriminate].
  cbn [mbind result_bind]. intros [= <-]. apply snap_score_range.
Qed.

(** Whatever the parameters and the weights, a returned score lies in
    [0, 1]. *)
Theorem calculate_confidence_score_in_unit_interval
  (parameters : gmap string Q) (custom_weights : option (gmap string Q)) (score : Q) :
  calculate_confidence_score parameters custom_weights = Ok score ->
  0 <= score <= 1.
Proof. apply calculate_confidence_score_in_unit_interval_aux. Qed.

Lemma calculate_confidence_score_in_unit_interval_witness :
  0 <= 0.83000000 <= 1.
Proof.
  apply (calculate_confidence_score_in_unit_interval (confidence_params scenario_scores) None).
  reflexivity.
Defined.

(** Out-of-range parameters are clamped, not rejected: the call gives the
    same outcome on the parameters clipped to [0, 1]. *)
Theorem calculate_confidence_score_clamps
  (parameters : gmap string Q) (custom_weights : option (gmap string Q)) :
  calculate_confidence_score parameters custom_weights
  = calculate_confidence_score ((fun v => np_clip v 0 1) <$> parameters) custom_weights.
Proof.
  unfold calculate_confidence_score, calculate_confidence_score_body.
  rewrite dom_fmap_L.
  destruct (negb (bool_decide _)); [done|].
  destruct (negb (np_isclose _ _ _)); [done|].
  assert ((fun v => np_clip v 0 1) <$> ((fun v => np_clip v 0 1) <$> parameters)
          = (fun v => np_clip v 0 1) <$> parameters) as ->; [|done].
  rewrite <- map_fmap_compose. apply map_fmap_ext. intros k v _. simpl.
  apply np_clip_id, np_clip_range.
Qed.

Lemma snap_score_mono (s s' : Q) : s <= s' -> snap_score s <= snap_score s'.
Proof.
  intros Hs. pose proof (np_clip_mono s s' 0 1 ltac:(discriminate) Hs) as Hc.
  pose proof (np_clip_range s) as Hr. pose proof (np_clip_range s') as Hr'.
  unfold snap_score.
  destruct (np_isclose (np_clip s 0 1) 0 _) eqn:E0.
  { destruct (np_isclose (np_clip s' 0 1) 0 _); [lra|].
    destruct (np_isclose (np_clip s' 0 1) 1 _); lra. }
  assert (~ np_clip s 0 1 <= 0.00000001) as Hlo.
  { intros H. assert (np_isclose (np_clip s 0 1) 0 NUMERICAL_TOLERANCE = true) as E;
      [apply isclose_zero; lra | congruence]. }
  destruct (np_isclose (np_clip s' 0 1) 0 _) eqn:E0'.
  { apply isclose_zero in E0'. lra. }
  destruct (np_isclose (np_clip s 0 1) 1 _) eqn:E1,
           (np_isclose (np_clip s' 0 1) 1 _) eqn:E1'; try lra.
  apply isclose_one in E1.
  assert (np_isclose (np_clip s' 0 1) 1 NUMERICAL_TOLERANCE = true) as E;
    [apply isclose_one; lra | congruence].
Qed.

(** With the default weights, raising any of the four dimension scores
    never lowers the confidence. *)
Theorem calculate_confidence_score_monotone
  (parameters parameters' : gmap string Q) (t s c r t' s' c' r' : Q) :
  parameters !! "temporal" = Some t -> parameters !! "spatial" = Some s ->
  parameters !! "spectral" = Some c -> parameters !! "radiometric" = Some r ->
  parameters' !! "temporal" = Some t' -> parameters' !! "spatial" = Some s' ->
  parameters' !! "spectral" = Some c' -> parameters' !! "radiometric" = Some r' ->
  t <= t' -> s <= s' -> c <= c' -> r <= r' ->
  exists v v',
    calculate_confidence_score parameters None = Ok v
    /\ calculate_confidence_score parameters' None = Ok v'
    /\ v <= v'.
Proof.
  intros Ht Hs Hc Hr Ht' Hs' Hc' Hr' Lt Ls Lc Lr.
  do 2 eexists. split; [|split].
  - eapply (calculate_confidence_score_value parameters CONFIDENCE_WEIGHT_FACTORS None);
      eauto; try reflexivity. apply Qle_bool_iff. reflexivity.
  - eapply (calculate_confidence_score_value parameters' CONFIDENCE_WEIGHT_FACTORS None);
      eauto; try reflexivity. apply Qle_bool_iff. reflexivity.
  - apply snap_score_mono.
    pose proof (np_clip_mono t t' 0 1 ltac:(discriminate) Lt).
    pose proof (np_clip_mono s s' 0 1 ltac:(discriminate) Ls).
    pose proof (np_clip_mono c c' 0 1 ltac:(discriminate) Lc).
    pose proof (np_clip_mono r r' 0 1 ltac:(discriminate) Lr).
    lra.
Qed.

Lemma calculate_confidence_score_monotone_witness :
  exists v v',
    calculate_confidence_score (confidence_params scenario_scores) None = Ok v
    /\ calculate_confidence_score (confidence_params (DimensionScores (Some 1) (Some 0.8)
                                                        (Some 0.7) (Some 0.9))) None = Ok v'
    /\ v <= v'.
Proof.
  apply (calculate_confidence_score_monotone _ _ 0.9 0.8 0.7 0.9 1 0.8 0.7 0.9);
    try reflexivity; discriminate.
Defined.

(** ** optimize_time_windows: what the returned windows look like *)

Lemma StronglySorted_lookup_le (l : list Z) (i j : nat) (a b : Z) :
  StronglySorted (fun x y => (x <=? y)%Z = true) l ->
  (i <= j)%nat -> l !! i = Some a -> l !! j = Some b -> (a <= b)%Z.
Proof.
  intros Hs. revert i j. induction Hs as [|x l Hl IH Hx]; intros i j Hij Hi Hj; [done|].
  destruct i as [|i], j as [|j]; simpl in *; try lia.
  - injection Hi as <-. injection Hj as <-. lia.
  - injection Hi as <-. rewrite Forall_forall in Hx.
    apply Z.leb_le, Hx. by eapply list_elem_of_lookup_2.
  - eapply IH; [|eauto..]. lia.
Qed.

Lemma sorted_times_sorted (candidate_times : list datetime) :
  StronglySorted (fun x y => (x <=? y)%Z = true) (stable_sort Z.leb candidate_times).
Proof.
  apply stable_sort_keys_sorted.
  - intros x y. rewrite Z.leb_gt, Z.leb_le. lia.
  - intros x y z. rewrite !Z.leb_le. lia.
Qed.

(** Every sample the [while] loop steps over is within [max_duration] of
    the start. *)
Lemma grow_end_within (start : datetime) (m : Q) (later : list datetime)
  (end_idx k : nat) :
  (end_idx + k < grow_end start (Some m) later end_idx)%nat ->
  exists t, later !! k = Some t /\ total_seconds (t - start) <= m.
Proof.
  revert end_idx k. induction later as [|t later IH]; intros end_idx k H; simpl in H; [lia|].
  destruct (Qle_bool (total_seconds (t - start)) m) eqn:E; [|lia].
  destruct k as [|k].
  - exists t. split; [done|]. by apply Qle_bool_iff.
  - apply (IH (S end_idx) k). lia.
Qed.

(** What an accepted window is made of. *)
Lemma process_window_accepted (sorted_times : list datetime) (c : constraints)
  (start_idx : nat) (w : window) :
  process_window sorted_times c start_idx = Ok (Some w) ->
  exists start stop end_idx score,
    sorted_times !! start_idx = Some start
    /\ sorted_times !! (end_idx - 1)%nat = Some stop
    /\ (start_idx + 2 <= end_idx)%nat
    /\ w = Window start stop (Some (total_seconds (stop - start)))
             (Some (end_idx - start_idx)%nat) score no_scores
    /\ 0 <= score <= 1
    /\ (forall m, max_duration c = Some m -> total_seconds (stop - start) <= m).
Proof.
  unfold process_window, time_at.
  destruct (sorted_times !! start_idx) as [start|] eqn:Hstart; [|discriminate].
  cbn [mbind result_bind].
  set (end_idx := grow_end _ _ _ _).
  destruct (end_idx - start_idx <? 2)%nat eqn:Hlen; [discriminate|].
  apply Nat.ltb_ge in Hlen.
  destruct (sorted_times !! (end_idx - 1)%nat) as [stop|] eqn:Hstop; [|discriminate].
  cbn [mbind result_bind].
  destruct (py_div _ _) as [ratio|e]; [|discriminate]. cbn [mbind result_bind].
  destruct (calculate_confidence_score _ None) as [score|e] eqn:Hscore; [|discriminate].
  cbn [mbind result_bind]. intros [= <-].
  exists start, stop, end_idx, score.
  split; [reflexivity|]. split; [exact Hstop|]. split; [lia|]. split; [reflexivity|].
  split; [exact (calculate_confidence_score_in_unit_interval_aux _ _ _ Hscore)|].
  intros m Hm. subst end_idx. rewrite Hm in Hlen, Hstop.
  set (e := grow_end start (Some m) (drop (S start_idx) sorted_times) (S start_idx)) in *.
  destruct (grow_end_within start m (drop (S start_idx) sorted_times) (S start_idx)
              (e - 1 - S start_idx)) as (t & Ht & Hwithin); [fold e; lia|].
  rewrite lookup_drop in Ht.
  replace (S start_idx + (e - 1 - S start_idx))%nat with (e - 1)%nat in Ht by lia.
  pose proof (eq_trans (eq_sym Ht) Hstop) as Heq. injection Heq as ->. exact Hwithin.
Qed.

(** Every returned window is one that [process_window] accepted at some
    start index. *)
Lemma optimize_time_windows_from_process_window
  (candidate_times : list datetime) (c : constraints) (max_windows : option Z)
  (ws : list window) (w : window) :
  optimize_time_windows candidate_times c max_windows = Ok ws -> w ∈ ws ->
  exists i, process_window (stable_sort Z.leb candidate_times) c i = Ok (Some w).
Proof.
  intros H Hw.
  destruct (optimize_time_windows_returns_prefix _ _ _ _ H) as [->|(rs & n & Hrs & ->)].
  { by apply elem_of_nil in Hw. }
  apply elem_of_take in Hw as (j & Hj & _).
  apply list_elem_of_lookup_2 in Hj.
  rewrite (stable_sort_perm confidence_desc) in Hj.
  apply list_elem_of_omap in Hj as (r & Hr & Hsome). simpl in Hsome. subst r.
  apply list_elem_of_lookup in Hr as [i Hi].
  apply map_results_Forall2 in Hrs.
  destruct (Forall2_lookup_r _ _ _ _ _ Hrs Hi) as (i' & Hi' & Hp).
  by exists i'.
Qed.

(** Each window [optimize_time_windows] returns starts and ends at
    candidate times, does not end before it starts, records its own length
    as its duration, holds at least two samples, is no longer than
    [max_duration] when one is given, carries no dimension scores and has
    a confidence in [0, 1]. *)
Theorem optimize_time_windows_windows
  (candidate_times : list datetime) (c : constraints) (max_windows : option Z)
  (ws : list window) :
  optimize_time_windows candidate_times c max_windows = Ok ws ->
  Forall (fun w =>
            start_time w ∈ candidate_times /\ end_time w ∈ candidate_times
            /\ (start_time w <= end_time w)%Z
            /\ duration w = Some (total_seconds (end_time w - start_time w))
            /\ (exists n, sample_count w = Some n /\ (2 <= n)%nat)
            /\ (forall m, max_duration c = Some m ->
                  total_seconds (end_time w - start_time w) <= m)
            /\ scores w = no_scores
            /\ 0 <= confidence_score w <= 1) ws.
Proof.
  intros H. apply Forall_forall. intros w Hw.
  destruct (optimize_time_windows_from_process_window _ _ _ _ _ H Hw) as [i Hi].
  apply process_window_accepted in Hi
    as (start & stop & end_idx & score & Hstart & Hstop & Hidx & -> & Hscore & Hmax).
  cbn [start_time end_time duration sample_count scores confidence_score].
  split; [|split; [|split; [|split; [|split; [|split; [|split]]]]]].
  - rewrite <- (stable_sort_perm Z.leb candidate_times). by eapply list_elem_of_lookup_2.
  - rewrite <- (stable_sort_perm Z.leb candidate_times). by eapply list_elem_of_lookup_2.
  - apply (StronglySorted_lookup_le (stable_sort Z.leb candidate_times) i (end_idx - 1));
      [apply sorted_times_sorted | lia | exact Hstart | exact Hstop].
  - reflexivity.
  - exists (end_idx - i)%nat. split; [reflexivity|lia].
  - exact Hmax.
  - reflexivity.
  - exact Hscore.
Qed.

Lemma optimize_time_windows_windows_witness :
  Forall (fun w => (start_time w <= end_time w)%Z)
    [Window (seconds 0) (seconds 600) (Some 600.000000) (Some 2%nat) 1 no_scores].
Proof.
  eapply Forall_impl.
  - apply (optimize_time_windows_windows [seconds 0; seconds 600] (Constraints None None)
             (Some 1%Z)).
    reflexivity.
  - intros w (_ & _ & H & _). exact H.
Defined.

(** ** merge_overlapping_windows: nothing is lost *)

Lemma covers_refl (w : window) : covers w w.
Proof. unfold covers. split; [lia|]. split; [lia|]. apply Qle_refl. Qed.

Lemma covers_merged (current next_window x : window) :
  covers current x -> covers (merged_with current next_window) x.
Proof.
  unfold covers, merged_with. cbn [start_time end_time confidence_score].
  intros (Hs & He & Hc).
  destruct (py_max_is_max (confidence_score current) (confidence_score next_window))
    as (Hm & _ & _).
  split; [lia|]. split; [lia|]. eapply Qle_trans; eauto.
Qed.

Lemma covers_merged_next (current next_window : window) :
  (start_time current <= start_time next_window)%Z ->
  covers (merged_with current next_window) next_window.
Proof.
  unfold covers, merged_with. cbn [start_time end_time confidence_score]. intros Hs.
  destruct (py_max_is_max (confidence_score current) (confidence_score next_window))
    as (_ & Hm & _).
  split; [lia|]. split; [lia|done].
Qed.

Lemma merge_pass_covers (current : window) (rest : list window) (x : window) :
  Forall (fun r => start_le current r = true) rest ->
  StronglySorted (fun a b => start_le a b = true) rest ->
  covers current x \/ x ∈ rest ->
  exists o, o ∈ merge_pass current rest /\ covers o x.
Proof.
  revert current. induction rest as [|next_window rest IH]; intros current Hc Hs Hx.
  - destruct Hx as [Hx|Hx]; [|by apply elem_of_nil in Hx].
    exists current. split; [apply list_elem_of_here|done].
  - rewrite merge_pass_step.
    apply Forall_cons in Hc as [Hcn Hcr]. apply StronglySorted_inv in Hs as [Hs Hn].
    destruct (mergeable current next_window).
    + apply IH; [exact Hcr|exact Hs|].
      destruct Hx as [Hx|Hx]; [left; by apply covers_merged|].
      apply elem_of_cons in Hx as [->|Hx]; [|by right].
      left. apply covers_merged_next. unfold start_le in Hcn. by apply Z.leb_le.
    + destruct Hx as [Hx|Hx].
      * exists current. split; [apply list_elem_of_here|done].
      * destruct (IH next_window Hn Hs) as (o & Ho & Hcov).
        { apply elem_of_cons in Hx as [->|Hx]; [left; apply covers_refl|by right]. }
        exists o. split; [by apply list_elem_of_further|done].
Qed.

Lemma merge_pass_length (current : window) (rest : list window) :
  (1 <= length (merge_pass current rest) <= S (length rest))%nat.
Proof.
  revert current. induction rest as [|next_window rest IH]; intros current; [simpl; lia|].
  rewrite merge_pass_step. destruct (mergeable current next_window).
  - specialize (IH (merged_with current next_window)). simpl. lia.
  - specialize (IH next_window). simpl. lia.
Qed.

(** Merging loses nothing: every input window lies within some returned
    window that is at least as confident; and the result has at most as
    many windows as the input, and at least one unless the input is
    empty. *)
Theorem merge_overlapping_windows_covers (windows : list window) :
  (forall w, w ∈ windows ->
     exists o, o ∈ merge_overlapping_windows windows /\ covers o w)
  /\ (length (merge_overlapping_windows windows) <= length windows)%nat
  /\ (windows <> [] -> merge_overlapping_windows windows <> []).
Proof.
  unfold merge_overlapping_windows.
  pose proof (stable_sort_start_sorted windows) as Hs.
  pose proof (stable_sort_perm start_le windows) as Hp.
  destruct (stable_sort start_le windows) as [|current rest] eqn:E.
  - apply Permutation_nil_l in Hp. subst windows.
    split; [|split]; [|simpl; lia|done].
    intros w Hw. by apply elem_of_nil in Hw.
  - apply StronglySorted_inv in Hs as [Hs Hc].
    split; [|split].
    + intros w Hw. apply (merge_pass_covers current rest w Hc Hs).
      rewrite <- Hp in Hw. apply elem_of_cons in Hw as [->|Hw]; [|by right].
      left. apply covers_refl.
    + rewrite <- (Permutation_length Hp). pose proof (merge_pass_length current rest).
      simpl. lia.
    + intros _ Hnil. pose proof (merge_pass_length current rest) as Hl.
      rewrite Hnil in Hl. simpl in Hl. lia.
Qed.

(** ** CollectionWindow.validate and CollectionPlan.validate *)

Lemma min_duration_spec (d : Z) :
  Qltb (total_seconds d) MIN_WINDOW_DURATION = false <-> (seconds 300 <= d)%Z.
Proof.
  rewrite Qltb_ge. unfold total_seconds, MIN_WINDOW_DURATION, seconds, Qle. simpl. lia.
Qed.

Lemma confidence_range_spec (c : Q) :
  Qle_bool MIN_CONFIDENCE_SCORE c && Qle_bool c MAX_CONFIDENCE_SCORE = true
  <-> 0 <= c <= 1.
Proof.
  rewrite andb_true_iff, !Qle_bool_iff. reflexivity.
Qed.

Lemma CollectionWindow_validate_result (w : CollectionWindow.t) (b : bool) :
  CollectionWindow.validate w = Ok b -> b = true.
Proof.
  unfold CollectionWindow.validate.
  destruct (_ <=? _)%Z; [discriminate|].
  destruct (Qltb _ _); [discriminate|].
  destruct (negb _); [discriminate|]. congruence.
Qed.

Lemma CollectionWindow_validate_ok (w : CollectionWindow.t) :
  CollectionWindow.validate w = Ok true <->
  (CollectionWindow.start_time w + seconds 300 <= CollectionWindow.end_time w)%Z
  /\ 0 <= CollectionWindow.confidence_score w <= 1.
Proof.
  unfold CollectionWindow.validate.
  destruct (_ <=? _)%Z eqn:E.
  { apply Z.leb_le in E. unfold seconds. split; [discriminate|]. intros [? _]. lia. }
  destruct (Qltb _ _) eqn:Hd.
  { split; [discriminate|]. intros [Hd' _].
    assert (Qltb (total_seconds (CollectionWindow.end_time w - CollectionWindow.start_time w))
              MIN_WINDOW_DURATION = false) as Hd''; [apply min_duration_spec; lia|congruence]. }
  apply min_duration_spec in Hd.
  destruct (_ && _) eqn:Hc; cbn [negb].
  - apply confidence_range_spec in Hc. split; [intros _; split; [lia|done]|done].
  - split; [discriminate|]. intros [_ Hc']. apply confidence_range_spec in Hc'. congruence.
Qed.

(** A window is accepted exactly when it lasts at least 300 seconds and
    its confidence lies in [0, 1]; every other window is refused, and one
    that does not start before it ends is refused for that reason. *)
Theorem CollectionWindow_validate_accepts (w : CollectionWindow.t) :
  (is_Ok (CollectionWindow.validate w) <->
   (CollectionWindow.start_time w + seconds 300 <= CollectionWindow.end_time w)%Z
   /\ 0 <= CollectionWindow.confidence_score w <= 1)
  /\ ((CollectionWindow.end_time w <= CollectionWindow.start_time w)%Z ->
      CollectionWindow.validate w
      = Raise (Exception ValidationError "Start time must be before end time")).
Proof.
  split.
  - rewrite <- CollectionWindow_validate_ok. split.
    + intros [b Hb]. by rewrite (CollectionWindow_validate_result _ _ Hb) in Hb.
    + intros H. by exists true.
  - intros H. unfold CollectionWindow.validate.
    apply Z.leb_le in H. by rewrite H.
Qed.

Lemma validate_plan_windows_spec (start stop : datetime) (ws : list CollectionWindow.t) :
  validate_plan_windows start stop ws = Ok tt <->
  Forall (fun w => CollectionWindow.validate w = Ok true
                   /\ (start <= CollectionWindow.start_time w)%Z
                   /\ (CollectionWindow.end_time w <= stop)%Z) ws.
Proof.
  induction ws as [|w ws IH]; simpl; [split; [constructor|done]|].
  rewrite Forall_cons, <- IH.
  destruct (CollectionWindow.validate w) as [b|e] eqn:Hv; cbn [mbind result_bind].
  - rewrite (CollectionWindow_validate_result _ _ Hv).
    destruct (_ || _) eqn:Hr.
    + apply orb_true_iff in Hr as [Hr%Z.ltb_lt|Hr%Z.ltb_lt];
        (split; [discriminate|intros [(_ & ? & ?) _]; lia]).
    + apply orb_false_elim in Hr as [Hr1%Z.ltb_ge Hr2%Z.ltb_ge]. tauto.
  - split; [discriminate|]. intros [[? _] _]. discriminate.
Qed.

Lemma CollectionPlan_validate_spec (asset_validation : result bool)
  (requirement_validations : list (result bool)) (p : CollectionPlan.t) :
  CollectionPlan_validate asset_validation requirement_validations p = Ok true <->
  is_Ok asset_validation
  /\ is_Ok (map_results id requirement_validations)
  /\ (CollectionPlan.start_time p < CollectionPlan.end_time p)%Z
  /\ CollectionPlan.status p ∈ PLAN_STATUS_TYPES
  /\ 0 <= CollectionPlan.confidence_score p <= 1
  /\ Forall (fun w => CollectionWindow.validate w = Ok true
                      /\ (CollectionPlan.start_time p <= CollectionWindow.start_time w)%Z
                      /\ (CollectionWindow.end_time w <= CollectionPlan.end_time p)%Z)
       (CollectionPlan.collection_windows p).
Proof.
  unfold CollectionPlan_validate.
  destruct asset_validation as [a|e]; cbn [mbind result_bind];
    [|split; [discriminate|intros [[? ?] _]; discriminate]].
  destruct (map_results id requirement_validations) as [rs|e]; cbn [mbind result_bind];
    [|split; [discriminate|intros (_ & [? ?] & _); discriminate]].
  destruct (_ <=? _)%Z eqn:Ht.
  { apply Z.leb_le in Ht. split; [discriminate|]. intros (_ & _ & ? & _). lia. }
  apply Z.leb_gt in Ht.
  destruct (bool_decide (_ ∈ _)) eqn:Hs; cbn [negb].
  2:{ apply bool_decide_eq_false in Hs. split; [discriminate|]. intros (_ & _ & _ & ? & _). done. }
  apply bool_decide_eq_true in Hs.
  destruct (_ && _) eqn:Hc; cbn [negb].
  2:{ split; [discriminate|]. intros (_ & _ & _ & _ & Hc' & _).
      apply confidence_range_spec in Hc'. congruence. }
  apply confidence_range_spec in Hc.
  destruct (validate_plan_windows _ _ _) as [[]|e] eqn:Hw; cbn [mbind result_bind].
  - apply validate_plan_windows_spec in Hw.
    split; [intros _|done].
    split; [by eexists|]. split; [by eexists|]. split; [lia|]. split; [exact Hs|].
    split; [exact Hc|exact Hw].
  - split; [discriminate|]. intros (_ & _ & _ & _ & _ & Hw').
    apply validate_plan_windows_spec in Hw'. congruence.
Qed.

(** ** add_collection_window: when it accepts and what it keeps *)

Lemma overlaps_sym (a b : CollectionWindow.t) :
  CollectionPlan.overlaps a b = CollectionPlan.overlaps b a.
Proof. unfold CollectionPlan.overlaps. apply andb_comm. Qed.

Lemma existsb_overlaps_false (w : CollectionWindow.t) (ws : list CollectionWindow.t) :
  existsb (CollectionPlan.overlaps w) ws = false
  <-> Forall (fun e => CollectionPlan.overlaps w e = false) ws.
Proof.
  induction ws as [|e ws IH]; simpl; [split; [constructor|done]|].
  rewrite orb_false_iff, Forall_cons, IH. reflexivity.
Qed.

Lemma pairwise_disjoint_snoc (ws : list CollectionWindow.t) (w : CollectionWindow.t) :
  pairwise_disjoint ws -> Forall (fun e => CollectionPlan.overlaps w e = false) ws ->
  pairwise_disjoint (ws ++ [w]).
Proof.
  induction ws as [|e ws IH]; intros Hd Hw; simpl; [split; [constructor|done]|].
  destruct Hd as [He Hd]. apply Forall_cons in Hw as [Hwe Hw].
  split; [|by apply IH].
  apply Forall_app. split; [done|]. constructor; [|constructor].
  by rewrite overlaps_sym.
Qed.

Lemma mean_confidence_range (ws : list CollectionWindow.t) :
  ws <> [] ->
  Forall (fun w => 0 <= CollectionWindow.confidence_score w <= 1) ws ->
  0 <= CollectionPlan.mean_confidence ws <= 1.
Proof.
  intros Hne Hall. unfold CollectionPlan.mean_confidence.
  rewrite <- (length_fmap CollectionWindow.confidence_score ws).
  assert (CollectionWindow.confidence_score <$> ws <> []) as Hne'.
  { destruct ws; [done|discriminate]. }
  split.
  - apply mean_lower; [done|]. apply Forall_fmap.
    eapply Forall_impl; [exact Hall|]. by intros w [? _].
  - apply mean_upper; [done|]. apply Forall_fmap.
    eapply Forall_impl; [exact Hall|]. by intros w [_ ?].
Qed.

(** The plan an accepted [add_collection_window] leaves. *)
Lemma add_collection_window_ok (now : datetime) (w : CollectionWindow.t)
  (p p' : CollectionPlan.t) :
  CollectionPlan.add_collection_window now (ObjectWindow w) p = (p', Ok tt) <->
  (CollectionWindow.validate w = Ok true
   /\ (CollectionPlan.start_time p <= CollectionWindow.start_time w)%Z
   /\ (CollectionWindow.end_time w <= CollectionPlan.end_time p)%Z
   /\ Forall (fun e => CollectionPlan.overlaps w e = false)
        (CollectionPlan.collection_windows p))
  /\ p' = CollectionPlan.set_updated_at now
            (CollectionPlan.set_confidence_score
               (CollectionPlan.mean_confidence (CollectionPlan.collection_windows p ++ [w]))
               (CollectionPlan.set_collection_windows
                  (CollectionPlan.collection_windows p ++ [w]) p)).
Proof.
  rewrite add_collection_window_cases.
  destruct (CollectionWindow.validate w) as [b|e] eqn:Hv.
  2:{ split; [discriminate|]. intros [[? _] _]. discriminate. }
  rewrite (CollectionWindow_validate_result _ _ Hv).
  destruct (_ || _) eqn:Hr.
  { split; [discriminate|]. intros [(_ & ? & ? & _) _].
    apply orb_true_iff in Hr as [Hr%Z.ltb_lt|Hr%Z.ltb_lt]; lia. }
  apply orb_false_elim in Hr as [Hr1%Z.ltb_ge Hr2%Z.ltb_ge].
  destruct (existsb _ _) eqn:Ho.
  { split; [discriminate|]. intros [(_ & _ & _ & Ho') _].
    apply existsb_overlaps_false in Ho'. congruence. }
  apply existsb_overlaps_false in Ho. cbv zeta.
  split.
  - intros [= <-]. done.
  - intros [_ ->]. done.
Qed.

(** [add_collection_window] accepts a window exactly when the window is
    valid, lies within the plan's time range and overlaps none of the
    plan's windows; it then appends the window, sets the plan's confidence
    to the mean over all its windows and stamps [updated_at].  A window
    dict is never accepted. *)
Theorem add_collection_window_accepts (now : datetime) (w : CollectionWindow.t)
  (p : CollectionPlan.t) :
  (is_Ok (CollectionPlan.add_collection_window now (ObjectWindow w) p).2 <->
   CollectionWindow.validate w = Ok true
   /\ (CollectionPlan.start_time p <= CollectionWindow.start_time w)%Z
   /\ (CollectionWindow.end_time w <= CollectionPlan.end_time p)%Z
   /\ Forall (fun e => CollectionPlan.overlaps w e = false)
        (CollectionPlan.collection_windows p))
  /\ (forall p', CollectionPlan.add_collection_window now (ObjectWindow w) p = (p', Ok tt) ->
        CollectionPlan.collection_windows p' = (CollectionPlan.collection_windows p ++ [w])%list
        /\ CollectionPlan.confidence_score p'
           = CollectionPlan.mean_confidence (CollectionPlan.collection_windows p')
        /\ CollectionPlan.updated_at p' = now
        /\ CollectionPlan.status p' = CollectionPlan.status p)
  /\ (forall d, is_Raise (CollectionPlan.add_collection_window now (DictWindow d) p).2).
Proof.
  split; [|split].
  - split.
    + intros [[] Hu].
      destruct (CollectionPlan.add_collection_window now (ObjectWindow w) p) as [p' r] eqn:E.
      simpl in Hu. subst r. by apply add_collection_window_ok in E as [? _].
    + intros H.
      assert (CollectionPlan.add_collection_window now (ObjectWindow w) p
              = (CollectionPlan.set_updated_at now
                   (CollectionPlan.set_confidence_score
                      (CollectionPlan.mean_confidence
                         (CollectionPlan.collection_windows p ++ [w]))
                      (CollectionPlan.set_collection_windows
                         (CollectionPlan.collection_windows p ++ [w]) p)), Ok tt)) as ->.
      { by apply add_collection_window_ok. }
      by exists tt.
  - intros p' [_ ->]%add_collection_window_ok. done.
  - intros d. by eexists.
Qed.

(** Adding a window keeps a valid plan valid and its windows pairwise
    disjoint, with the plan's confidence the mean of the windows'
    confidences. *)
Theorem add_collection_window_keeps_plan_valid
  (asset_validation : result bool) (requirement_validations : list (result bool))
  (now : datetime) (window : py_window) (p p' : CollectionPlan.t) :
  CollectionPlan_validate asset_validation requirement_validations p = Ok true ->
  pairwise_disjoint (CollectionPlan.collection_windows p) ->
  CollectionPlan.add_collection_window now window p = (p', Ok tt) ->
  CollectionPlan_validate asset_validation requirement_validations p' = Ok true
  /\ pairwise_disjoint (CollectionPlan.collection_windows p')
  /\ CollectionPlan.confidence_score p'
     = CollectionPlan.mean_confidence (CollectionPlan.collection_windows p')
  /\ length (CollectionPlan.collection_windows p')
     = S (length (CollectionPlan.collection_windows p)).
Proof.
  intros Hvalid Hdisjoint Hadd.
  destruct window as [w|d]; [|discriminate].
  apply add_collection_window_ok in Hadd as [(Hw & Hs & He & Ho) ->].
  apply CollectionPlan_validate_spec in Hvalid as (Ha & Hr & Ht & Hst & Hc & Hws).
  cbn [CollectionPlan.set_updated_at CollectionPlan.set_confidence_score
       CollectionPlan.set_collection_windows CollectionPlan.collection_windows
       CollectionPlan.confidence_score].
  split; [|split; [|split]].
  - apply CollectionPlan_validate_spec. cbn.
    split; [done|]. split; [done|]. split; [done|]. split; [done|].
    assert (Forall (fun w0 => CollectionWindow.validate w0 = Ok true
                              /\ (CollectionPlan.start_time p
                                  <= CollectionWindow.start_time w0)%Z
                              /\ (CollectionWindow.end_time w0
                                  <= CollectionPlan.end_time p)%Z)
              (CollectionPlan.collection_windows p ++ [w])) as Hall.
    { apply Forall_app. split; [done|]. by repeat constructor. }
    split; [|exact Hall].
    apply mean_confidence_range; [by destruct (CollectionPlan.collection_windows p)|].
    eapply Forall_impl; [exact Hall|].
    intros w0 [Hv _]. by apply CollectionWindow_validate_ok in Hv as [_ ?].
  - by apply pairwise_disjoint_snoc.
  - reflexivity.
  - rewrite length_app. simpl. lia.
Qed.

Lemma add_collection_window_keeps_plan_valid_witness :
  exists p',
    CollectionPlan.add_collection_window 7%Z
      (ObjectWindow (CollectionWindow.Make (seconds 0) (seconds 600) 0.9 [])) example_plan
      = (p', Ok tt)
    /\ CollectionPlan_validate (Ok true) [] p' = Ok true.
Proof.
  eexists. split; [reflexivity|].
  eapply (add_collection_window_keeps_plan_valid (Ok true) [] 7%Z
            (ObjectWindow (CollectionWindow.Make (seconds 0) (seconds 600) 0.9 []))
            example_plan).
  - reflexivity.
  - exact I.
  - reflexivity.
Defined.

(** A window already in the plan can never be added again: the call
    raises and leaves the plan as it was. *)
Theorem add_collection_window_twice_rejected (now : datetime) (w : CollectionWindow.t)
  (p : CollectionPlan.t) :
  w ∈ CollectionPlan.collection_windows p ->
  exists e, CollectionPlan.add_collection_window now (ObjectWindow w) p = (p, Raise e).
Proof.
  intros Hin. rewrite add_collection_window_cases.
  destruct (CollectionWindow.validate w) as [b|e] eqn:Hv; [|by eexists].
  rewrite (CollectionWindow_validate_result _ _ Hv) in Hv.
  apply CollectionWindow_validate_ok in Hv as [Hd _]. unfold seconds in Hd.
  destruct (_ || _); [by eexists|].
  assert (existsb (CollectionPlan.overlaps w) (CollectionPlan.collection_windows p) = true)
    as ->; [|by eexists].
  apply existsb_exists. exists w. split; [by apply list_elem_of_In|].
  unfold CollectionPlan.overlaps. apply andb_true_iff. split; apply Z.ltb_lt; lia.
Qed.

Lemma add_collection_window_twice_rejected_witness :
  let w := CollectionWindow.Make (seconds 0) (seconds 600) 0.9 [] in
  exists e,
    CollectionPlan.add_collection_window 7%Z (ObjectWindow w)
      (CollectionPlan.set_collection_windows [w] example_plan)
    = (CollectionPlan.set_collection_windows [w] example_plan, Raise e).
Proof.
  apply (add_collection_window_twice_rejected 7%Z
           (CollectionWindow.Make (seconds 0) (seconds 600) 0.9 [])
           (CollectionPlan.set_collection_windows
              [CollectionWindow.Make (seconds 0) (seconds 600) 0.9 []] example_plan)).
  apply list_elem_of_here.
Defined.

Lemma map_results_id_is_Ok {A} (l : list (result A)) :
  is_Ok (map_results id l) <-> Forall is_Ok l.
Proof.
  split.
  - intros [rs Hrs]. apply map_results_Forall2 in Hrs.
    induction Hrs as [|r b l rs Hr _ IH]; constructor; [by exists b|exact IH].
  - intros H. apply map_results_is_Ok. exact H.
Qed.

(** [CollectionPlan.validate] never returns [False]: it returns [True] or
    raises; and it returns exactly when the asset and every requirement
    validate, the plan starts before it ends, its status is a known one,
    its confidence lies in [0, 1] and each of its windows is valid and
    lies within the plan's time range. *)
Theorem CollectionPlan_validate_accepts (asset_validation : result bool)
  (requirement_validations : list (result bool)) (p : CollectionPlan.t) :
  (forall b, CollectionPlan_validate asset_validation requirement_validations p = Ok b ->
     b = true)
  /\ (is_Ok (CollectionPlan_validate asset_validation requirement_validations p) <->
      is_Ok asset_validation
      /\ Forall is_Ok requirement_validations
      /\ (CollectionPlan.start_time p < CollectionPlan.end_time p)%Z
      /\ CollectionPlan.status p ∈ PLAN_STATUS_TYPES
      /\ 0 <= CollectionPlan.confidence_score p <= 1
      /\ Forall (fun w => is_Ok (CollectionWindow.validate w)
                          /\ (CollectionPlan.start_time p <= CollectionWindow.start_time w)%Z
                          /\ (CollectionWindow.end_time w <= CollectionPlan.end_time p)%Z)
           (CollectionPlan.collection_windows p)).
Proof.
  assert (forall b, CollectionPlan_validate asset_validation requirement_validations p = Ok b
                    -> b = true) as Htrue.
  { intros b. unfold CollectionPlan_validate.
    destruct asset_validation; [|discriminate]. cbn [mbind result_bind].
    destruct (map_results id requirement_validations); [|discriminate].
    cbn [mbind result_bind].
    destruct (_ <=? _)%Z; [discriminate|].
    destruct (negb (bool_decide _)); [discriminate|].
    destruct (negb (_ && _)); [discriminate|].
    destruct (validate_plan_windows _ _ _); [|discriminate].
    cbn [mbind result_bind]. congruence. }
  split; [exact Htrue|].
  pose proof (map_results_id_is_Ok requirement_validations) as Hreqs.
  assert (forall w : CollectionWindow.t,
            is_Ok (CollectionWindow.validate w) <-> CollectionWindow.validate w = Ok true)
    as Hwin.
  { intros w. split; [|by exists true].
    intros [b Hb]. by rewrite (CollectionWindow_validate_result _ _ Hb) in Hb. }
  split.
  - intros [b Hb]. rewrite (Htrue _ Hb) in Hb.
    apply CollectionPlan_validate_spec in Hb as (Ha & Hr & Ht & Hs & Hc & Hw).
    split; [done|]. split; [by apply Hreqs|]. split; [done|]. split; [done|].
    split; [done|].
    eapply Forall_impl; [exact Hw|]. intros w (Hv & ? & ?).
    split; [by apply Hwin|done].
  - intros (Ha & Hr & Ht & Hs & Hc & Hw). exists true.
    apply CollectionPlan_validate_spec.
    split; [done|]. split; [by apply Hreqs|]. split; [done|]. split; [done|].
    split; [done|].
    eapply Forall_impl; [exact Hw|]. intros w (Hv & ? & ?).
    split; [by apply Hwin|done].
Qed.

(** ** update_status over a run of calls *)

Lemma update_status_plan (now : datetime) (new_status : string) (p : CollectionPlan.t) :
  (CollectionPlan.update_status now new_status p).1
  = if legal_transition (CollectionPlan.status p) new_status
    then CollectionPlan.set_updated_at now (CollectionPlan.set_status new_status p)
    else p.
Proof.
  rewrite update_status_cases.
  destruct (legal_transition _ _); [done|].
  destruct (bool_decide _); [|done].
  by destruct (CollectionPlan.valid_transitions !! _).
Qed.

Lemma legal_transition_target (from to : string) :
  legal_transition from to = true -> to ∈ PLAN_STATUS_TYPES.
Proof.
  intros H. apply legal_transition_spec in H. unfold PLAN_STATUS_TYPES.
  destruct H as [[_ ->]|[[_ ->]|[[_ ->]|[_ ->]]]]; set_solver.
Qed.

(** OPTIMIZED is final: no run of [update_status] calls changes a plan
    that is OPTIMIZED, not even its [updated_at]. *)
Theorem update_status_optimized_is_final (calls : list (datetime * string))
  (p : CollectionPlan.t) :
  CollectionPlan.status p = "OPTIMIZED" -> run_updates calls p = p.
Proof.
  intros Hs. unfold run_updates.
  induction calls as [|[now s] calls IH]; [done|].
  cbn [foldl fst snd]. rewrite update_status_plan.
  destruct (legal_transition _ _) eqn:Hl; [|exact IH].
  apply legal_transition_spec in Hl. rewrite Hs in Hl.
  destruct Hl as [[? _]|[[? _]|[[? _]|[? _]]]]; discriminate.
Qed.

Lemma update_status_optimized_is_final_witness :
  let p := CollectionPlan.set_status "OPTIMIZED" example_plan in
  run_updates [(1%Z, "DRAFT"); (2%Z, "PROCESSING"); (3%Z, "FAILED")] p = p.
Proof.
  apply (update_status_optimized_is_final
           [(1%Z, "DRAFT"); (2%Z, "PROCESSING"); (3%Z, "FAILED")]
           (CollectionPlan.set_status "OPTIMIZED" example_plan)).
  reflexivity.
Defined.

(** Whatever calls are made, [update_status] touches the status and
    [updated_at] only; a known status stays a known status; the status
    changes only along legal transitions, each stamping [updated_at] with
    the time of its call. *)
Theorem update_status_runs_frame (calls : list (datetime * string)) (p : CollectionPlan.t) :
  let p' := run_updates calls p in
  CollectionPlan.set_updated_at (CollectionPlan.updated_at p)
    (CollectionPlan.set_status (CollectionPlan.status p) p') = p
  /\ (CollectionPlan.status p ∈ PLAN_STATUS_TYPES ->
      CollectionPlan.status p' ∈ PLAN_STATUS_TYPES)
  /\ (p' = p
      \/ exists call, call ∈ calls /\ CollectionPlan.status p' = call.2
                      /\ CollectionPlan.updated_at p' = call.1).
Proof.
  cbv zeta. unfold run_updates. revert p.
  induction calls as [|[now s] calls IH]; intros p.
  - cbn [foldl]. split; [by destruct p|]. split; [done|by left].
  - cbn [foldl fst snd]. rewrite update_status_plan.
    destruct (legal_transition _ _) eqn:Hl.
    + set (q := CollectionPlan.set_updated_at now (CollectionPlan.set_status s p)).
      destruct (IH q) as (Hframe & Hknown & Hlast).
      split; [|split].
      * revert Hframe.
        generalize (foldl (fun p0 call => (CollectionPlan.update_status call.1 call.2 p0).1)
                      q calls).
        intros r Hframe. subst q. destruct r, p.
        unfold CollectionPlan.set_updated_at, CollectionPlan.set_status in *.
        cbn in *. by injection Hframe as -> -> -> -> -> -> -> -> -> ->.
      * intros _. apply Hknown. subst q. simpl. by eapply legal_transition_target.
      * right. destruct Hlast as [->|(call & Hin & Hs & Hu)].
        -- exists (now, s). split; [apply list_elem_of_here|done].
        -- exists call. split; [by apply list_elem_of_further|done].
    + destruct (IH p) as (Hframe & Hknown & Hlast).
      split; [done|]. split; [done|].
      destruct Hlast as [->|(call & Hin & Hs & Hu)]; [by left|].
      right. exists call. split; [by apply list_elem_of_further|done].
Qed.

(** ** Scoring the oracle's windows *)

Lemma confidence_params_score (s : dimension_scores) :
  exists score,
    calculate_confidence_score (confidence_params s) None = Ok score /\ 0 <= score <= 1.
Proof.
  destruct (calculate_confidence_score_default_is_Ok
              (default 0 (temporal_score s)) (default 0 (spatial_score s))
              (default 0 (spectral_score s)) (default 0 (radiometric_score s)))
    as [score Hscore].
  exists score. split; [exact Hscore|].
  by eapply calculate_confidence_score_in_unit_interval_aux.
Qed.

Lemma validate_windows_members (windows : list oracle_window) :
  exists kept,
    validate_windows windows = Ok kept
    /\ (length kept <= length windows)%nat
    /\ Forall (fun k =>
                 MIN_ACCEPTABLE_SCORE <= confidence_score k <= 1
                 /\ exists w, w ∈ windows
                      /\ start_time k = ow_start_time w /\ end_time k = ow_end_time w
                      /\ scores k = ow_scores w
                      /\ calculate_confidence_score (confidence_params (ow_scores w)) None
                         = Ok (confidence_score k)) kept
    /\ (forall w score, w ∈ windows ->
          calculate_confidence_score (confidence_params (ow_scores w)) None = Ok score ->
          MIN_ACCEPTABLE_SCORE <= score ->
          exists k, k ∈ kept /\ start_time k = ow_start_time w
                    /\ end_time k = ow_end_time w).
Proof.
  induction windows as [|w ws (kept & Hkept & Hlen & Hall & Hin)].
  - exists []. split; [reflexivity|]. split; [reflexivity|]. split; [constructor|].
    intros w score Hw. exfalso. exact (not_elem_of_nil _ Hw).
  - destruct (confidence_params_score (ow_scores w)) as (score & Hscore & Hrange).
    assert (Forall (fun k =>
                 MIN_ACCEPTABLE_SCORE <= confidence_score k <= 1
                 /\ exists w0, w0 ∈ w :: ws
                      /\ start_time k = ow_start_time w0 /\ end_time k = ow_end_time w0
                      /\ scores k = ow_scores w0
                      /\ calculate_confidence_score (confidence_params (ow_scores w0)) None
                         = Ok (confidence_score k)) kept) as Hall'.
    { eapply Forall_impl; [exact Hall|].
      intros k (Hk & w0 & Hw0 & Hrest). split; [exact Hk|].
      exists w0. split; [by apply list_elem_of_further|exact Hrest]. }
    cbn [validate_windows]. rewrite Hscore. cbn [mbind result_bind].
    rewrite Hkept. cbn [mbind result_bind].
    destruct (Qle_bool MIN_ACCEPTABLE_SCORE score) eqn:E.
    + apply Qle_bool_iff in E.
      eexists. split; [reflexivity|]. split; [simpl; lia|]. split.
      * constructor; [|exact Hall'].
        cbn [confidence_score start_time end_time scores].
        split; [split; [exact E|apply Hrange]|].
        exists w. split; [apply list_elem_of_here|].
        split; [reflexivity|]. split; [reflexivity|]. split; [reflexivity|exact Hscore].
      * intros w0 score0 Hw0 Hscore0 Hmin.
        apply elem_of_cons in Hw0 as [->|Hw0].
        -- eexists. split; [apply list_elem_of_here|]. split; reflexivity.
        -- destruct (Hin w0 score0 Hw0 Hscore0 Hmin) as (k & Hk & Hrest).
           exists k. split; [by apply list_elem_of_further|exact Hrest].
    + apply Qle_bool_false in E.
      exists kept. split; [reflexivity|]. split; [simpl; lia|]. split; [exact Hall'|].
      intros w0 score0 Hw0 Hscore0 Hmin.
      apply elem_of_cons in Hw0 as [->|Hw0]; [|exact (Hin w0 score0 Hw0 Hscore0 Hmin)].
      rewrite Hscore in Hscore0. injection Hscore0 as <-.
      exfalso. apply (Qlt_not_le _ _ E). exact Hmin.
Qed.

(** The window the scoring loop stores for an oracle window and its
    score. *)
Lemma validate_windows_filter (windows : list oracle_window) :
  exists window_scores,
    Forall2 (fun w score =>
               calculate_confidence_score (confidence_params (ow_scores w)) None = Ok score
               /\ 0 <= score <= 1) windows window_scores
    /\ validate_windows windows
       = Ok ((fun ws : oracle_window * Q =>
                Window (ow_start_time ws.1) (ow_end_time ws.1) None None ws.2
                  (ow_scores ws.1))
             <$> List.filter (fun ws => Qle_bool MIN_ACCEPTABLE_SCORE ws.2)
                   (zip windows window_scores)).
Proof.
  induction windows as [|w ws (window_scores & Hscores & Hkept)].
  - exists []. split; [constructor|reflexivity].
  - destruct (confidence_params_score (ow_scores w)) as (score & Hscore & Hrange).
    exists (score :: window_scores). split; [constructor; [by split|exact Hscores]|].
    cbn [validate_windows]. rewrite Hscore. cbn [mbind result_bind].
    rewrite Hkept. cbn [mbind result_bind zip zip_with List.filter fst snd].
    destruct (Qle_bool MIN_ACCEPTABLE_SCORE score); reflexivity.
Qed.

(** The scoring loop of [process_optimization_results] cannot fail.  With
    each window given the score [calculate_confidence_score] computes from
    its dimension scores, a value in [0, 1], the kept list is exactly the
    list of the windows whose score is at least [MIN_ACCEPTABLE_SCORE], in
    the order of the input, each stored with the times and dimension
    scores of its window and with that score as its confidence, whatever
    confidence the oracle sent.  So no more windows are kept than were
    given, every kept window has a confidence in [0.6, 1], and every
    window scoring at least 0.6 is kept. *)
Theorem validate_windows_keeps (windows : list oracle_window) :
  exists window_scores kept,
    Forall2 (fun w score =>
               calculate_confidence_score (confidence_params (ow_scores w)) None = Ok score
               /\ 0 <= score <= 1) windows window_scores
    /\ validate_windows windows = Ok kept
    /\ kept = (fun ws : oracle_window * Q =>
                 Window (ow_start_time ws.1) (ow_end_time ws.1) None None ws.2
                   (ow_scores ws.1))
              <$> List.filter (fun ws => Qle_bool MIN_ACCEPTABLE_SCORE ws.2)
                    (zip windows window_scores)
    /\ (length kept <= length windows)%nat
    /\ Forall (fun k =>
                 MIN_ACCEPTABLE_SCORE <= confidence_score k <= 1
                 /\ exists w, w ∈ windows
                      /\ start_time k = ow_start_time w /\ end_time k = ow_end_time w
                      /\ scores k = ow_scores w
                      /\ calculate_confidence_score (confidence_params (ow_scores w)) None
                         = Ok (confidence_score k)) kept
    /\ (forall w score, w ∈ windows ->
          calculate_confidence_score (confidence_params (ow_scores w)) None = Ok score ->
          MIN_ACCEPTABLE_SCORE <= score ->
          exists k, k ∈ kept /\ start_time k = ow_start_time w
                    /\ end_time k = ow_end_time w).
Proof.
  destruct (validate_windows_filter windows) as (window_scores & Hscores & Hfilter).
  destruct (validate_windows_members windows) as (kept & Hkept & Hlen & Hall & Hin).
  exists window_scores, kept.
  split; [exact Hscores|]. split; [exact Hkept|].
  split; [rewrite Hkept in Hfilter; by injection Hfilter|].
  split; [exact Hlen|]. split; [exact Hall|exact Hin].
Qed.

(** With no weights given, or an empty weight dict, the plan confidence
    is always defined and lies in [0, 1]; it is 0 for no windows. *)
Theorem calculate_plan_confidence_default (windows : list window) :
  (exists confidence,
     calculate_plan_confidence windows None = Ok confidence /\ 0 <= confidence <= 1)
  /\ calculate_plan_confidence windows (Some ∅) = calculate_plan_confidence windows None
  /\ calculate_plan_confidence [] None = Ok 0.
Proof.
  split; [|split; [by destruct windows|reflexivity]].
  destruct windows as [|w ws]; [exists 0; split; [reflexivity|split; discriminate]|].
  unfold calculate_plan_confidence.
  set (f := fun w0 : window => calculate_confidence_score (confidence_params (scores w0)) _).
  assert (Forall (fun x => is_Ok (f x)) (w :: ws)) as Hok.
  { apply Forall_forall. intros x _. subst f. cbv beta. eexists.
    eapply (calculate_confidence_score_value _ CONFIDENCE_WEIGHT_FACTORS
              (Some CONFIDENCE_WEIGHT_FACTORS)
              (default 0 (temporal_score (scores x))) (default 0 (spatial_score (scores x)))
              (default 0 (spectral_score (scores x)))
              (default 0 (radiometric_score (scores x))));
      try reflexivity.
    - by left.
    - apply Qle_bool_iff. reflexivity. }
  destruct (map_results_is_Ok f (w :: ws) Hok) as [window_scores Hscores].
  rewrite Hscores. cbn [mbind result_bind].
  eexists. split; [reflexivity|].
  pose proof (map_results_Forall2 _ _ _ Hscores) as H2.
  assert (window_scores <> []) as Hne.
  { apply Forall2_length in H2. destruct window_scores; [discriminate|done]. }
  assert (Forall (fun x => 0 <= x <= 1) window_scores) as Hrange.
  { apply Forall_forall. intros x Hx.
    apply list_elem_of_lookup in Hx as [i Hi].
    destruct (Forall2_lookup_r _ _ _ _ _ H2 Hi) as (w0 & _ & Hw0).
    subst f. cbv beta in Hw0.
    by eapply calculate_confidence_score_in_unit_interval_aux. }
  split.
  - apply mean_lower; [done|]. eapply Forall_impl; [exact Hrange|]. by intros x [? _].
  - apply mean_upper; [done|]. eapply Forall_impl; [exact Hrange|]. by intros x [_ ?].
Qed.

(** ** _process_planning_results *)

Lemma score_windows_scored (windows : list oracle_window) :
  exists scored,
    score_windows windows = Ok scored
    /\ Forall2 (fun w s =>
                  ow_start_time s = ow_start_time w /\ ow_end_time s = ow_end_time w
                  /\ ow_scores s = ow_scores w
                  /\ exists c, ow_confidence_score s = Some c /\ 0 <= c <= 1
                       /\ calculate_confidence_score (confidence_params (ow_scores w)) None
                          = Ok c) windows scored.
Proof.
  induction windows as [|w ws (scored & Hscored & Hall)].
  - exists []. split; [reflexivity|constructor].
  - destruct (confidence_params_score (ow_scores w)) as (c & Hc & Hrange).
    cbn [score_windows]. rewrite Hc. cbn [mbind result_bind].
    rewrite Hscored. cbn [mbind result_bind].
    eexists. split; [reflexivity|].
    constructor; [|exact Hall].
    cbn [ow_start_time ow_end_time ow_scores ow_confidence_score].
    split; [reflexivity|]. split; [reflexivity|]. split; [reflexivity|].
    exists c. split; [reflexivity|]. split; [exact Hrange|exact Hc].
Qed.

Lemma ow_confidence_desc_total (x y : oracle_window) :
  ow_confidence_desc x y = false -> ow_confidence_desc y x = true.
Proof.
  unfold ow_confidence_desc. intros H%Qle_bool_false.
  apply Qle_bool_iff. by apply Qlt_le_weak.
Qed.

Lemma ow_confidence_desc_trans (x y z : oracle_window) :
  ow_confidence_desc x y = true -> ow_confidence_desc y z = true ->
  ow_confidence_desc x z = true.
Proof.
  unfold ow_confidence_desc. rewrite !Qle_bool_iff. intros H1 H2.
  by eapply Qle_trans.
Qed.

Lemma process_planning_results_is_Ok (rs : results) :
  is_Ok (_process_planning_results rs).
Proof.
  unfold _process_planning_results.
  destruct (collection_windows rs) as [windows|]; [|by eexists].
  destruct (score_windows_scored windows) as (scored & -> & _).
  cbn [mbind result_bind].
  destruct (stable_sort ow_confidence_desc scored); by eexists.
Qed.

(** [_process_planning_results] cannot fail.  It gives every window the
    confidence computed from its dimension scores, a value in [0, 1],
    whatever confidence the window carried; it returns the windows sorted
    by non-increasing confidence, none lost and none added; and the
    overall confidence it adds lies in [0, 1] and is 0 when there is no
    window. *)
Theorem process_planning_results_sorted (rs : results) :
  exists out,
    _process_planning_results rs = Ok out
    /\ (exists overall, overall_confidence out = Some overall /\ 0 <= overall <= 1)
    /\ (collection_windows rs = None -> out = Results None (Some 0))
    /\ (collection_windows rs = Some [] -> out = Results (Some []) (Some 0))
    /\ (forall windows, collection_windows rs = Some windows ->
          exists scored sorted,
            collection_windows out = Some sorted
            /\ sorted ≡ₚ scored
            /\ StronglySorted
                 (fun x y => default 0 (ow_confidence_score y)
                             <= default 0 (ow_confidence_score x)) sorted
            /\ Forall2 (fun w s =>
                  ow_start_time s = ow_start_time w /\ ow_end_time s = ow_end_time w
                  /\ ow_scores s = ow_scores w
                  /\ exists c, ow_confidence_score s = Some c /\ 0 <= c <= 1
                       /\ calculate_confidence_score (confidence_params (ow_scores w)) None
                          = Ok c) windows scored).
Proof.
  unfold _process_planning_results.
  destruct (collection_windows rs) as [windows|] eqn:Hws.
  2:{ eexists. split; [reflexivity|].
      split; [exists 0; split; [reflexivity|split; discriminate]|].
      split; [reflexivity|]. split; [discriminate|discriminate]. }
  destruct (score_windows_scored windows) as (scored & Hscored & Hall).
  rewrite Hscored. cbn [mbind result_bind].
  pose proof (stable_sort_perm ow_confidence_desc scored) as Hperm.
  pose proof (stable_sort_keys_sorted ow_confidence_desc scored
                ow_confidence_desc_total ow_confidence_desc_trans) as Hsorted.
  assert (Forall (fun s => 0 <= default 0 (ow_confidence_score s) <= 1)
            (stable_sort ow_confidence_desc scored)) as Hrange.
  { rewrite Hperm. apply Forall_forall. intros s Hs.
    apply list_elem_of_lookup in Hs as [i Hi].
    destruct (Forall2_lookup_r _ _ _ _ _ Hall Hi) as (w & _ & _ & _ & _ & c & -> & Hc & _).
    exact Hc. }
  assert (windows = [] -> stable_sort ow_confidence_desc scored = []) as Hnil.
  { intros ->. apply Forall2_nil_inv_l in Hall. by subst scored. }
  revert Hperm Hsorted Hrange Hnil.
  generalize (stable_sort ow_confidence_desc scored). intros sorted Hperm Hsorted Hrange Hnil.
  assert (exists out,
            match sorted with
            | [] => Ok (Results (Some []) (Some 0))
            | _ :: _ =>
                Ok (Results (Some sorted)
                      (Some (py_sum ((fun w => default 0 (ow_confidence_score w)) <$> sorted)
                             / inject_Z (Z.of_nat (length sorted)))))
            end = Ok out
            /\ collection_windows out = Some sorted
            /\ (exists overall, overall_confidence out = Some overall /\ 0 <= overall <= 1)
            /\ (sorted = [] -> out = Results (Some []) (Some 0)))
    as (out & Hout & Hcw & Hov & Hempty).
  { destruct sorted as [|s sorted'] eqn:Es.
    - eexists. split; [reflexivity|]. split; [reflexivity|].
      split; [exists 0; split; [reflexivity|split; discriminate]|reflexivity].
    - rewrite <- Es in *. eexists. split; [reflexivity|]. split; [reflexivity|].
      split; [|intros ->; discriminate].
      eexists. split; [reflexivity|].
      rewrite <- (length_fmap (fun w => default 0 (ow_confidence_score w)) sorted).
      assert ((fun w => default 0 (ow_confidence_score w)) <$> sorted <> []) as Hne.
      { rewrite Es. discriminate. }
      split.
      + apply mean_lower; [exact Hne|]. apply Forall_fmap.
        eapply Forall_impl; [exact Hrange|]. by intros x [? _].
      + apply mean_upper; [exact Hne|]. apply Forall_fmap.
        eapply Forall_impl; [exact Hrange|]. by intros x [_ ?]. }
  exists out. split; [exact Hout|]. split; [exact Hov|].
  split; [discriminate|]. split.
  - intros [= ->]. apply Hempty. by apply Hnil.
  - intros ? [= <-]. exists scored, sorted.
    split; [exact Hcw|]. split; [exact Hperm|]. split; [|exact Hall].
    eapply StronglySorted_weaken; [|exact Hsorted].
    intros x y Hxy. unfold ow_confidence_desc in Hxy. by apply Qle_bool_iff in Hxy.
Qed.

(** ** The decorated oracle calls *)

Lemma retrying_outcome {R A} (attempt : R -> result A) (n : nat) (replies : list R)
  (made : nat) :
  (n <= length replies)%nat ->
  exists k r,
    retrying attempt n replies made = Some ((made + k)%nat, r)
    /\ (k <= n)%nat
    /\ (forall a, r = Ok a ->
          (1 <= k)%nat
          /\ (exists reply, replies !! (k - 1)%nat = Some reply /\ attempt reply = Ok a)
          /\ Forall (fun x => is_Raise (attempt x)) (take (k - 1) replies))
    /\ (forall e, r = Raise e ->
          k = n /\ e = Exception RetryError "RetryError"
          /\ Forall (fun x => is_Raise (attempt x)) (take n replies)).
Proof.
  revert replies made. induction n as [|n IH]; intros replies made Hlen.
  - exists 0%nat, (Raise (Exception RetryError "RetryError")).
    cbn [retrying]. rewrite Nat.add_0_r. split; [reflexivity|]. split; [lia|].
    split; [discriminate|]. intros e [= <-]. split; [reflexivity|].
    split; [reflexivity|]. rewrite take_0. constructor.
  - destruct replies as [|reply replies]; [simpl in Hlen; lia|].
    cbn [retrying]. destruct (attempt reply) as [a|e0] eqn:Hreply.
    + exists 1%nat, (Ok a). rewrite Nat.add_1_r. split; [reflexivity|]. split; [lia|].
      split; [|discriminate]. intros a' [= <-]. split; [lia|].
      split; [exists reply; split; [reflexivity|exact Hreply]|]. constructor.
    + destruct (IH replies (S made)) as (k & r & Hrun & Hk & HOk & HRaise);
        [simpl in Hlen; lia|].
      exists (S k), r. rewrite Hrun.
      replace (S made + k)%nat with (made + S k)%nat by lia.
      split; [reflexivity|]. split; [lia|]. split.
      * intros a Ha. destruct (HOk a Ha) as (Hk1 & (reply' & Hlook & Hatt) & Hpre).
        split; [lia|]. split.
        -- exists reply'. split; [|exact Hatt].
           replace (S k - 1)%nat with (S (k - 1)) by lia. exact Hlook.
        -- replace (S k - 1)%nat with (S (k - 1)) by lia.
           rewrite firstn_cons. constructor; [by exists e0|exact Hpre].
      * intros e He. destruct (HRaise e He) as (-> & -> & Hpre).
        split; [reflexivity|]. split; [reflexivity|].
        rewrite firstn_cons. constructor; [by exists e0|exact Hpre].
Qed.

(** One attempt of [get_planning_status] returns exactly when the request
    id is not empty, the reply is a 2xx response and, if the response
    says COMPLETED, it carries results; a response that does not say
    COMPLETED is returned as it is. *)
Theorem get_planning_status_attempt_returns (request_id : string) (reply : http_reply) :
  (is_Ok (get_planning_status_attempt request_id reply) <->
   request_id <> ""
   /\ exists status_code body,
        reply = HttpResponse status_code body
        /\ (200 <= status_code <= 299)%Z
        /\ (sd_status body = "COMPLETED" -> is_Some (sd_results body)))
  /\ (forall status_code body,
        request_id <> "" -> (200 <= status_code <= 299)%Z ->
        sd_status body <> "COMPLETED" ->
        get_planning_status_attempt request_id (HttpResponse status_code body) = Ok body).
Proof.
  unfold get_planning_status_attempt. split.
  - destruct (bool_decide (request_id = "")) eqn:Hid.
    { apply bool_decide_eq_true in Hid. split; [intros [? ?]; discriminate|].
      intros [Hne _]. by destruct Hne. }
    apply bool_decide_eq_false in Hid.
    destruct reply as [status_code body|].
    2:{ split; [intros [? ?]; discriminate|]. intros (_ & ? & ? & ? & _). discriminate. }
    unfold is_success.
    destruct ((200 <=? status_code)%Z && (status_code <=? 299)%Z) eqn:Hcode.
    + apply andb_true_iff in Hcode as [H1%Z.leb_le H2%Z.leb_le].
      destruct (bool_decide (sd_status body = "COMPLETED")) eqn:Hst.
      * apply bool_decide_eq_true in Hst.
        destruct (sd_results body) as [rs|] eqn:Hrs.
        -- destruct (process_planning_results_is_Ok rs) as [out Hout].
           rewrite Hout. cbn [mbind result_bind].
           split; [intros _|intros _; by eexists].
           split; [exact Hid|]. exists status_code, body.
           split; [reflexivity|]. split; [lia|]. intros _. rewrite Hrs. by eexists.
        -- split; [intros [? ?]; discriminate|].
           intros (_ & c & b & [= <- <-] & _ & Hres).
           destruct (Hres Hst) as [? Hsome]. rewrite Hrs in Hsome. discriminate.
      * apply bool_decide_eq_false in Hst.
        split; [intros _|intros _; by eexists].
        split; [exact Hid|]. exists status_code, body.
        split; [reflexivity|]. split; [lia|]. intros Hc. by destruct Hst.
    + split.
      * destruct (status_code =? 404)%Z; intros [? ?]; discriminate.
      * intros (_ & c & b & [= <- <-] & [H1 H2] & _).
        apply andb_false_iff in Hcode as [Hc%Z.leb_gt|Hc%Z.leb_gt]; lia.
  - intros status_code body Hid [H1 H2] Hst.
    rewrite bool_decide_eq_false_2 by exact Hid.
    unfold is_success.
    apply Z.leb_le in H1, H2. rewrite H1, H2. cbn [andb].
    by rewrite bool_decide_eq_false_2 by exact Hst.
Qed.

(** One attempt of [cancel_planning_request] returns exactly on a 2xx
    response to a non-empty request id, and what it returns says whether
    the status code was 200: any other 2xx code gives [False]. *)
Theorem cancel_planning_request_attempt_returns (request_id : string) (reply : http_reply)
  (cancelled : bool) :
  cancel_planning_request_attempt request_id reply = Ok cancelled <->
  request_id <> ""
  /\ exists status_code body,
       reply = HttpResponse status_code body
       /\ (200 <= status_code <= 299)%Z
       /\ cancelled = bool_decide (status_code = 200%Z).
Proof.
  unfold cancel_planning_request_attempt.
  destruct (bool_decide (request_id = "")) eqn:Hid.
  { apply bool_decide_eq_true in Hid. split; [discriminate|].
    intros [Hne _]. by destruct Hne. }
  apply bool_decide_eq_false in Hid.
  destruct reply as [status_code body|].
  2:{ split; [discriminate|]. intros (_ & ? & ? & ? & _). discriminate. }
  unfold is_success.
  assert ((status_code =? 200)%Z = bool_decide (status_code = 200%Z)) as Heq.
  { destruct (Z.eqb_spec status_code 200) as [->|Hne]; [reflexivity|].
    by rewrite bool_decide_eq_false_2. }
  destruct ((200 <=? status_code)%Z && (status_code <=? 299)%Z) eqn:Hcode.
  - apply andb_true_iff in Hcode as [H1%Z.leb_le H2%Z.leb_le]. split.
    + intros [= <-]. split; [exact Hid|]. exists status_code, body.
      split; [reflexivity|]. split; [lia|exact Heq].
    + intros (_ & c & b & [= <- <-] & _ & ->). by rewrite Heq.
  - split.
    + destruct (status_code =? 404)%Z; discriminate.
    + intros (_ & c & b & [= <- <-] & [H1 H2] & _).
      apply andb_false_iff in Hcode as [Hc%Z.leb_gt|Hc%Z.leb_gt]; lia.
Qed.

(** With at least three replies at hand, [get_planning_status] and
    [cancel_planning_request] make between one and three attempts.  A
    value they return is the one of their last attempt, all earlier
    attempts having raised; and the only exception that leaves them is
    [RetryError], after three attempts that all raised: the errors of the
    attempts themselves never reach the caller.  An empty request id ends
    that way whatever the replies. *)
Theorem earthn_calls_retry (request_id : string) (replies : list http_reply) :
  (3 <= length replies)%nat ->
  (exists n r,
     get_planning_status request_id replies = Some (n, r)
     /\ (1 <= n <= 3)%nat
     /\ (forall status, r = Ok status ->
           (exists reply, replies !! (n - 1)%nat = Some reply
                          /\ get_planning_status_attempt request_id reply = Ok status)
           /\ Forall (fun x => is_Raise (get_planning_status_attempt request_id x))
                (take (n - 1) replies))
     /\ (forall e, r = Raise e ->
           n = 3%nat /\ e = Exception RetryError "RetryError"
           /\ Forall (fun x => is_Raise (get_planning_status_attempt request_id x))
                (take 3 replies)))
  /\ (exists n r,
        cancel_planning_request request_id replies = Some (n, r)
        /\ (1 <= n <= 3)%nat
        /\ (forall cancelled, r = Ok cancelled ->
              (exists reply, replies !! (n - 1)%nat = Some reply
                             /\ cancel_planning_request_attempt request_id reply
                                = Ok cancelled)
              /\ Forall (fun x => is_Raise (cancel_planning_request_attempt request_id x))
                   (take (n - 1) replies))
        /\ (forall e, r = Raise e ->
              n = 3%nat /\ e = Exception RetryError "RetryError"
              /\ Forall (fun x => is_Raise (cancel_planning_request_attempt request_id x))
                   (take 3 replies)))
  /\ (request_id = "" ->
      get_planning_status request_id replies
        = Some (3%nat, Raise (Exception RetryError "RetryError"))
      /\ cancel_planning_request request_id replies
        = Some (3%nat, Raise (Exception RetryError "RetryError"))).
Proof.
  intros Hlen. unfold get_planning_status, cancel_planning_request, MAX_RETRIES.
  split; [|split].
  - destruct (retrying_outcome (get_planning_status_attempt request_id) 3 replies 0 Hlen)
      as (k & r & Hrun & Hk & HOk & HRaise).
    exists k, r. split; [exact Hrun|]. split.
    + destruct r as [a|e].
      * destruct (HOk a eq_refl) as [? _]. lia.
      * destruct (HRaise e eq_refl) as [-> _]. lia.
    + split.
      * intros status Hs. destruct (HOk status Hs) as (_ & ? & ?). by split.
      * exact HRaise.
  - destruct (retrying_outcome (cancel_planning_request_attempt request_id) 3 replies 0 Hlen)
      as (k & r & Hrun & Hk & HOk & HRaise).
    exists k, r. split; [exact Hrun|]. split.
    + destruct r as [a|e].
      * destruct (HOk a eq_refl) as [? _]. lia.
      * destruct (HRaise e eq_refl) as [-> _]. lia.
    + split.
      * intros cancelled Hs. destruct (HOk cancelled Hs) as (_ & ? & ?). by split.
      * exact HRaise.
  - intros ->.
    destruct replies as [|r1 [|r2 [|r3 replies]]]; try (simpl in Hlen; lia).
    split; reflexivity.
Qed.

Lemma earthn_calls_retry_witness :
  get_planning_status ""
    [HttpResponse 200 body_processing; HttpResponse 200 body_processing;
     HttpResponse 200 body_processing]
  = Some (3%nat, Raise (Exception RetryError "RetryError")).
Proof.
  refine (proj1 (proj2 (proj2 (earthn_calls_retry ""
            [HttpResponse 200 body_processing; HttpResponse 200 body_processing;
             HttpResponse 200 body_processing] _)) eq_refl)).
  simpl. lia.
Defined.

(** ** The plan cache *)

(** [_cleanup_cache] removes exactly the entries written more than
    [PLAN_CACHE_TTL] seconds before the current time: an entry whose age
    is the TTL or less keeps its key, plan and timestamp, and nothing is
    added. *)
Theorem cleanup_cache_lookup (current_time : Q)
  (plan_cache : gmap (string * string * Z) (CollectionPlan.t * Q))
  (key : string * string * Z) :
  _cleanup_cache current_time plan_cache !! key
  = match plan_cache !! key with
    | Some entry =>
        if Qltb PLAN_CACHE_TTL (current_time - entry.2) then None else Some entry
    | None => None
    end.
Proof.
  unfold _cleanup_cache.
  set (expired := fmap _ (filter _ (map_to_list plan_cache))).
  assert (key ∈ expired <->
          exists entry, plan_cache !! key = Some entry
                        /\ Qltb PLAN_CACHE_TTL (current_time - entry.2) = true) as Hin.
  { subst expired. rewrite list_elem_of_fmap. split.
    - intros ([k entry] & -> & Hf). apply list_elem_of_filter in Hf as [Hold Hkv].
      apply elem_of_map_to_list in Hkv. by exists entry.
    - intros (entry & Hlook & Hold). exists (key, entry). split; [reflexivity|].
      apply list_elem_of_filter. split; [exact Hold|]. by apply elem_of_map_to_list. }
  destruct (plan_cache !! key) as [entry|] eqn:Hlook.
  - destruct (Qltb PLAN_CACHE_TTL (current_time - entry.2)) eqn:Hold.
    + apply lookup_foldr_delete, Hin. by exists entry.
    + rewrite lookup_foldr_delete_not_elem_of; [exact Hlook|].
      intros (entry' & [= <-] & Hold')%Hin. congruence.
  - rewrite lookup_foldr_delete_not_elem_of; [exact Hlook|].
    intros (entry' & ? & _)%Hin. discriminate.
Qed.

(** ** What an optimisation attempt can leave behind *)

Lemma add_all_cases (now : datetime) (ws : list window) (p : CollectionPlan.t) :
  add_all now ws p =
  match ws with
  | [] => (p, Ok tt)
  | _ :: _ => (p, Raise (Exception AttributeError
                           "'dict' object has no attribute 'validate'"))
  end.
Proof. by destruct ws. Qed.

Lemma process_optimization_results_cases (now : datetime) (rs : results)
  (p : CollectionPlan.t) :
  process_optimization_results now rs p =
  match final_windows rs (CollectionPlan.optimization_parameters p) with
  | Ok [] =>
      CollectionPlan.update_status now "OPTIMIZED" (CollectionPlan.set_confidence_score 0 p)
  | Ok (_ :: _) =>
      (p, Raise (Exception AttributeError "'dict' object has no attribute 'validate'"))
  | Raise e => (p, Raise e)
  end.
Proof.
  unfold process_optimization_results, mbind, stateful_bind, sbind, sget, slift.
  destruct (final_windows rs _) as [[|w ws]|e]; [|reflexivity|reflexivity].
  rewrite add_all_cases. reflexivity.
Qed.

(** [process_optimization_results] never adds a window to the plan.  It
    raises as soon as there is a window to add, leaving the plan as it
    was; it returns only when scoring, optimising and merging leave no
    window at all and the plan is PROCESSING, and the plan is then
    OPTIMIZED with confidence 0. *)
Theorem process_optimization_results_adds_no_window (now : datetime) (rs : results)
  (p : CollectionPlan.t) :
  CollectionPlan.collection_windows (process_optimization_results now rs p).1
  = CollectionPlan.collection_windows p
  /\ (is_Ok (process_optimization_results now rs p).2 <->
      final_windows rs (CollectionPlan.optimization_parameters p) = Ok []
      /\ CollectionPlan.status p = "PROCESSING")
  /\ (is_Ok (process_optimization_results now rs p).2 ->
      (process_optimization_results now rs p).1
      = CollectionPlan.set_updated_at now
          (CollectionPlan.set_status "OPTIMIZED" (CollectionPlan.set_confidence_score 0 p)))
  /\ (forall w ws,
        final_windows rs (CollectionPlan.optimization_parameters p) = Ok (w :: ws) ->
        process_optimization_results now rs p
        = (p, Raise (Exception AttributeError "'dict' object has no attribute 'validate'"))).
Proof.
  rewrite process_optimization_results_cases.
  destruct (final_windows rs _) as [[|w ws]|e].
  - rewrite update_status_cases.
    change (CollectionPlan.status (CollectionPlan.set_confidence_score 0 p))
      with (CollectionPlan.status p).
    destruct (legal_transition (CollectionPlan.status p) "OPTIMIZED") eqn:Hl.
    + apply legal_transition_spec in Hl.
      assert (CollectionPlan.status p = "PROCESSING") as Hs.
      { destruct Hl as [[_ ?]|[[? _]|[[_ ?]|[_ ?]]]]; [discriminate|done|discriminate..]. }
      split; [reflexivity|]. split; [|split; [reflexivity|discriminate]].
      split; [intros _; by split|intros _; by exists tt].
    + assert (CollectionPlan.status p <> "PROCESSING") as Hs.
      { intros Hs. rewrite Hs in Hl. discriminate. }
      destruct (bool_decide _);
        [destruct (CollectionPlan.valid_transitions !! _)|];
        (split; [reflexivity|];
         split; [split; [intros [? ?]; discriminate|intros [_ ?]; done]|];
         split; [intros [? ?]; discriminate|discriminate]).
  - split; [reflexivity|]. split; [|split].
    + split; [intros [? ?]; discriminate|intros [? _]; discriminate].
    + intros [? ?]; discriminate.
    + intros ? ? _. reflexivity.
  - split; [reflexivity|]. split; [|split].
    + split; [intros [? ?]; discriminate|intros [? _]; discriminate].
    + intros [? ?]; discriminate.
    + discriminate.
Qed.

(** An attempt of [optimize_collection_plan] on a plan that is not cached
    and not in DRAFT fails before anything is submitted to the oracle:
    its own [update_status('PROCESSING')] raises.  The attempt counts as
    failed but not as an optimisation, cache and windows stay as they
    were, and a plan that was already PROCESSING, which is how
    [PlanningService.optimize_plan] hands it over, ends FAILED. *)
Theorem optimize_collection_plan_needs_draft (env : environment) (w : world) :
  optimization_cache w !! cache_key (plan w) = None ->
  CollectionPlan.status (plan w) <> "DRAFT" ->
  exists w' e,
    optimize_collection_plan env w = Some (w', Raise e)
    /\ total_optimizations (metrics w') = total_optimizations (metrics w)
    /\ failed_attempts (metrics w') = S (failed_attempts (metrics w))
    /\ optimization_cache w' = optimization_cache w
    /\ CollectionPlan.collection_windows (plan w')
       = CollectionPlan.collection_windows (plan w)
    /\ (CollectionPlan.status (plan w) = "PROCESSING" ->
        e = Exception ValidationError "Invalid status transition"
        /\ plan w' = CollectionPlan.set_updated_at (wall_now env)
                       (CollectionPlan.set_status "FAILED" (plan w)))
    /\ (CollectionPlan.status (plan w) <> "PROCESSING" -> plan w' = plan w).
Proof.
  intros Hcache Hstatus.
  unfold optimize_collection_plan, try_except, mbind, task_bind, tbind, tlift, sget.
  rewrite Hcache. unfold on_plan.
  rewrite update_status_cases.
  assert (legal_transition (CollectionPlan.status (plan w)) "PROCESSING" = false) as ->.
  { destruct (legal_transition _ _) eqn:Hl; [|reflexivity].
    apply legal_transition_spec in Hl.
    destruct Hl as [[? _]|[[_ ?]|[[_ ?]|[_ ?]]]]; [done|discriminate..]. }
  rewrite bool_decide_eq_true_2 by (unfold PLAN_STATUS_TYPES; set_solver).
  pose proof (update_status_cases (wall_now env) "FAILED" (plan w)) as Hfail.
  destruct (CollectionPlan.valid_transitions !! CollectionPlan.status (plan w)) as [allowed|]
    eqn:Hlook.
  - cbn iota beta. unfold smodify. cbn [plan metrics optimization_cache max_concurrent set_metrics].
    rewrite Hfail.
    destruct (legal_transition (CollectionPlan.status (plan w)) "FAILED") eqn:Hl.
    + apply legal_transition_spec in Hl.
      assert (CollectionPlan.status (plan w) = "PROCESSING") as Hs.
      { destruct Hl as [[_ ?]|[[_ ?]|[[? _]|[_ ?]]]]; [discriminate..|done|discriminate]. }
      do 2 eexists. split; [reflexivity|].
      cbn [plan metrics optimization_cache total_optimizations failed_attempts].
      split; [reflexivity|]. split; [reflexivity|]. split; [reflexivity|].
      split; [reflexivity|]. split; [intros _; split; reflexivity|].
      intros Hne. by destruct Hne.
    + assert (CollectionPlan.status (plan w) <> "PROCESSING") as Hs.
      { intros Hs. rewrite Hs in Hl. discriminate. }
      rewrite bool_decide_eq_true_2 by (unfold PLAN_STATUS_TYPES; set_solver).
      do 2 eexists. split; [reflexivity|].
      cbn [plan metrics optimization_cache total_optimizations failed_attempts].
      split; [reflexivity|]. split; [reflexivity|]. split; [reflexivity|].
      split; [reflexivity|]. split; [intros Heq; by destruct Hs|].
      intros _. reflexivity.
  - cbn iota beta. unfold smodify. cbn [plan metrics optimization_cache max_concurrent set_metrics].
    rewrite Hfail.
    assert (CollectionPlan.status (plan w) <> "PROCESSING") as Hs.
    { intros Hs. rewrite Hs in Hlook. discriminate. }
    assert (legal_transition (CollectionPlan.status (plan w)) "FAILED" = false) as ->.
    { destruct (legal_transition _ _) eqn:Hl; [|reflexivity].
      apply legal_transition_spec in Hl.
      destruct Hl as [[_ ?]|[[_ ?]|[[? _]|[_ ?]]]]; [discriminate..|done|discriminate]. }
    rewrite bool_decide_eq_true_2 by (unfold PLAN_STATUS_TYPES; set_solver).
    do 2 eexists. split; [reflexivity|].
    cbn [plan metrics optimization_cache total_optimizations failed_attempts].
    split; [reflexivity|]. split; [reflexivity|]. split; [reflexivity|].
    split; [reflexivity|]. split; [intros Heq; by destruct Hs|].
    intros _. reflexivity.
Qed.

Lemma optimize_collection_plan_needs_draft_witness :
  exists w' e,
    optimize_collection_plan never_completed
      (World (CollectionPlan.set_status "PROCESSING" example_plan) ∅
         (PerformanceMetrics 0 0 0 0) MAX_CONCURRENT_OPTIMIZATIONS)
    = Some (w', Raise e)
    /\ CollectionPlan.status (plan w') = "FAILED".
Proof.
  destruct (optimize_collection_plan_needs_draft never_completed
              (World (CollectionPlan.set_status "PROCESSING" example_plan) ∅
                 (PerformanceMetrics 0 0 0 0) MAX_CONCURRENT_OPTIMIZATIONS))
    as (w' & e & Hrun & _ & _ & _ & _ & Hprocessing & _).
  - reflexivity.
  - discriminate.
  - exists w', e. split; [exact Hrun|].
    destruct (Hprocessing eq_refl) as [_ ->]. reflexivity.
Defined.

(** An attempt on a draft plan that is not cached, once it ends, has
    counted one optimisation and added no window.  Either it raised, the
    plan is FAILED, one more failed attempt is counted and the cache is
    as it was; or it returned the plan, now OPTIMIZED with confidence 0,
    and stored it in the cache under the plan's key. *)
Theorem optimize_collection_plan_outcomes (env : environment) (w w' : world)
  (r : result CollectionPlan.t) :
  optimization_cache w !! cache_key (plan w) = None ->
  CollectionPlan.status (plan w) = "DRAFT" ->
  optimize_collection_plan env w = Some (w', r) ->
  total_optimizations (metrics w') = S (total_optimizations (metrics w))
  /\ CollectionPlan.collection_windows (plan w')
     = CollectionPlan.collection_windows (plan w)
  /\ cache_key (plan w') = cache_key (plan w)
  /\ ((exists e, r = Raise e
                 /\ CollectionPlan.status (plan w') = "FAILED"
                 /\ failed_attempts (metrics w') = S (failed_attempts (metrics w))
                 /\ optimization_cache w' = optimization_cache w)
      \/ (r = Ok (plan w')
          /\ CollectionPlan.status (plan w') = "OPTIMIZED"
          /\ CollectionPlan.confidence_score (plan w') = 0
          /\ failed_attempts (metrics w') = failed_attempts (metrics w)
          /\ optimization_cache w'
             = <[cache_key (plan w) := plan w']> (optimization_cache w))).
Proof.
  intros Hcache Hstatus.
  unfold optimize_collection_plan, try_except, mbind, task_bind, tbind, tlift, sget.
  rewrite Hcache. unfold on_plan.
  rewrite update_status_cases, Hstatus.
  change (legal_transition "DRAFT" "PROCESSING") with true. cbn iota beta.
  unfold smodify, slift.
  cbn [plan metrics optimization_cache max_concurrent set_metrics].
  destruct (submit_reply env) as [request_id|e].
  2:{ rewrite update_status_cases. intros [= <- <-].
      split; [reflexivity|]. split; [reflexivity|]. split; [reflexivity|].
      left. eexists. split; [reflexivity|]. split; [reflexivity|]. split; reflexivity. }
  destruct (poll_loop _ _) as [[result|e]|]; [| |discriminate].
  2:{ rewrite update_status_cases. intros [= <- <-].
      split; [reflexivity|]. split; [reflexivity|]. split; [reflexivity|].
      left. eexists. split; [reflexivity|]. split; [reflexivity|]. split; reflexivity. }
  destruct (falsy_result result).
  { unfold sraise. cbn [plan metrics optimization_cache max_concurrent set_metrics].
    rewrite update_status_cases. intros [= <- <-].
    split; [reflexivity|]. split; [reflexivity|]. split; [reflexivity|].
    left. eexists. split; [reflexivity|]. split; [reflexivity|]. split; reflexivity. }
  cbn [plan metrics optimization_cache max_concurrent set_metrics].
  rewrite process_optimization_results_cases.
  destruct (final_windows _ _) as [[|x xs]|e].
  - rewrite update_status_cases.
    change (legal_transition _ "OPTIMIZED") with true. cbn iota beta.
    cbn [plan metrics optimization_cache max_concurrent set_metrics set_cache].
    intros [= <- <-].
    split; [reflexivity|]. split; [reflexivity|]. split; [reflexivity|].
    right. split; [reflexivity|]. split; [reflexivity|]. split; [reflexivity|].
    split; reflexivity.
  - cbn [plan metrics optimization_cache max_concurrent set_metrics].
    rewrite update_status_cases. intros [= <- <-].
    split; [reflexivity|]. split; [reflexivity|]. split; [reflexivity|].
    left. eexists. split; [reflexivity|]. split; [reflexivity|]. split; reflexivity.
  - cbn [plan metrics optimization_cache max_concurrent set_metrics].
    rewrite update_status_cases. intros [= <- <-].
    split; [reflexivity|]. split; [reflexivity|]. split; [reflexivity|].
    left. eexists. split; [reflexivity|]. split; [reflexivity|]. split; reflexivity.
Qed.

Lemma optimize_collection_plan_outcomes_witness :
  exists w' p,
    optimize_collection_plan
      (completed_at_once (Results (Some [OracleWindow 0%Z (seconds 3600) no_scores None]) None))
      example_world
    = Some (w', Ok p)
    /\ total_optimizations (metrics w') = 1%nat
    /\ CollectionPlan.collection_windows (plan w') = [].
Proof.
  do 2 eexists. split; [vm_compute; reflexivity|].
  edestruct (optimize_collection_plan_outcomes
               (completed_at_once
                  (Results (Some [OracleWindow 0%Z (seconds 3600) no_scores None]) None))
               example_world) as (Htotal & Hwindows & _).
  - reflexivity.
  - reflexivity.
  - vm_compute. reflexivity.
  - split; [exact Htotal|exact Hwindows].
Defined.

(** ** Asset *)

Lemma Asset_validate_result (a : Asset.t) (b : bool) :
  Asset.validate a = Ok b -> b = true.
Proof.
  unfold Asset.validate.
  repeat (match goal with
          | |- context [if negb ?c then _ else _] => destruct c; cbn [negb]
          end; try discriminate).
  congruence.
Qed.

Lemma required_properties_present (d : gmap string py_value) :
  isinstance_int_float (d !! "resolution") = true ->
  isinstance_list (d !! "spectral_bands") = true ->
  isinstance_int (d !! "revisit_time") = true ->
  REQUIRED_PROPERTIES ⊆ dom d.
Proof.
  intros H1 H2 H3. unfold REQUIRED_PROPERTIES.
  assert (is_Some (d !! "resolution")) as I1 by (destruct (d !! "resolution"); [eauto|done]).
  assert (is_Some (d !! "spectral_bands")) as I2
    by (destruct (d !! "spectral_bands"); [eauto|done]).
  assert (is_Some (d !! "revisit_time")) as I3
    by (destruct (d !! "revisit_time"); [eauto|done]).
  apply elem_of_dom in I1, I2, I3. set_solver.
Qed.

Lemma Asset_validate_ok (a : Asset.t) :
  Asset.validate a = Ok true <->
  Asset.type a ∈ VALID_ASSET_TYPES
  /\ MIN_SIZE <= Asset.min_size a <= MAX_SIZE
  /\ MIN_DETECTION_LIMIT <= Asset.detection_limit a <= MAX_DETECTION_LIMIT
  /\ isinstance_int_float (Asset.properties a !! "resolution") = true
  /\ isinstance_list (Asset.properties a !! "spectral_bands") = true
  /\ isinstance_int (Asset.properties a !! "revisit_time") = true
  /\ Asset.schema_version a = CURRENT_SCHEMA_VERSION.
Proof.
  unfold Asset.validate.
  destruct (bool_decide (Asset.type a ∈ VALID_ASSET_TYPES)) eqn:Ht; cbn [negb].
  2:{ apply bool_decide_eq_false in Ht. split; [discriminate|]. by intros [? _]. }
  apply bool_decide_eq_true in Ht.
  destruct (Qle_bool MIN_SIZE (Asset.min_size a) && Qle_bool (Asset.min_size a) MAX_SIZE)
    eqn:Hs; cbn [negb].
  2:{ split; [discriminate|]. intros (_ & [H1 H2] & _).
      apply Qle_bool_iff in H1, H2. rewrite H1, H2 in Hs. discriminate. }
  apply andb_true_iff in Hs as [Hs1%Qle_bool_iff Hs2%Qle_bool_iff].
  destruct (Qle_bool MIN_DETECTION_LIMIT (Asset.detection_limit a)
            && Qle_bool (Asset.detection_limit a) MAX_DETECTION_LIMIT) eqn:Hd; cbn [negb].
  2:{ split; [discriminate|]. intros (_ & _ & [H1 H2] & _).
      apply Qle_bool_iff in H1, H2. rewrite H1, H2 in Hd. discriminate. }
  apply andb_true_iff in Hd as [Hd1%Qle_bool_iff Hd2%Qle_bool_iff].
  destruct (bool_decide (REQUIRED_PROPERTIES ⊆ dom (Asset.properties a))) eqn:Hp; cbn [negb].
  2:{ apply bool_decide_eq_false in Hp. split; [discriminate|].
      intros (_ & _ & _ & H1 & H2 & H3 & _). destruct Hp.
      by apply required_properties_present. }
  destruct (isinstance_int_float _) eqn:H1; cbn [negb];
    [|split; [discriminate|intros (_ & _ & _ & ? & _); discriminate]].
  destruct (isinstance_list _) eqn:H2; cbn [negb];
    [|split; [discriminate|intros (_ & _ & _ & _ & ? & _); discriminate]].
  destruct (isinstance_int _) eqn:H3; cbn [negb];
    [|split; [discriminate|intros (_ & _ & _ & _ & _ & ? & _); discriminate]].
  destruct (bool_decide (Asset.schema_version a = CURRENT_SCHEMA_VERSION)) eqn:Hv; cbn [negb].
  2:{ apply bool_decide_eq_false in Hv. split; [discriminate|].
      by intros (_ & _ & _ & _ & _ & _ & ?). }
  apply bool_decide_eq_true in Hv.
  split; [intros _|reflexivity].
  split; [exact Ht|]. split; [by split|]. split; [by split|].
  split; [reflexivity|]. split; [reflexivity|]. split; [reflexivity|exact Hv].
Qed.

(** [Asset.validate] never returns [False]; it returns exactly when the
    type is a known one, size and detection limit are within their
    ranges, the three required properties are present with a numeric
    resolution, a list of spectral bands and an integer revisit time, and
    the schema version is the current one.  A boolean counts as a number
    and as an integer. *)
Theorem Asset_validate_accepts (a : Asset.t) :
  (forall b, Asset.validate a = Ok b -> b = true)
  /\ (is_Ok (Asset.validate a) <->
      Asset.type a ∈ VALID_ASSET_TYPES
      /\ MIN_SIZE <= Asset.min_size a <= MAX_SIZE
      /\ MIN_DETECTION_LIMIT <= Asset.detection_limit a <= MAX_DETECTION_LIMIT
      /\ (exists v, Asset.properties a !! "resolution" = Some v
                    /\ ((exists b, v = PyBool b) \/ (exists n, v = PyInt n)
                        \/ (exists x, v = PyFloat x)))
      /\ (exists items, Asset.properties a !! "spectral_bands" = Some (PyList items))
      /\ (exists v, Asset.properties a !! "revisit_time" = Some v
                    /\ ((exists b, v = PyBool b) \/ (exists n, v = PyInt n)))
      /\ Asset.schema_version a = CURRENT_SCHEMA_VERSION).
Proof.
  split; [apply Asset_validate_result|].
  assert (is_Ok (Asset.validate a) <-> Asset.validate a = Ok true) as ->.
  { split; [|by exists true]. intros [b Hb].
    by rewrite (Asset_validate_result _ _ Hb) in Hb. }
  rewrite Asset_validate_ok.
  assert (isinstance_int_float (Asset.properties a !! "resolution") = true <->
          exists v, Asset.properties a !! "resolution" = Some v
                    /\ ((exists b, v = PyBool b) \/ (exists n, v = PyInt n)
                        \/ (exists x, v = PyFloat x))) as ->.
  { split.
    - destruct (Asset.properties a !! "resolution") as [[]|]; simpl; intros H;
        try discriminate H; (eexists; split; [reflexivity|]; eauto).
    - intros (v & -> & [[? ->]|[[? ->]|[? ->]]]); reflexivity. }
  assert (isinstance_list (Asset.properties a !! "spectral_bands") = true <->
          exists items, Asset.properties a !! "spectral_bands" = Some (PyList items)) as ->.
  { split.
    - destruct (Asset.properties a !! "spectral_bands") as [[]|]; simpl; intros H;
        try discriminate H; by eexists.
    - intros (items & ->). reflexivity. }
  assert (isinstance_int (Asset.properties a !! "revisit_time") = true <->
          exists v, Asset.properties a !! "revisit_time" = Some v
                    /\ ((exists b, v = PyBool b) \/ (exists n, v = PyInt n))) as ->.
  { split.
    - destruct (Asset.properties a !! "revisit_time") as [[]|]; simpl; intros H;
        try discriminate H; (eexists; split; [reflexivity|]; eauto).
    - intros (v & -> & [[? ->]|[? ->]]); reflexivity. }
  reflexivity.
Qed.

(** The detection-limit range and the asset types of [asset.py] are the
    ones [interpolate_detection_limits] checks: the type and detection
    limit of a valid asset are always accepted, whatever the distance, and
    the interpolated limit is again a detection limit a valid asset may
    have. *)
Theorem valid_asset_interpolates (a : Asset.t) (distance : Q) :
  Asset.validate a = Ok true ->
  exists v,
    interpolate_detection_limits (Asset.detection_limit a) distance (Asset.type a) = Ok v
    /\ MIN_DETECTION_LIMIT <= v <= MAX_DETECTION_LIMIT.
Proof.
  intros (Ht & _ & Hd & _)%Asset_validate_ok.
  destruct (interpolate_detection_limits_value (Asset.detection_limit a) distance _ Ht Hd)
    as (factor & _ & _ & ->).
  eexists. split; [reflexivity|]. apply np_clip_bounds. discriminate.
Qed.

Lemma valid_asset_interpolates_witness :
  exists v,
    interpolate_detection_limits 5 250 "AGRICULTURE" = Ok v
    /\ MIN_DETECTION_LIMIT <= v <= MAX_DETECTION_LIMIT.
Proof.
  apply (valid_asset_interpolates example_asset 250). reflexivity.
Defined.

(** [Asset.update] is not atomic.  A dict with a key that may not be
    updated is refused before anything changes; otherwise the new values
    and the new [updated_at] are written first and validated afterwards,
    so an update that raises at validation leaves the asset with the
    refused values.  After an update that returns, the asset is valid;
    [id] and [created_at] never change. *)
Theorem Asset_update_outcomes (now : datetime) (u : Asset.updates) (a a' : Asset.t)
  (r : result unit) :
  Asset.update now u a = (a', r) ->
  Asset.id a' = Asset.id a /\ Asset.created_at a' = Asset.created_at a
  /\ (r = Ok tt ->
      Asset.u_other u = [] /\ Asset.validate a' = Ok true
      /\ a' = Asset.set_updated_at now (Asset.apply_updates u a))
  /\ (forall e, r = Raise e ->
        (Asset.u_other u <> [] /\ a' = a
         /\ e = Exception ValidationError "Invalid update fields")
        \/ (Asset.u_other u = []
            /\ a' = Asset.set_updated_at now (Asset.apply_updates u a)
            /\ Asset.validate a' = Raise e)).
Proof.
  unfold Asset.update.
  destruct (bool_decide (Asset.u_other u = [])) eqn:Ho; cbn [negb].
  - apply bool_decide_eq_true in Ho.
    unfold mbind, stateful_bind, sbind, smodify, sget, slift, sret.
    destruct (Asset.validate (Asset.set_updated_at now (Asset.apply_updates u a)))
      as [b|e] eqn:Hv; intros [= <- <-].
    + split; [reflexivity|]. split; [reflexivity|]. split; [|discriminate].
      intros _. split; [exact Ho|]. split; [|reflexivity].
      by rewrite (Asset_validate_result _ _ Hv) in Hv.
    + split; [reflexivity|]. split; [reflexivity|]. split; [discriminate|].
      intros e' [= <-]. right. split; [exact Ho|]. split; [reflexivity|exact Hv].
  - apply bool_decide_eq_false in Ho. unfold sraise. intros [= <- <-].
    split; [reflexivity|]. split; [reflexivity|]. split; [discriminate|].
    intros e [= <-]. left. split; [exact Ho|]. split; reflexivity.
Qed.

Lemma Asset_update_outcomes_witness :
  exists a' e,
    Asset.update 9%Z (Asset.Updates None (Some "MARITIME") None None None None [])
      example_asset = (a', Raise e)
    /\ Asset.type a' = "MARITIME"
    /\ Asset.validate a' = Raise e.
Proof.
  do 2 eexists. split; [reflexivity|].
  destruct (Asset_update_outcomes 9%Z
              (Asset.Updates None (Some "MARITIME") None None None None [])
              example_asset _ _ eq_refl) as (_ & _ & _ & Hraise).
  destruct (Hraise _ eq_refl) as [(Hother & _)|(_ & _ & Hv)].
  - by destruct Hother.
  - split; [reflexivity|exact Hv].
Defined.
